(** * Weather & Style Assistant: intent extraction, outfit rules, photo
      lookup, weather proxy and the image-generation poll loop.

    The development embeds the logic-bearing functions of
    [src/App.tsx] (client) and of the server file that defines the
    [/make-server-0cb63601/...] routes, and states the specification's
    properties over them.

    Strings are Rocq strings, read as UTF-8 text.  Case mapping,
    whitespace and word characters follow JavaScript on the ASCII range,
    which is where every pattern of the source lives; bytes above 127
    are neither letters, nor blanks, nor word characters. *)

From Stdlib Require Import String Ascii List Bool Arith ZArith QArith Qround
  Qminmax DecimalString Lia Lqa.
Import ListNotations.

Close Scope Q_scope.
Open Scope string_scope.
Open Scope list_scope.
Open Scope nat_scope.

(* ===================================================================== *)
(** ** JavaScript string primitives used by the source                    *)
(* ===================================================================== *)

Module JS.

Definition code (c : ascii) : nat := nat_of_ascii c.

(** [A-Z] *)
Definition isUpper (c : ascii) : bool := (65 <=? code c) && (code c <=? 90).

(** [a-z] *)
Definition isLower (c : ascii) : bool := (97 <=? code c) && (code c <=? 122).

Definition isDigit (c : ascii) : bool := (48 <=? code c) && (code c <=? 57).

(** The regular-expression class [\s] and the characters [trim] strips,
    on the ASCII range: TAB, LF, VT, FF, CR and SPACE.  The blanks
    JavaScript knows beyond it (U+00A0, U+2028 and the like) are
    several bytes here and count as ordinary characters. *)
Definition isSpace (c : ascii) : bool :=
  ((9 <=? code c) && (code c <=? 13)) || (code c =? 32).

(** The class [\w], which decides [\b]. *)
Definition isWord (c : ascii) : bool :=
  isUpper c || isLower c || isDigit c || (code c =? 95).

Definition lowerChar (c : ascii) : ascii :=
  if isUpper c then ascii_of_nat (code c + 32) else c.

Definition upperChar (c : ascii) : ascii :=
  if isLower c then ascii_of_nat (code c - 32) else c.

(** [s.toLowerCase()], on the letters [A-Z]; other characters are kept. *)
Fixpoint toLowerCase (s : string) : string :=
  match s with
  | EmptyString => EmptyString
  | String c s' => String (lowerChar c) (toLowerCase s')
  end.

Fixpoint trimStart (s : string) : string :=
  match s with
  | EmptyString => EmptyString
  | String c s' => if isSpace c then trimStart s' else s
  end.

Fixpoint trimEnd (s : string) : string :=
  match s with
  | EmptyString => EmptyString
  | String c s' =>
      match trimEnd s' with
      | EmptyString => if isSpace c then EmptyString else String c EmptyString
      | t => String c t
      end
  end.

(** [s.trim()] *)
Definition trim (s : string) : string := trimEnd (trimStart s).

(** [hay.includes(needle)] *)
Fixpoint includes (hay needle : string) : bool :=
  if String.prefix needle hay then true
  else match hay with
       | EmptyString => false
       | String _ hay' => includes hay' needle
       end.

(** [s.split(sep)] for a one-character separator: the pieces between
    the separators, empty pieces included, and [[""]] for the empty
    string. *)
Fixpoint split (sep : ascii) (s : string) : list string :=
  match s with
  | EmptyString => [EmptyString]
  | String c s' =>
      let r := split sep s' in
      if Ascii.eqb c sep then EmptyString :: r
      else match r with
           | w :: ws => String c w :: ws
           | [] => [String c EmptyString]
           end
  end.

(** Truthiness of a string: only the empty string is falsy. *)
Definition truthy (s : string) : bool :=
  match s with EmptyString => false | _ => true end.

(** Truthiness of a string that may be [undefined]. *)
Definition truthyOpt (x : option string) : bool :=
  match x with Some s => truthy s | None => false end.

(** [x || dflt] on a string that may be [undefined]. *)
Definition orElse (x : option string) (dflt : string) : string :=
  match x with
  | Some s => if truthy s then s else dflt
  | None => dflt
  end.

(** The first [n] characters of [s]. *)
Fixpoint take (n : nat) (s : string) : string :=
  match n, s with
  | S n', String c s' => String c (take n' s')
  | _, _ => EmptyString
  end.

(** [s.charAt(0).toUpperCase() + s.slice(1)], on the letters [a-z]. *)
Definition capitalize (s : string) : string :=
  match s with
  | EmptyString => EmptyString
  | String c s' => String (upperChar c) s'
  end.

End JS.

(* ===================================================================== *)
(** ** A backtracking matcher for the regular expressions of the source   *)
(* ===================================================================== *)

(** The fragment the source uses: literals, character classes, greedy and
    lazy repetition of a class, alternation tried left to right, capture
    groups, [$] and [\b].  Matching is the ECMAScript backtracking
    search: the leftmost start position wins, and at one start position
    the first success in priority order wins. *)

Module Regex.

Inductive regex : Type :=
| Eps
| Cls (p : ascii -> bool)          (* one character of a class *)
| Seq (r1 r2 : regex)
| Alt (r1 r2 : regex)
| StarG (p : ascii -> bool)        (* p*   greedy *)
| StarL (p : ascii -> bool)        (* p*?  lazy *)
| Group (i : nat) (r : regex)      (* capture group number i *)
| Eol                              (* $ without the m flag *)
| WordB.                           (* \b *)

(** Matcher state: offset into the input, the character before the
    offset, the remaining input and the captures set so far. *)
Record mstate : Type := MState {
  pos : nat;
  prev : option ascii;
  rest : string;
  caps : list (nat * string)
}.

Definition kont : Type := mstate -> option mstate.

Fixpoint starG (p : ascii -> bool) (k : kont)
         (n : nat) (pv : option ascii) (s : string) (cs : list (nat * string))
  : option mstate :=
  match s with
  | String c s' =>
      if p c then
        match starG p k (S n) (Some c) s' cs with
        | Some r => Some r
        | None => k (MState n pv s cs)
        end
      else k (MState n pv s cs)
  | EmptyString => k (MState n pv s cs)
  end.

Fixpoint starL (p : ascii -> bool) (k : kont)
         (n : nat) (pv : option ascii) (s : string) (cs : list (nat * string))
  : option mstate :=
  match k (MState n pv s cs) with
  | Some r => Some r
  | None =>
      match s with
      | String c s' => if p c then starL p k (S n) (Some c) s' cs else None
      | EmptyString => None
      end
  end.

Definition wordAt (o : option ascii) : bool :=
  match o with Some c => JS.isWord c | None => false end.

Definition next (s : string) : option ascii :=
  match s with String c _ => Some c | EmptyString => None end.

Fixpoint run (r : regex) (st : mstate) (k : kont) : option mstate :=
  match r with
  | Eps => k st
  | Cls p =>
      match rest st with
      | String c s' =>
          if p c then k (MState (S (pos st)) (Some c) s' (caps st)) else None
      | EmptyString => None
      end
  | Seq r1 r2 => run r1 st (fun st' => run r2 st' k)
  | Alt r1 r2 =>
      match run r1 st k with
      | Some x => Some x
      | None => run r2 st k
      end
  | StarG p => starG p k (pos st) (prev st) (rest st) (caps st)
  | StarL p => starL p k (pos st) (prev st) (rest st) (caps st)
  | Group i r' =>
      run r' st (fun st' =>
        k (MState (pos st') (prev st') (rest st')
                  ((i, JS.take (pos st' - pos st) (rest st)) :: caps st')))
  | Eol => match rest st with EmptyString => k st | _ => None end
  | WordB =>
      if xorb (wordAt (prev st)) (wordAt (next (rest st))) then k st else None
  end.

(** One attempt anchored at the current offset. *)
Definition matchHere (r : regex) (n : nat) (pv : option ascii) (s : string)
  : option mstate :=
  run r (MState n pv s []) Some.

(** Leftmost match: the start offset and the final state. *)
Fixpoint search (r : regex) (n : nat) (pv : option ascii) (s : string)
  : option (nat * mstate) :=
  match matchHere r n pv s with
  | Some st => Some (n, st)
  | None =>
      match s with
      | String c s' => search r (S n) (Some c) s'
      | EmptyString => None
      end
  end.

(** The value of capture group [i] ([undefined] is [None]); the most
    recent setting is at the head. *)
Fixpoint capture (i : nat) (cs : list (nat * string)) : option string :=
  match cs with
  | [] => None
  | (j, v) :: cs' => if Nat.eqb i j then Some v else capture i cs'
  end.

(** [s.match(r)] for a regex without the g flag: the captures of the
    leftmost match. *)
Definition exec (r : regex) (s : string) : option (list (nat * string)) :=
  match search r 0 None s with
  | Some (_, st) => Some (caps st)
  | None => None
  end.

(** [s.replace(r, '')] with the g flag.  [skip] counts the characters of
    the current match still to be dropped; a match is looked for only
    when it is zero. *)
Fixpoint removeLoop (r : regex) (skip : nat) (n : nat) (pv : option ascii)
         (s : string) : string :=
  match s with
  | EmptyString => EmptyString
  | String c s' =>
      match skip with
      | S k => removeLoop r k (S n) (Some c) s'
      | O =>
          match matchHere r n pv s with
          | Some st =>
              match pos st - n with
              | S k => removeLoop r k (S n) (Some c) s'
              | O => String c (removeLoop r 0 (S n) (Some c) s')
              end
          | None => String c (removeLoop r 0 (S n) (Some c) s')
          end
      end
  end.

Definition removeAll (r : regex) (s : string) : string :=
  removeLoop r 0 0 None s.

(** *** Pattern constructors (the i flag is built into the classes) *)

(** A literal character under the i flag. *)
Definition chrI (c : ascii) : ascii -> bool :=
  fun x => Ascii.eqb (JS.lowerChar x) (JS.lowerChar c).

(** A literal character, case-sensitive. *)
Definition chr (c : ascii) : ascii -> bool := fun x => Ascii.eqb x c.

Fixpoint litI (s : string) : regex :=
  match s with
  | EmptyString => Eps
  | String c s' => Seq (Cls (chrI c)) (litI s')
  end.

(** [.] : any character but a line terminator. *)
Definition dot : ascii -> bool :=
  fun x => negb ((JS.code x =? 10) || (JS.code x =? 13)).

(** [[a-z\s]] under the i flag. *)
Definition alphaSpaceI : ascii -> bool :=
  fun x => JS.isLower (JS.lowerChar x) || JS.isSpace x.

Definition plusG (p : ascii -> bool) : regex := Seq (Cls p) (StarG p).
Definition plusL (p : ascii -> bool) : regex := Seq (Cls p) (StarL p).

Fixpoint seqs (rs : list regex) : regex :=
  match rs with
  | [] => Eps
  | [r] => r
  | r :: rs' => Seq r (seqs rs')
  end.

Fixpoint alts (r : regex) (rs : list regex) : regex :=
  match rs with
  | [] => r
  | r' :: rs' => Alt r (alts r' rs')
  end.

(** [\bword\b] under the i flag. *)
Definition wholeWordI (s : string) : regex := Seq WordB (Seq (litI s) WordB).

End Regex.

(* ===================================================================== *)
(** ** Location / intent extractor ([getWeatherResponse], client)        *)
(* ===================================================================== *)

Module Intent.
Import Regex.

Inductive intent : Type :=
| Compare (city1 city2 : string)
| SingleCity (location : string).

(** [/compare\s+(.+?)\s+(?:and|vs|versus)\s+(.+)/i],
    [/(.+?)\s+vs\s+(.+)/i], [/(.+?)\s+versus\s+(.+)/i] *)
Definition comparisonPatterns : list regex :=
  [ seqs [ litI "compare"; plusG JS.isSpace; Group 1 (plusL dot);
           plusG JS.isSpace; alts (litI "and") [litI "vs"; litI "versus"];
           plusG JS.isSpace; Group 2 (plusG dot) ];
    seqs [ Group 1 (plusL dot); plusG JS.isSpace; litI "vs";
           plusG JS.isSpace; Group 2 (plusG dot) ];
    seqs [ Group 1 (plusL dot); plusG JS.isSpace; litI "versus";
           plusG JS.isSpace; Group 2 (plusG dot) ] ].

(** [/(?:in|for|at)\s+([a-z\s]+?)(?:\s+today|\s+tomorrow|\s+tonight|\s+right now|\s+currently|\s*\?|$)/i] *)
Definition prepositionPatterns : list regex :=
  [ seqs [ alts (litI "in") [litI "for"; litI "at"];
           plusG JS.isSpace;
           Group 1 (plusL alphaSpaceI);
           alts (Seq (plusG JS.isSpace) (litI "today"))
                [ Seq (plusG JS.isSpace) (litI "tomorrow");
                  Seq (plusG JS.isSpace) (litI "tonight");
                  Seq (plusG JS.isSpace) (litI "right now");
                  Seq (plusG JS.isSpace) (litI "currently");
                  Seq (StarG JS.isSpace) (Cls (chr "?"));
                  Eol ] ] ].

(** The chain of [.replace(/.../gi, '')] calls, applied in order. *)
Definition removeEach (rs : list regex) (s : string) : string :=
  fold_left (fun acc r => removeAll r acc) rs s.

(** Cleaning of the first captured city. *)
Definition cleanCity1 (m1 : string) : string :=
  JS.trim (removeEach
    [ litI "compare"; litI "weather in"; litI "weather for"; litI "weather";
      litI "the"; Cls (chr "?") ] (JS.trim m1)).

(** Cleaning of the second captured city. *)
Definition cleanCity2 (m2 : string) : string :=
  JS.trim (removeEach
    [ litI "weather in"; litI "weather for"; litI "weather";
      litI "the"; Cls (chr "?") ] (JS.trim m2)).

(** The two truthy captures of [userMessage.match(pattern)], if any. *)
Definition matchPair (r : regex) (userMessage : string)
  : option (string * string) :=
  match exec r userMessage with
  | Some cs =>
      match capture 1 cs, capture 2 cs with
      | Some a, Some b =>
          if JS.truthy a && JS.truthy b then Some (a, b) else None
      | _, _ => None
      end
  | None => None
  end.

(** The loop over [comparisonPatterns]: the first pattern that matches
    with two non-empty captures decides. *)
Fixpoint firstComparison (rs : list regex) (userMessage : string)
  : option (string * string) :=
  match rs with
  | [] => None
  | r :: rs' =>
      match matchPair r userMessage with
      | Some p => Some p
      | None => firstComparison rs' userMessage
      end
  end.

(** The loop over [prepositionPatterns]: [location] after it. *)
Fixpoint prepositionLocation (rs : list regex) (userMessage : string)
  : string :=
  match rs with
  | [] => ""
  | r :: rs' =>
      match exec r userMessage with
      | Some cs =>
          match capture 1 cs with
          | Some a =>
              if JS.truthy a then JS.trim a
              else prepositionLocation rs' userMessage
          | None => prepositionLocation rs' userMessage
          end
      | None => prepositionLocation rs' userMessage
      end
  end.

(** [cleanedMessage]: the lowercased utterance with the filler phrases
    removed one after the other, trimmed. *)
Definition cleanedMessage (userMessage : string) : string :=
  JS.trim (removeEach
    [ litI "what's"; litI "what is"; litI "the"; litI "weather";
      litI "forecast"; litI "wear"; litI "should i"; litI "today";
      litI "tomorrow"; litI "tonight"; litI "this week"; litI "next week";
      litI "this month"; litI "right now"; litI "currently"; Cls (chr "?") ]
    (JS.toLowerCase userMessage)).

Definition defaultLocation : string := "New York".

(** [location] as it stands before the final cleanup. *)
Definition candidateLocation (userMessage : string) : string :=
  let location := prepositionLocation prepositionPatterns userMessage in
  let location :=
    if JS.truthy location then location
    else
      let cleaned := cleanedMessage userMessage in
      if JS.truthy cleaned then cleaned else location in
  if JS.truthy location then location else defaultLocation.

(** The final cleanup of time words, as whole words. *)
Definition finalCleanup (location : string) : string :=
  JS.trim (removeEach
    [ wholeWordI "today"; wholeWordI "tomorrow"; wholeWordI "tonight";
      wholeWordI "right now"; wholeWordI "currently"; wholeWordI "this week";
      wholeWordI "next week"; wholeWordI "this month"; wholeWordI "forecast" ]
    location).

(** The intent [getWeatherResponse] acts on: the cities it requests
    weather for. *)
Definition extractIntent (userMessage : string) : intent :=
  match firstComparison comparisonPatterns userMessage with
  | Some (m1, m2) => Compare (cleanCity1 m1) (cleanCity2 m2)
  | None => SingleCity (finalCleanup (candidateLocation userMessage))
  end.

End Intent.

(* ===================================================================== *)
(** ** Image-generation job: the poll loop of [handleGenerateOutfit]      *)
(* ===================================================================== *)

Module Poll.

(** The [generatedOutfit] field of the transcript message that carries
    the job. *)
Record generatedOutfit : Type := GeneratedOutfit {
  cityName : string;
  imageUrl : option string;
  isGenerating : bool;
  error : option string;
  taskId : option string
}.

(** What one call of the status endpoint gives the client. *)
Inductive reply : Type :=
| Rejected (message : string)      (* fetch or json() throws *)
| NotOk                            (* !statusResponse.ok *)
| StatusData (status : string) (url : option string) (err : option string).

(** Effects of the loop, in the order they happen. *)
Inductive event : Type :=
| Fetch (attempt : nat)            (* one status request *)
| Sleep (ms : nat)                 (* setTimeout(resolve, ms) *)
| SetJob (g : generatedOutfit).    (* setMessages replacing the job field *)

Inductive completion : Type :=
| Resolved
| Threw (message : string).

Definition maxAttempts : nat := 120.

(** [pollStatus].  [oracle n] is the answer to the request made when
    [attempts] has just become [n].  [remaining] is
    [maxAttempts - attempts], so that [remaining = 0] is the guard
    [attempts >= maxAttempts]. *)
Fixpoint pollStatus (remaining : nat) (city : string) (oracle : nat -> reply)
         (attempts : nat) : completion * list event :=
  match remaining with
  | O => (Threw "Generation timeout - please try again", [])
  | S remaining' =>
      let attempts := S attempts in
      match oracle attempts with
      | Rejected message => (Threw message, [Fetch attempts])
      | NotOk => (Threw "Failed to check status", [Fetch attempts])
      | StatusData status url err =>
          if String.eqb status "success" && JS.truthyOpt url then
            (Resolved,
             [Fetch attempts;
              SetJob (GeneratedOutfit city url false None None)])
          else if String.eqb status "create_failed"
                  || String.eqb status "generation_failed" then
            (Threw (JS.orElse err "Generation failed"), [Fetch attempts])
          else
            let (c, evs) := pollStatus remaining' city oracle attempts in
            (c, Fetch attempts :: Sleep 5000 :: evs)
      end
  end.

(** [await pollStatus()] inside the try block and the catch clause that
    records the error on the job. *)
Definition runPolling (city : string) (oracle : nat -> reply) : list event :=
  match pollStatus maxAttempts city oracle 0 with
  | (Resolved, evs) => evs
  | (Threw message, evs) =>
      evs ++ [SetJob (GeneratedOutfit city None false
                        (Some (JS.orElse (Some message)
                                 "Failed to generate outfit image")) None)]
  end.

(** The job field after a run that started from [g]. *)
Fixpoint jobAfter (g : generatedOutfit) (evs : list event) : generatedOutfit :=
  match evs with
  | [] => g
  | SetJob g' :: evs' => jobAfter g' evs'
  | _ :: evs' => jobAfter g evs'
  end.

Definition isFetch (e : event) : bool :=
  match e with Fetch _ => true | _ => false end.

Definition isSetJob (e : event) : bool :=
  match e with SetJob _ => true | _ => false end.

(** Number of status requests made. *)
Definition polls (evs : list event) : nat := length (filter isFetch evs).

(** Number of writes to the job. *)
Definition writes (evs : list event) : nat := length (filter isSetJob evs).

(** The delays slept, in order. *)
Fixpoint sleeps (evs : list event) : list nat :=
  match evs with
  | [] => []
  | Sleep ms :: evs' => ms :: sleeps evs'
  | _ :: evs' => sleeps evs'
  end.

(** The job as it is when polling starts. *)
Definition started (city task : string) : generatedOutfit :=
  GeneratedOutfit city None true None (Some task).

(** The replies on which the client stops polling. *)
Definition stops (r : reply) : bool :=
  match r with
  | Rejected _ | NotOk => true
  | StatusData status url _ =>
      (String.eqb status "success" && JS.truthyOpt url)
      || String.eqb status "create_failed"
      || String.eqb status "generation_failed"
  end.

Definition generating : reply := StatusData "generating" None None.

(** [unknown], then [success] without an image URL, then [success] with
    one. *)
Definition unknownThenSuccess (url : string) : nat -> reply :=
  fun n =>
    match n with
    | 1 => StatusData "unknown" None None
    | 2 => StatusData "success" None None
    | _ => StatusData "success" (Some url) None
    end.

(** Three times [generating], then [success] with an image URL. *)
Definition threeThenSuccess (url : string) : nat -> reply :=
  fun n => if n <=? 3 then generating else StatusData "success" (Some url) None.

End Poll.

(* ===================================================================== *)
(** ** Outfit rule table ([generateOutfitRecommendation], server)        *)
(* ===================================================================== *)

(** Numbers are rationals: the finite doubles are among them, and the only
    operations the rules apply to an incoming number are comparisons with
    constants and [Math.round]. *)

Module Weather.

Open Scope Q_scope.

(** [a < b] and [a > b] on numbers. *)
Definition Qltb (a b : Q) : bool := negb (Qle_bool b a).
Definition Qgtb (a b : Q) : bool := Qltb b a.

(** The fields of the OpenWeather payload that the server reads:
    [name], [sys.country], [main.temp], [main.feels_like],
    [main.humidity], [weather[0].main], [weather[0].description] and
    [wind.speed]. *)
Record weatherData : Type := WeatherData {
  name : string;
  country : string;
  temp : Q;
  feels_like : Q;
  humidity : Q;
  main : string;
  description : string;
  speed : Q
}.

(** [Math.round]: the nearest integer, halves towards plus infinity. *)
Definition round (x : Q) : Z := Qfloor (x + (1 # 2)).

End Weather.

Module Outfit.
Import Weather(Qltb, Qgtb, round).

Open Scope Q_scope.

Record OutfitItem : Type := Item {
  name : string;
  query : string
}.

Record OutfitVariation : Type := Variation {
  style : string;
  items : list OutfitItem
}.

Record OutfitData : Type := OutfitResult {
  summary : string;
  note : string;
  variations : list OutfitVariation
}.

Definition extremeColdVariations : list OutfitVariation :=
  [ Variation "Winter Essential"
      [ Item "Heavy Puffer Coat" "black puffer jacket down coat";
        Item "Thermal Base Layer" "merino wool thermal shirt";
        Item "Insulated Boots" "snow boots waterproof";
        Item "Wool Scarf & Gloves" "wool scarf knit gloves set" ];
    Variation "Urban Winter"
      [ Item "Winter Jacket" "navy blue winter parka";
        Item "Warm Sweater" "cable knit sweater beige";
        Item "Snow Boots" "leather winter boots brown";
        Item "Beanie & Mittens" "beanie hat winter mittens" ];
    Variation "Classic Cold Weather"
      [ Item "Long Winter Coat" "long wool coat gray";
        Item "Layered Clothing" "turtleneck sweater black";
        Item "Leather Boots" "leather ankle boots black";
        Item "Knit Scarf Set" "cashmere scarf winter" ] ].

Definition coldVariations : list OutfitVariation :=
  [ Variation "Casual Cool"
      [ Item "Denim Jacket" "blue denim jacket classic";
        Item "Knit Sweater" "cream knit sweater cozy";
        Item "Ankle Boots" "suede ankle boots tan";
        Item "Warm Scarf" "plaid scarf wool" ];
    Variation "Modern Edge"
      [ Item "Bomber Jacket" "black bomber jacket leather";
        Item "Turtleneck" "gray turtleneck sweater";
        Item "Chelsea Boots" "black chelsea boots leather";
        Item "Light Scarf" "minimalist scarf black" ];
    Variation "Timeless Chic"
      [ Item "Wool Coat" "tan beige wool overcoat jacket";
        Item "Pullover Sweater" "burgundy knit pullover sweater crewneck";
        Item "Leather Boots" "brown leather boots vintage";
        Item "Knit Scarf" "chunky knit scarf beige" ] ].

Definition mildCoolVariations : list OutfitVariation :=
  [ Variation "Smart Casual"
      [ Item "Light Jacket" "khaki field jacket spring";
        Item "Long Sleeve Shirt" "white oxford shirt cotton";
        Item "Sneakers" "white leather sneakers clean" ];
    Variation "Relaxed Comfort"
      [ Item "Cardigan" "navy cardigan sweater knitwear menswear";
        Item "Polo Shirt" "striped polo shirt casual";
        Item "Casual Loafers" "brown suede loafers" ];
    Variation "Active Ready"
      [ Item "Windbreaker" "windbreaker jacket sports apparel clothing";
        Item "Henley Shirt" "gray henley shirt long sleeve";
        Item "Running Shoes" "running shoes athletic colorful" ] ].

Definition comfortableVariations : list OutfitVariation :=
  [ Variation "Everyday Casual"
      [ Item "Cotton T-Shirt" "white cotton tshirt mens fashion";
        Item "Light Cardigan" "cardigan sweater mens fashion knitwear";
        Item "Sneakers" "white canvas sneakers footwear" ];
    Variation "Business Casual"
      [ Item "Polo Shirt" "navy polo shirt menswear";
        Item "Chinos" "beige chino pants menswear";
        Item "Oxford Shoes" "brown leather oxford shoes footwear" ];
    Variation "Streetwear Vibe"
      [ Item "Graphic Tee" "black tshirt streetwear fashion";
        Item "Hoodie" "grey hoodie streetwear";
        Item "White Sneakers" "white sneakers street fashion" ] ].

Definition warmVariations : list OutfitVariation :=
  [ Variation "Summer Breeze"
      [ Item "Light Cotton Tee" "blue cotton tshirt mens summer fashion";
        Item "Shorts" "navy shorts mens casual wear";
        Item "Slide Sandals" "leather sandals mens footwear";
        Item "Sunglasses" "aviator sunglasses accessory" ];
    Variation "Beach Ready"
      [ Item "Tank Top" "white tank top mens athletic wear";
        Item "Denim Shorts" "denim shorts mens casual";
        Item "Flip Flops" "flip flops mens beach footwear";
        Item "Aviator Sunglasses" "sunglasses mens accessory" ];
    Variation "Resort Casual"
      [ Item "Linen Shirt" "beige linen shirt mens summer wear";
        Item "Light Pants" "linen pants mens white";
        Item "Canvas Sneakers" "canvas sneakers white footwear";
        Item "Shades" "sunglasses mens fashion accessory" ] ].

Definition hotVariations : list OutfitVariation :=
  [ Variation "Heat Wave"
      [ Item "Breathable Tank" "mesh tank top athletic black";
        Item "Athletic Shorts" "performance shorts athletic gray";
        Item "Sport Sandals" "sport sandals outdoor black";
        Item "Wide Brim Hat" "straw sun hat wide brim" ];
    Variation "Tropical Vibes"
      [ Item "Light Tank Top" "colorful tank top tropical print";
        Item "Swim Shorts" "swim trunks tropical pattern";
        Item "Beach Sandals" "flip flops beach colorful";
        Item "Baseball Cap" "baseball cap summer white" ];
    Variation "Desert Cool"
      [ Item "Moisture-Wicking Top" "technical tshirt outdoor beige";
        Item "Light Clothing" "cargo shorts outdoor khaki";
        Item "Open Sandals" "hiking sandals outdoor brown";
        Item "Bucket Hat" "bucket hat outdoor navy" ] ].

(** The temperature chain: the three variations and the opening note. *)
Definition baseOutfit (temp : Q) : list OutfitVariation * string :=
  if Qltb temp 0 then
    (extremeColdVariations,
     "Freezing temperatures require heavy insulation and layering.")
  else if Qltb temp 10 then
    (coldVariations,
     "Cold weather calls for warm layers and comfortable outerwear.")
  else if Qltb temp 18 then
    (mildCoolVariations,
     "Cool and pleasant - light layers work best.")
  else if Qltb temp 25 then
    (comfortableVariations,
     "Comfortable temperature - perfect for light, casual wear.")
  else if Qltb temp 30 then
    (warmVariations,
     "Warm weather - light, breathable clothing recommended.")
  else
    (hotVariations,
     "Very hot - stay cool with minimal, moisture-wicking fabrics.").

(** [outfitVariations.map(v => ({...v, items: [...v.items, extra]}))] *)
Definition addItem (extra : OutfitItem) (vs : list OutfitVariation)
  : list OutfitVariation :=
  map (fun v => Variation (style v) (items v ++ [extra])) vs.

(** An integer inside a template literal. *)
Definition showZ (z : Z) : string :=
  DecimalString.NilZero.string_of_int (Z.to_int z).

Definition generateOutfitRecommendation (weatherData : Weather.weatherData)
  : OutfitData :=
  let temp := Weather.temp weatherData in
  let feelsLike := Weather.feels_like weatherData in
  let condition := JS.toLowerCase (Weather.main weatherData) in
  let description := Weather.description weatherData in
  let windSpeed := Weather.speed weatherData in
  let humidity := Weather.humidity weatherData in
  let (outfitVariations, note) := baseOutfit temp in
  let rainy := JS.includes condition "rain" || JS.includes condition "drizzle" in
  let outfitVariations :=
    if rainy then addItem (Item "Umbrella" "umbrella rain") outfitVariations
    else outfitVariations in
  let note := if rainy then (note ++ "☔ Rain expected! ")%string else note in
  let snowy := JS.includes condition "snow" in
  let outfitVariations :=
    if snowy then addItem (Item "Snow Gear" "snow gear") outfitVariations
    else outfitVariations in
  let note := if snowy then (note ++ "❄️ Snowy weather! ")%string else note in
  let note :=
    if Qgtb windSpeed 8 then (note ++ "💨 Windy conditions! ")%string
    else note in
  let note :=
    if Qgtb humidity 80 && Qgtb temp 20
    then (note ++ "🌡️ High humidity - choose breathable fabrics! ")%string
    else note in
  let summary :=
    ("For " ++ showZ (round temp) ++ "°C (feels like "
     ++ showZ (round feelsLike) ++ "°C) with " ++ description)%string in
  OutfitResult summary note outfitVariations.

End Outfit.


(* ===================================================================== *)
(** ** Photo lookup ([fetchUnsplashImage], client)                       *)
(* ===================================================================== *)

Module Photo.

(** The outcome of the request to the photo route, as the client reads
    it. *)
Inductive live : Type :=
| LiveOk (imageUrl : option string)   (* response.ok, then data.imageUrl *)
| LiveError                           (* !response.ok *)
| LiveThrows.                         (* fetch or json() throws *)

(** The static cache, in the order of the object literal: its own
    properties.  What the object inherits from its prototype is added in
    [PhotoJS]. *)
Definition imageCache : list (string * string) :=
  [
    ("black puffer jacket down coat",
     "https://images.unsplash.com/photo-1521681867701-9962f648c1b6?crop=entropy&cs=tinysrgb&fit=max&fm=jpg&ixid=M3w3Nzg4Nzd8MHwxfHNlYXJjaHwxfHxibGFjayUyMHB1ZmZlciUyMGphY2tldHxlbnwxfHx8fDE3NjI4ODg5NjZ8MA&ixlib=rb-4.1.0&q=80&w=1080");
    ("merino wool thermal shirt",
     "https://images.unsplash.com/photo-1673168869484-dce7ec2d0499?crop=entropy&cs=tinysrgb&fit=max&fm=jpg&ixid=M3w3Nzg4Nzd8MHwxfHNlYXJjaHwxfHxtZXJpbm8lMjB3b29sJTIwdGhlcm1hbHxlbnwxfHx8fDE3NjI4ODg5NjZ8MA&ixlib=rb-4.1.0&q=80&w=1080");
    ("snow boots waterproof",
     "https://images.unsplash.com/photo-1690702692894-110f6e88c390?crop=entropy&cs=tinysrgb&fit=max&fm=jpg&ixid=M3w3Nzg4Nzd8MHwxfHNlYXJjaHwxfHxzbm93JTIwYm9vdHMlMjB3YXRlcnByb29mfGVufDF8fHx8MTc2Mjg4ODk2N3ww&ixlib=rb-4.1.0&q=80&w=1080");
    ("wool scarf knit gloves set",
     "https://images.unsplash.com/photo-1639654827521-cb4f5edf8675?crop=entropy&cs=tinysrgb&fit=max&fm=jpg&ixid=M3w3Nzg4Nzd8MHwxfHNlYXJjaHwxfHx3b29sJTIwc2NhcmYlMjBnbG92ZXN8ZW58MXx8fHwxNzYyODg4OTY3fDA&ixlib=rb-4.1.0&q=80&w=1080");
    ("navy blue winter parka",
     "https://images.unsplash.com/photo-1610636359791-bdac02d318b5?crop=entropy&cs=tinysrgb&fit=max&fm=jpg&ixid=M3w3Nzg4Nzd8MHwxfHNlYXJjaHwxfHxuYXZ5JTIwd2ludGVyJTIwcGFya2F8ZW58MXx8fHwxNzYyODg4OTY4fDA&ixlib=rb-4.1.0&q=80&w=1080");
    ("cable knit sweater beige",
     "https://images.unsplash.com/photo-1758537698215-af1e35acb911?crop=entropy&cs=tinysrgb&fit=max&fm=jpg&ixid=M3w3Nzg4Nzd8MHwxfHNlYXJjaHwxfHxjYWJsZSUyMGtuaXQlMjBzd2VhdGVyfGVufDF8fHx8MTc2Mjg4ODk2OHww&ixlib=rb-4.1.0&q=80&w=1080");
    ("leather winter boots brown",
     "https://images.unsplash.com/photo-1639270602419-6392f0723174?crop=entropy&cs=tinysrgb&fit=max&fm=jpg&ixid=M3w3Nzg4Nzd8MHwxfHNlYXJjaHwxfHxsZWF0aGVyJTIwd2ludGVyJTIwYm9vdHN8ZW58MXx8fHwxNzYyODg4OTY4fDA&ixlib=rb-4.1.0&q=80&w=1080");
    ("beanie hat winter mittens",
     "https://images.unsplash.com/photo-1740381698754-3920d7407365?crop=entropy&cs=tinysrgb&fit=max&fm=jpg&ixid=M3w3Nzg4Nzd8MHwxfHNlYXJjaHwxfHxiZWFuaWUlMjB3aW50ZXIlMjBtaXR0ZW5zfGVufDF8fHx8MTc2Mjg4ODk2OXww&ixlib=rb-4.1.0&q=80&w=1080");
    ("long wool coat gray",
     "https://images.unsplash.com/photo-1608227611229-4f8d1d5339b6?crop=entropy&cs=tinysrgb&fit=max&fm=jpg&ixid=M3w3Nzg4Nzd8MHwxfHNlYXJjaHwxfHxsb25nJTIwd29vbCUyMGNvYXR8ZW58MXx8fHwxNzYyODg4OTY5fDA&ixlib=rb-4.1.0&q=80&w=1080");
    ("turtleneck sweater black",
     "https://images.unsplash.com/photo-1591470481729-2bcc11e3acb8?crop=entropy&cs=tinysrgb&fit=max&fm=jpg&ixid=M3w3Nzg4Nzd8MHwxfHNlYXJjaHwxfHx0dXJ0bGVuZWNrJTIwc3dlYXRlciUyMGJsYWNrfGVufDF8fHx8MTc2Mjg4ODk2OXww&ixlib=rb-4.1.0&q=80&w=1080");
    ("leather ankle boots black",
     "https://images.unsplash.com/photo-1571489555750-c932b569ef5d?crop=entropy&cs=tinysrgb&fit=max&fm=jpg&ixid=M3w3Nzg4Nzd8MHwxfHNlYXJjaHwxfHxibGFjayUyMGFua2xlJTIwYm9vdHN8ZW58MXx8fHwxNzYyODg4OTcwfDA&ixlib=rb-4.1.0&q=80&w=1080");
    ("cashmere scarf winter",
     "https://images.unsplash.com/photo-1551381912-4e2e29c7fd17?crop=entropy&cs=tinysrgb&fit=max&fm=jpg&ixid=M3w3Nzg4Nzd8MHwxfHNlYXJjaHwxfHxjYXNobWVyZSUyMHNjYXJmfGVufDF8fHx8MTc2MjgyOTA5Mnww&ixlib=rb-4.1.0&q=80&w=1080");
    ("blue denim jacket classic",
     "https://images.unsplash.com/photo-1580644228275-2b826dbec5bf?crop=entropy&cs=tinysrgb&fit=max&fm=jpg&ixid=M3w3Nzg4Nzd8MHwxfHNlYXJjaHwxfHxibHVlJTIwZGVuaW0lMjBqYWNrZXR8ZW58MXx8fHwxNzYyNzkzNTQxfDA&ixlib=rb-4.1.0&q=80&w=1080");
    ("cream knit sweater cozy",
     "https://images.unsplash.com/photo-1603906650843-b58e94d9df4d?crop=entropy&cs=tinysrgb&fit=max&fm=jpg&ixid=M3w3Nzg4Nzd8MHwxfHNlYXJjaHwxfHxjcmVhbSUyMGtuaXQlMjBzd2VhdGVyfGVufDF8fHx8MTc2Mjg4ODk3MXww&ixlib=rb-4.1.0&q=80&w=1080");
    ("suede ankle boots tan",
     "https://images.unsplash.com/photo-1761052720710-32349209f6b4?crop=entropy&cs=tinysrgb&fit=max&fm=jpg&ixid=M3w3Nzg4Nzd8MHwxfHNlYXJjaHwxfHxzdWVkZSUyMGFua2xlJTIwYm9vdHN8ZW58MXx8fHwxNzYyODg4OTcxfDA&ixlib=rb-4.1.0&q=80&w=1080");
    ("plaid scarf wool",
     "https://images.unsplash.com/photo-1609803384069-19f3e5a70e75?crop=entropy&cs=tinysrgb&fit=max&fm=jpg&ixid=M3w3Nzg4Nzd8MHwxfHNlYXJjaHwxfHxwbGFpZCUyMHdvb2wlMjBzY2FyZnxlbnwxfHx8fDE3NjI4ODg5NzJ8MA&ixlib=rb-4.1.0&q=80&w=1080");
    ("black bomber jacket leather",
     "https://images.unsplash.com/photo-1635588773098-7b365495e2f1?crop=entropy&cs=tinysrgb&fit=max&fm=jpg&ixid=M3w3Nzg4Nzd8MHwxfHNlYXJjaHwxfHxibGFjayUyMGJvbWJlciUyMGphY2tldHxlbnwxfHx8fDE3NjI4MTM0MDh8MA&ixlib=rb-4.1.0&q=80&w=1080");
    ("gray turtleneck sweater",
     "https://images.unsplash.com/photo-1603906650843-b58e94d9df4d?crop=entropy&cs=tinysrgb&fit=max&fm=jpg&ixid=M3w3Nzg4Nzd8MHwxfHNlYXJjaHwxfHxncmF5JTIwdHVydGxlbmVja3xlbnwxfHx8fDE3NjI4ODg5NzJ8MA&ixlib=rb-4.1.0&q=80&w=1080");
    ("black chelsea boots leather",
     "https://images.unsplash.com/photo-1608629601270-a0007becead3?crop=entropy&cs=tinysrgb&fit=max&fm=jpg&ixid=M3w3Nzg4Nzd8MHwxfHNlYXJjaHwxfHxjaGVsc2VhJTIwYm9vdHMlMjBsZWF0aGVyfGVufDF8fHx8MTc2MjgwMTkwOXww&ixlib=rb-4.1.0&q=80&w=1080");
    ("minimalist scarf black",
     "https://images.unsplash.com/photo-1644483518975-1a74bff3ab94?crop=entropy&cs=tinysrgb&fit=max&fm=jpg&ixid=M3w3Nzg4Nzd8MHwxfHNlYXJjaHwxfHxibGFjayUyMG1pbmltYWxpc3QlMjBzY2FyZnxlbnwxfHx8fDE3NjI4ODg5NzN8MA&ixlib=rb-4.1.0&q=80&w=1080");
    ("tan beige wool overcoat jacket",
     "https://images.unsplash.com/photo-1539533018447-63fcce2678e3?crop=entropy&cs=tinysrgb&fit=max&fm=jpg&ixid=M3w3Nzg4Nzd8MHwxfHNlYXJjaHwxfHx0YW4lMjB3b29sJTIwb3ZlcmNvYXR8ZW58MXx8fHwxNzYyOTAyMzgxfDA&ixlib=rb-4.1.0&q=80&w=1080");
    ("burgundy knit pullover sweater crewneck",
     "https://images.unsplash.com/photo-1620799140188-3b2a02fd9a77?crop=entropy&cs=tinysrgb&fit=max&fm=jpg&ixid=M3w3Nzg4Nzd8MHwxfHNlYXJjaHwxfHxidXJndW5keSUyMGtuaXQlMjBwdWxsb3ZlcnxlbnwxfHx8fDE3NjI5MDIzODF8MA&ixlib=rb-4.1.0&q=80&w=1080");
    ("brown leather boots vintage",
     "https://images.unsplash.com/photo-1638158980051-f7e67291efed?crop=entropy&cs=tinysrgb&fit=max&fm=jpg&ixid=M3w3Nzg4Nzd8MHwxfHNlYXJjaHwxfHxicm93biUyMGxlYXRoZXIlMjBib290c3xlbnwxfHx8fDE3NjI4ODg5NzR8MA&ixlib=rb-4.1.0&q=80&w=1080");
    ("chunky knit scarf beige",
     "https://images.unsplash.com/photo-1670080589800-6416c8ce8a14?crop=entropy&cs=tinysrgb&fit=max&fm=jpg&ixid=M3w3Nzg4Nzd8MHwxfHNlYXJjaHwxfHxiZWlnZSUyMGtuaXQlMjBzY2FyZnxlbnwxfHx8fDE3NjI4ODg5NzR8MA&ixlib=rb-4.1.0&q=80&w=1080");
    ("khaki field jacket spring",
     "https://images.unsplash.com/photo-1650594506500-c87c4c82bb43?crop=entropy&cs=tinysrgb&fit=max&fm=jpg&ixid=M3w3Nzg4Nzd8MHwxfHNlYXJjaHwxfHxraGFraSUyMGZpZWxkJTIwamFja2V0fGVufDF8fHx8MTc2Mjg4ODk3NXww&ixlib=rb-4.1.0&q=80&w=1080");
    ("white oxford shirt cotton",
     "https://images.unsplash.com/photo-1644860588182-0998b4ef5587?crop=entropy&cs=tinysrgb&fit=max&fm=jpg&ixid=M3w3Nzg4Nzd8MHwxfHNlYXJjaHwxfHx3aGl0ZSUyMG94Zm9yZCUyMHNoaXJ0fGVufDF8fHx8MTc2Mjg4ODk3NXww&ixlib=rb-4.1.0&q=80&w=1080");
    ("white leather sneakers clean",
     "https://images.unsplash.com/photo-1722489291778-cb2a414d6ee0?crop=entropy&cs=tinysrgb&fit=max&fm=jpg&ixid=M3w3Nzg4Nzd8MHwxfHNlYXJjaHwxfHx3aGl0ZSUyMGxlYXRoZXIlMjBzbmVha2Vyc3xlbnwxfHx8fDE3NjI4NTY5Mzl8MA&ixlib=rb-4.1.0&q=80&w=1080");
    ("navy cardigan button front",
     "https://images.unsplash.com/photo-1758981400268-1181291b9503?crop=entropy&cs=tinysrgb&fit=max&fm=jpg&ixid=M3w3Nzg4Nzd8MHwxfHNlYXJjaHwxfHxidXR0b24lMjBjYXJkaWdhbiUyMHN3ZWF0ZXJ8ZW58MXx8fHwxNzYyOTAxMDcwfDA&ixlib=rb-4.1.0&q=80&w=1080");
    ("striped polo shirt casual",
     "https://images.unsplash.com/photo-1760287363713-a864ca9b1b1f?crop=entropy&cs=tinysrgb&fit=max&fm=jpg&ixid=M3w3Nzg4Nzd8MHwxfHNlYXJjaHwxfHxzdHJpcGVkJTIwcG9sbyUyMHNoaXJ0fGVufDF8fHx8MTc2Mjg4ODk3Nnww&ixlib=rb-4.1.0&q=80&w=1080");
    ("brown suede loafers",
     "https://images.unsplash.com/photo-1664095885197-fdff6611560c?crop=entropy&cs=tinysrgb&fit=max&fm=jpg&ixid=M3w3Nzg4Nzd8MHwxfHNlYXJjaHwxfHxicm93biUyMHN1ZWRlJTIwbG9hZmVyc3xlbnwxfHx8fDE3NjI4ODg5Nzd8MA&ixlib=rb-4.1.0&q=80&w=1080");
    ("blue windbreaker jacket athletic",
     "https://images.unsplash.com/photo-1548126032-079a0fb0099d?crop=entropy&cs=tinysrgb&fit=max&fm=jpg&ixid=M3w3Nzg4Nzd8MHwxfHNlYXJjaHwxfHx3aW5kYnJlYWtlciUyMGphY2tldHxlbnwxfHx8fDE3NjI4OTExODN8MA&ixlib=rb-4.1.0&q=80&w=1080");
    ("gray henley shirt long sleeve",
     "https://images.unsplash.com/photo-1693443688057-85f57b872a3c?crop=entropy&cs=tinysrgb&fit=max&fm=jpg&ixid=M3w3Nzg4Nzd8MHwxfHNlYXJjaHwxfHxncmF5JTIwaGVubGV5JTIwc2hpcnR8ZW58MXx8fHwxNzYyODg4OTgxfDA&ixlib=rb-4.1.0&q=80&w=1080");
    ("running shoes athletic colorful",
     "https://images.unsplash.com/photo-1739132268718-53d64165d29a?crop=entropy&cs=tinysrgb&fit=max&fm=jpg&ixid=M3w3Nzg4Nzd8MHwxfHNlYXJjaHwxfHxjb2xvcmZ1bCUyMHJ1bm5pbmclMjBzaG9lc3xlbnwxfHx8fDE3NjI3ODIzODZ8MA&ixlib=rb-4.1.0&q=80&w=1080");
    ("plain white tshirt cotton",
     "https://images.unsplash.com/photo-1644860588182-0998b4ef5587?crop=entropy&cs=tinysrgb&fit=max&fm=jpg&ixid=M3w3Nzg4Nzd8MHwxfHNlYXJjaHwxfHx3aGl0ZSUyMGNvdHRvbiUyMHRzaGlydHxlbnwxfHx8fDE3NjI4ODg5ODJ8MA&ixlib=rb-4.1.0&q=80&w=1080");
    ("gray cardigan lightweight spring",
     "https://images.unsplash.com/photo-1611780748105-42c40cdc8eae?crop=entropy&cs=tinysrgb&fit=max&fm=jpg&ixid=M3w3Nzg4Nzd8MHwxfHNlYXJjaHwxfHxjYXJkaWdhbiUyMGJ1dHRvbnMlMjBvcGVufGVufDB8fHx8MTc2MjkwMTA3MXww&ixlib=rb-4.1.0&q=80&w=1080");
    ("canvas sneakers blue casual",
     "https://images.unsplash.com/photo-1758443909732-2c4201e5b590?crop=entropy&cs=tinysrgb&fit=max&fm=jpg&ixid=M3w3Nzg4Nzd8MHwxfHNlYXJjaHwxfHxibHVlJTIwY2FudmFzJTIwc25lYWtlcnN8ZW58MXx8fHwxNzYyODAxNzIzfDA&ixlib=rb-4.1.0&q=80&w=1080");
    ("navy polo shirt classic",
     "https://images.unsplash.com/photo-1692195400719-81a66b4fde89?crop=entropy&cs=tinysrgb&fit=max&fm=jpg&ixid=M3w3Nzg4Nzd8MHwxfHNlYXJjaHwxfHxuYXZ5JTIwcG9sbyUyMHNoaXJ0fGVufDF8fHx8MTc2Mjg4NjAzNXww&ixlib=rb-4.1.0&q=80&w=1080");
    ("beige chino pants casual",
     "https://images.unsplash.com/photo-1756009531697-51da316bfa3a?crop=entropy&cs=tinysrgb&fit=max&fm=jpg&ixid=M3w3Nzg4Nzd8MHwxfHNlYXJjaHwxfHxiZWlnZSUyMGNoaW5vJTIwcGFudHN8ZW58MXx8fHwxNzYyODg4OTgzfDA&ixlib=rb-4.1.0&q=80&w=1080");
    ("leather oxford shoes brown",
     "https://images.unsplash.com/photo-1616663308968-58162d332720?crop=entropy&cs=tinysrgb&fit=max&fm=jpg&ixid=M3w3Nzg4Nzd8MHwxfHNlYXJjaHwxfHxicm93biUyMG94Zm9yZCUyMHNob2VzfGVufDF8fHx8MTc2Mjg4ODk4M3ww&ixlib=rb-4.1.0&q=80&w=1080");
    ("graphic tshirt black streetwear",
     "https://images.unsplash.com/photo-1662103627854-ae7551d1eddb?crop=entropy&cs=tinysrgb&fit=max&fm=jpg&ixid=M3w3Nzg4Nzd8MHwxfHNlYXJjaHwxfHxibGFjayUyMGdyYXBoaWMlMjB0c2hpcnR8ZW58MXx8fHwxNzYyNzk3MTc1fDA&ixlib=rb-4.1.0&q=80&w=1080");
    ("oversized hoodie gray urban",
     "https://images.unsplash.com/photo-1580159851546-833dd8f26318?crop=entropy&cs=tinysrgb&fit=max&fm=jpg&ixid=M3w3Nzg4Nzd8MHwxfHNlYXJjaHwxfHxncmF5JTIwb3ZlcnNpemVkJTIwaG9vZGllfGVufDF8fHx8MTc2Mjg4ODk4NHww&ixlib=rb-4.1.0&q=80&w=1080");
    ("high top sneakers white street",
     "https://images.unsplash.com/photo-1759527588071-e143b4a451b0?crop=entropy&cs=tinysrgb&fit=max&fm=jpg&ixid=M3w3Nzg4Nzd8MHwxfHNlYXJjaHwxfHx3aGl0ZSUyMGhpZ2glMjB0b3AlMjBzbmVha2Vyc3xlbnwxfHx8fDE3NjI4ODg5ODV8MA&ixlib=rb-4.1.0&q=80&w=1080");
    ("light blue tshirt cotton summer",
     "https://images.unsplash.com/photo-1680469975417-a7e5b6ad0784?crop=entropy&cs=tinysrgb&fit=max&fm=jpg&ixid=M3w3Nzg4Nzd8MHwxfHNlYXJjaHwxfHxsaWdodCUyMGJsdWUlMjB0c2hpcnR8ZW58MXx8fHwxNzYyODg4OTg1fDA&ixlib=rb-4.1.0&q=80&w=1080");
    ("navy blue shorts casual summer",
     "https://images.unsplash.com/photo-1624378439140-20d221f1b36d?crop=entropy&cs=tinysrgb&fit=max&fm=jpg&ixid=M3w3Nzg4Nzd8MHwxfHNlYXJjaHwxfHxuYXZ5JTIwYmx1ZSUyMHNob3J0c3xlbnwxfHx8fDE3NjI4ODg5ODV8MA&ixlib=rb-4.1.0&q=80&w=1080");
    ("leather slide sandals brown",
     "https://images.unsplash.com/photo-1663693586817-f7e0ceb27bd7?crop=entropy&cs=tinysrgb&fit=max&fm=jpg&ixid=M3w3Nzg4Nzd8MHwxfHNlYXJjaHwxfHxicm93biUyMGxlYXRoZXIlMjBzYW5kYWxzfGVufDF8fHx8MTc2Mjg4ODk4Nnww&ixlib=rb-4.1.0&q=80&w=1080");
    ("aviator sunglasses gold",
     "https://images.unsplash.com/photo-1732139637229-4be95d41cce8?crop=entropy&cs=tinysrgb&fit=max&fm=jpg&ixid=M3w3Nzg4Nzd8MHwxfHNlYXJjaHwxfHxnb2xkJTIwYXZpYXRvciUyMHN1bmdsYXNzZXN8ZW58MXx8fHwxNzYyODg4OTg2fDA&ixlib=rb-4.1.0&q=80&w=1080");
    ("white tank top athletic summer",
     "https://images.unsplash.com/photo-1759365485726-cfe4166bbfe7?crop=entropy&cs=tinysrgb&fit=max&fm=jpg&ixid=M3w3Nzg4Nzd8MHwxfHNlYXJjaHwxfHx3aGl0ZSUyMGF0aGxldGljJTIwdGFua3xlbnwxfHx8fDE3NjI4ODg5ODd8MA&ixlib=rb-4.1.0&q=80&w=1080");
    ("light wash denim shorts",
     "https://images.unsplash.com/photo-1620231619471-b28081fc3509?crop=entropy&cs=tinysrgb&fit=max&fm=jpg&ixid=M3w3Nzg4Nzd8MHwxfHNlYXJjaHwxfHxsaWdodCUyMGRlbmltJTIwc2hvcnRzfGVufDF8fHx8MTc2Mjg4ODk4N3ww&ixlib=rb-4.1.0&q=80&w=1080");
    ("rubber flip flops beach black",
     "https://images.unsplash.com/photo-1760612887190-ea94041f1920?crop=entropy&cs=tinysrgb&fit=max&fm=jpg&ixid=M3w3Nzg4Nzd8MHwxfHNlYXJjaHwxfHxibGFjayUyMGZsaXAlMjBmbG9wc3xlbnwxfHx8fDE3NjI4ODg5ODd8MA&ixlib=rb-4.1.0&q=80&w=1080");
    ("classic aviator sunglasses silver",
     "https://images.unsplash.com/photo-1589782182703-2aaa69037b5b?crop=entropy&cs=tinysrgb&fit=max&fm=jpg&ixid=M3w3Nzg4Nzd8MHwxfHNlYXJjaHwxfHxzaWx2ZXIlMjBhdmlhdG9yJTIwc3VuZ2xhc3Nlc3xlbnwxfHx8fDE3NjI4ODg5ODh8MA&ixlib=rb-4.1.0&q=80&w=1080");
    ("beige linen shirt short sleeve",
     "https://images.unsplash.com/photo-1651895884377-5f631be84282?crop=entropy&cs=tinysrgb&fit=max&fm=jpg&ixid=M3w3Nzg4Nzd8MHwxfHNlYXJjaHwxfHxiZWlnZSUyMGxpbmVuJTIwc2hpcnR8ZW58MXx8fHwxNzYyODg4OTg4fDA&ixlib=rb-4.1.0&q=80&w=1080");
    ("white linen pants summer",
     "https://images.unsplash.com/photo-1614539655719-256312070de7?crop=entropy&cs=tinysrgb&fit=max&fm=jpg&ixid=M3w3Nzg4Nzd8MHwxfHNlYXJjaHwxfHx3aGl0ZSUyMGxpbmVuJTIwcGFudHN8ZW58MXx8fHwxNzYyODg4OTg5fDA&ixlib=rb-4.1.0&q=80&w=1080");
    ("cream canvas sneakers summer",
     "https://images.unsplash.com/photo-1663151860122-4890a08dc22b?crop=entropy&cs=tinysrgb&fit=max&fm=jpg&ixid=M3w3Nzg4Nzd8MHwxfHNlYXJjaHwxfHxjcmVhbSUyMGNhbnZhcyUyMHNuZWFrZXJzfGVufDF8fHx8MTc2Mjg4ODk4OXww&ixlib=rb-4.1.0&q=80&w=1080");
    ("round sunglasses tortoise",
     "https://images.unsplash.com/photo-1681147768015-c6d3702f5e4f?crop=entropy&cs=tinysrgb&fit=max&fm=jpg&ixid=M3w3Nzg4Nzd8MHwxfHNlYXJjaHwxfHx0b3J0b2lzZSUyMHJvdW5kJTIwc3VuZ2xhc3Nlc3xlbnwxfHx8fDE3NjI4ODg5ODl8MA&ixlib=rb-4.1.0&q=80&w=1080");
    ("mesh tank top athletic black",
     "https://images.unsplash.com/photo-1557437173-01f7fd66bf94?crop=entropy&cs=tinysrgb&fit=max&fm=jpg&ixid=M3w3Nzg4Nzd8MHwxfHNlYXJjaHwxfHxibGFjayUyMG1lc2glMjB0YW5rfGVufDF8fHx8MTc2Mjg4ODk5MHww&ixlib=rb-4.1.0&q=80&w=1080");
    ("performance shorts athletic gray",
     "https://images.unsplash.com/photo-1723972405511-e3785a045721?crop=entropy&cs=tinysrgb&fit=max&fm=jpg&ixid=M3w3Nzg4Nzd8MHwxfHNlYXJjaHwxfHxncmF5JTIwYXRobGV0aWMlMjBzaG9ydHN8ZW58MXx8fHwxNzYyODg4OTkwfDA&ixlib=rb-4.1.0&q=80&w=1080");
    ("sport sandals outdoor black",
     "https://images.unsplash.com/photo-1593548826648-0357b8c884a9?crop=entropy&cs=tinysrgb&fit=max&fm=jpg&ixid=M3w3Nzg4Nzd8MHwxfHNlYXJjaHwxfHxibGFjayUyMHNwb3J0JTIwc2FuZGFsc3xlbnwxfHx8fDE3NjI4ODg5OTB8MA&ixlib=rb-4.1.0&q=80&w=1080");
    ("straw sun hat wide brim",
     "https://images.unsplash.com/photo-1759935937415-49099042fa91?crop=entropy&cs=tinysrgb&fit=max&fm=jpg&ixid=M3w3Nzg4Nzd8MHwxfHNlYXJjaHwxfHxzdHJhdyUyMHdpZGUlMjBicmltJTIwaGF0fGVufDF8fHx8MTc2Mjg4ODk5MXww&ixlib=rb-4.1.0&q=80&w=1080");
    ("colorful tank top tropical print",
     "https://images.unsplash.com/photo-1751024049983-4b1105eb1678?crop=entropy&cs=tinysrgb&fit=max&fm=jpg&ixid=M3w3Nzg4Nzd8MHwxfHNlYXJjaHwxfHxjb2xvcmZ1bCUyMHRyb3BpY2FsJTIwdGFua3xlbnwxfHx8fDE3NjI4ODg5OTF8MA&ixlib=rb-4.1.0&q=80&w=1080");
    ("swim trunks tropical pattern",
     "https://images.unsplash.com/photo-1536685409149-2ca88666aa47?crop=entropy&cs=tinysrgb&fit=max&fm=jpg&ixid=M3w3Nzg4Nzd8MHwxfHNlYXJjaHwxfHx0cm9waWNhbCUyMHN3aW0lMjBzaG9ydHN8ZW58MXx8fHwxNzYyODg4OTkyfDA&ixlib=rb-4.1.0&q=80&w=1080");
    ("flip flops beach colorful",
     "https://images.unsplash.com/photo-1550980451-ef715ac3ef01?crop=entropy&cs=tinysrgb&fit=max&fm=jpg&ixid=M3w3Nzg4Nzd8MHwxfHNlYXJjaHwxfHxjb2xvcmZ1bCUyMGJlYWNoJTIwc2FuZGFsc3xlbnwxfHx8fDE3NjI4ODg5OTV8MA&ixlib=rb-4.1.0&q=80&w=1080");
    ("baseball cap summer white",
     "https://images.unsplash.com/photo-1611692370244-aebb15c17941?crop=entropy&cs=tinysrgb&fit=max&fm=jpg&ixid=M3w3Nzg4Nzd8MHwxfHNlYXJjaHwxfHx3aGl0ZSUyMGJhc2ViYWxsJTIwY2FwfGVufDF8fHx8MTc2Mjg4ODk5NXww&ixlib=rb-4.1.0&q=80&w=1080");
    ("technical tshirt outdoor beige",
     "https://images.unsplash.com/photo-1742210903945-e41b61e5d9d7?crop=entropy&cs=tinysrgb&fit=max&fm=jpg&ixid=M3w3Nzg4Nzd8MHwxfHNlYXJjaHwxfHxiZWlnZSUyMG91dGRvb3IlMjB0c2hpcnR8ZW58MXx8fHwxNzYyODg4OTk2fDA&ixlib=rb-4.1.0&q=80&w=1080");
    ("cargo shorts outdoor khaki",
     "https://images.unsplash.com/photo-1719473448126-eb1159ec5242?crop=entropy&cs=tinysrgb&fit=max&fm=jpg&ixid=M3w3Nzg4Nzd8MHwxfHNlYXJjaHwxfHxraGFraSUyMGNhcmdvJTIwc2hvcnRzfGVufDF8fHx8MTc2Mjg4ODk5Nnww&ixlib=rb-4.1.0&q=80&w=1080");
    ("hiking sandals outdoor brown",
     "https://images.unsplash.com/photo-1632078646266-236c777374d4?crop=entropy&cs=tinysrgb&fit=max&fm=jpg&ixid=M3w3Nzg4Nzd8MHwxfHNlYXJjaHwxfHxicm93biUyMGhpa2luZyUyMHNhbmRhbHN8ZW58MXx8fHwxNzYyODg4OTk3fDA&ixlib=rb-4.1.0&q=80&w=1080");
    ("bucket hat outdoor navy",
     "https://images.unsplash.com/photo-1682623762727-59194bd4c85b?crop=entropy&cs=tinysrgb&fit=max&fm=jpg&ixid=M3w3Nzg4Nzd8MHwxfHNlYXJjaHwxfHxuYXZ5JTIwYnVja2V0JTIwaGF0fGVufDF8fHx8MTc2Mjg4ODk5N3ww&ixlib=rb-4.1.0&q=80&w=1080");
    ("umbrella rain",
     "https://images.unsplash.com/photo-1757548710136-66a371811d1c?crop=entropy&cs=tinysrgb&fit=max&fm=jpg&ixid=M3w3Nzg4Nzd8MHwxfHNlYXJjaHwxfHxibGFjayUyMHVtYnJlbGxhJTIwcmFpbnxlbnwxfHx8fDE3NjI4ODg5OTd8MA&ixlib=rb-4.1.0&q=80&w=1080")
  ].

Definition genericFallback : string :=
  "https://images.unsplash.com/photo-1489987707025-afc232f7ea0f?w=400&h=400&fit=crop".

(** [cache[k]] among the own properties of the cache. *)
Fixpoint lookup (k : string) (cache : list (string * string)) : option string :=
  match cache with
  | [] => None
  | (k', v) :: cache' => if String.eqb k k' then Some v else lookup k cache'
  end.

(** [s.toLowerCase().split(' ')] *)
Definition words (s : string) : list string := JS.split " " (JS.toLowerCase s).

(** The number of query words that contain, or are contained in, some
    word of the key. *)
Definition matchCount (queryWords keyWords : list string) : nat :=
  length (filter (fun qWord =>
            existsb (fun kWord => JS.includes kWord qWord || JS.includes qWord kWord)
                    keyWords) queryWords).

Record scoredKey : Type := Scored { key : string; score : nat }.

(** [scoredKeys.sort((a, b) => b.score - a.score)]: descending by score,
    stable.  [x] is older than every element of [l]. *)
Fixpoint insertDesc (x : scoredKey) (l : list scoredKey) : list scoredKey :=
  match l with
  | [] => [x]
  | y :: l' => if score y <=? score x then x :: l else y :: insertDesc x l'
  end.

Definition sortDesc (l : list scoredKey) : list scoredKey :=
  fold_right insertDesc [] l.

(** The score of a cache key for a query. *)
Definition keyScore (query k : string) : nat :=
  matchCount (words query) (words k).

Definition scoredKeys (cache : list (string * string)) (query : string)
  : list scoredKey :=
  map (fun kv => Scored (fst kv) (keyScore query (fst kv))) cache.

(** The head of a list dominates its tail. *)
Definition headMax (l : list scoredKey) : Prop :=
  match l with
  | [] => True
  | b :: t => forall y, In y t -> score y <= score b
  end.

(** The image URL the live path returns, if it returns. *)
Definition liveUrl (l : live) : option string :=
  match l with
  | LiveOk (Some u) => if JS.truthy u then Some u else None
  | _ => None
  end.

(** [cache[query]] when it is truthy. *)
Definition exactMatch (cache : list (string * string)) (query : string)
  : option string :=
  match lookup query cache with
  | Some u => if JS.truthy u then Some u else None
  | None => None
  end.

(** The cache fallbacks, over any cache. *)
Definition fromCache (cache : list (string * string)) (query : string) : string :=
  match exactMatch cache query with
  | Some u => u
  | None =>
      match sortDesc (scoredKeys cache query) with
      | bestMatch :: _ =>
          if 2 <=? score bestMatch then
            match lookup (key bestMatch) cache with
            | Some u => u
            | None => EmptyString
            end
          else genericFallback
      | [] => genericFallback
      end
  end.

Definition fetchUnsplashImage (l : live) (query : string) : string :=
  match liveUrl l with
  | Some u => u
  | None => fromCache imageCache query
  end.

End Photo.

(* ===================================================================== *)
(** ** The cache as a JavaScript object                                   *)
(* ===================================================================== *)

(** [imageCache] is an object literal, so [imageCache[query]] finds the
    own properties of the literal and, for a query that names none of
    them, the members every object inherits from [Object.prototype].
    [Photo.fetchUnsplashImage] is the lookup on the own properties;
    this module is the lookup on the whole object. *)

Module PhotoJS.
Import Photo.

(** What the lookup returns: a URL, or an inherited member (a function,
    or the prototype itself for [__proto__]) when the query names one. *)
Inductive value : Type :=
| Url (url : string)
| Inherited (name : string).

(** The property names of [Object.prototype]. *)
Definition objectPrototype : list string :=
  [ "constructor"; "__defineGetter__"; "__defineSetter__"; "hasOwnProperty";
    "__lookupGetter__"; "__lookupSetter__"; "isPrototypeOf";
    "propertyIsEnumerable"; "toString"; "valueOf"; "__proto__";
    "toLocaleString" ].

Definition inherited (k : string) : bool :=
  existsb (String.eqb k) objectPrototype.

(** [cache[k]]: an own property first, then the prototype. *)
Definition getProperty (cache : list (string * string)) (k : string)
  : option value :=
  match lookup k cache with
  | Some u => Some (Url u)
  | None => if inherited k then Some (Inherited k) else None
  end.

(** Functions and objects are truthy. *)
Definition truthyValue (v : value) : bool :=
  match v with
  | Url u => JS.truthy u
  | Inherited _ => true
  end.

(** The similar-match step and the final fallback.  [bestMatch.key] is
    one of [Object.keys(cache)], an own property. *)
Definition similar (cache : list (string * string)) (query : string) : string :=
  match sortDesc (scoredKeys cache query) with
  | bestMatch :: _ =>
      if 2 <=? score bestMatch then
        match lookup (key bestMatch) cache with
        | Some u => u
        | None => EmptyString
        end
      else genericFallback
  | [] => genericFallback
  end.

Definition fetchUnsplashImage (l : live) (query : string) : value :=
  match liveUrl l with
  | Some u => Url u
  | None =>
      match getProperty imageCache query with
      | Some v => if truthyValue v then v else Url (similar imageCache query)
      | None => Url (similar imageCache query)
      end
  end.

End PhotoJS.

(* ===================================================================== *)
(** ** Weather proxy (the [/weather] route and [generateMockWeather])    *)
(* ===================================================================== *)

Module Server.
Import Weather(Qltb, Qgtb, round).

Open Scope Q_scope.

Record profile : Type := Profile {
  temp : Q;
  feels : Q;
  humidity : Q;
  wind : Q;
  condition : string;
  desc : string;
  country : string
}.

(** The city table, in the order of the object literal. *)
Definition cityProfiles : list (string * profile) :=
  [
    ("london", Profile 14 12 72 4.2 "Clouds" "broken clouds" "GB");
    ("paris", Profile 16 15 68 3.8 "Clear" "clear sky" "FR");
    ("berlin", Profile 13 11 70 4.5 "Clouds" "overcast clouds" "DE");
    ("amsterdam", Profile 12 10 78 5.2 "Rain" "light rain" "NL");
    ("rome", Profile 21 20 62 2.8 "Clear" "clear sky" "IT");
    ("madrid", Profile 19 18 55 3.2 "Clear" "few clouds" "ES");
    ("barcelona", Profile 20 19 65 3.5 "Clear" "clear sky" "ES");
    ("moscow", Profile (-2) (-6) 85 5.5 "Snow" "light snow" "RU");
    ("oslo", Profile 3 (-1) 75 6.0 "Clouds" "overcast clouds" "NO");
    ("stockholm", Profile 5 2 72 4.8 "Clouds" "scattered clouds" "SE");
    ("helsinki", Profile 1 (-3) 80 5.2 "Snow" "light snow" "FI");
    ("reykjavik", Profile 4 0 82 7.5 "Rain" "light rain" "IS");
    ("tokyo", Profile 22 23 68 3.5 "Clear" "clear sky" "JP");
    ("beijing", Profile 18 17 45 4.2 "Clear" "few clouds" "CN");
    ("shanghai", Profile 24 25 75 3.8 "Clouds" "scattered clouds" "CN");
    ("singapore", Profile 31 36 85 2.5 "Rain" "light rain" "SG");
    ("bangkok", Profile 33 38 80 2.2 "Clear" "clear sky" "TH");
    ("mumbai", Profile 32 37 82 3.8 "Clouds" "scattered clouds" "IN");
    ("delhi", Profile 28 30 60 4.0 "Clear" "haze" "IN");
    ("seoul", Profile 17 16 65 3.5 "Clear" "clear sky" "KR");
    ("hong kong", Profile 27 29 78 3.2 "Clouds" "few clouds" "HK");
    ("dubai", Profile 38 42 55 4.5 "Clear" "clear sky" "AE");
    ("riyadh", Profile 35 37 25 5.0 "Clear" "clear sky" "SA");
    ("cairo", Profile 30 32 40 4.2 "Clear" "clear sky" "EG");
    ("new york", Profile 18 17 65 4.8 "Clouds" "scattered clouds" "US");
    ("los angeles", Profile 24 23 58 3.2 "Clear" "clear sky" "US");
    ("chicago", Profile 15 13 70 5.5 "Clouds" "broken clouds" "US");
    ("miami", Profile 30 34 78 4.0 "Clear" "few clouds" "US");
    ("san francisco", Profile 17 16 75 5.2 "Clouds" "fog" "US");
    ("seattle", Profile 14 13 80 3.8 "Rain" "light rain" "US");
    ("toronto", Profile 16 14 68 4.5 "Clouds" "overcast clouds" "CA");
    ("vancouver", Profile 15 14 78 3.5 "Rain" "moderate rain" "CA");
    ("calgary", Profile 8 4 55 5.8 "Clouds" "scattered clouds" "CA");
    ("mexico city", Profile 22 21 55 2.8 "Clear" "clear sky" "MX");
    ("buenos aires", Profile 20 19 72 4.2 "Clear" "clear sky" "AR");
    ("rio de janeiro", Profile 28 30 75 3.5 "Clear" "few clouds" "BR");
    ("sao paulo", Profile 23 22 68 3.0 "Clouds" "scattered clouds" "BR");
    ("lima", Profile 21 20 78 3.8 "Clouds" "overcast clouds" "PE");
    ("sydney", Profile 22 21 65 4.5 "Clear" "clear sky" "AU");
    ("melbourne", Profile 18 17 68 5.0 "Clouds" "scattered clouds" "AU");
    ("auckland", Profile 17 16 75 4.8 "Clouds" "broken clouds" "NZ");
    ("cape town", Profile 19 18 70 5.5 "Clear" "clear sky" "ZA");
    ("nairobi", Profile 24 23 62 3.5 "Clear" "few clouds" "KE")
  ].

(** The loop over [Object.entries(cityProfiles)]: the first city whose
    name the lowercased location contains. *)
Fixpoint findProfile (locationLower : string) (table : list (string * profile))
  : option profile :=
  match table with
  | [] => None
  | (city, data) :: table' =>
      if JS.includes locationLower city then Some data
      else findProfile locationLower table'
  end.

(** [location.split('').reduce((acc, char) => acc + char.charCodeAt(0), 0)]:
    the sum of the character codes, for a location written in ASCII. *)
Fixpoint seedFrom (acc : Z) (location : string) : Z :=
  match location with
  | EmptyString => acc
  | String c s' => seedFrom (acc + Z.of_nat (JS.code c)) s'
  end.

Definition pick (i : Z) (l : list string) : string := nth (Z.to_nat i) l EmptyString.

(** The profile derived from the seed when no city matches. *)
Definition seededProfile (location : string) : profile :=
  let seed := seedFrom 0 location in
  let tempBase := (15 + seed mod 20)%Z in
  let variation := (seed mod 10 - 5)%Z in
  Profile (inject_Z (tempBase + variation))
          (inject_Z (tempBase + variation + (seed mod 6 - 3)))
          (inject_Z (50 + seed mod 40))
          (inject_Z (2 + seed mod 5))
          (pick (seed mod 3) ["Clear"; "Clouds"; "Rain"]%string)
          (pick (seed mod 3) ["clear sky"; "scattered clouds"; "light rain"]%string)
          "XX".

(** The four [Math.random()] draws, in call order. *)
Record jitter : Type := Jitter {
  rTemp : Q;
  rHumidity : Q;
  rWind : Q;
  rFeels : Q
}.

Definition generateMockWeather (location : string) (j : jitter)
  : Weather.weatherData :=
  let locationLower := JS.toLowerCase location in
  let profile :=
    match findProfile locationLower cityProfiles with
    | Some data => data
    | None => seededProfile location
    end in
  let tempVariation := rTemp j * 6 - 3 in
  let humidityVariation := rHumidity j * 30 - 15 in
  let windVariation := rWind j * 4 - 2 in
  let feelsLikeVariation := rFeels j * 8 - 4 in
  Weather.WeatherData
    (JS.capitalize location)
    (country profile)
    (temp profile + tempVariation)
    (feels profile + feelsLikeVariation)
    (Qmax 30 (Qmin 100 (humidity profile + humidityVariation)))
    (condition profile)
    (desc profile)
    (Qmax 0.5 (wind profile + windVariation)).

(** *** The route *)

(** The request body: unreadable ([c.req.json()] throws), or an object
    whose [location] field is a string or is absent. *)
Inductive request : Type :=
| BodyUnreadable (message : string)
| Body (location : option string).

(** The body of the upstream response: weather data, an error object with
    an optional [message], or something [json()] cannot read. *)
Inductive body : Type :=
| Unreadable
| WeatherBody (w : Weather.weatherData)
| ErrorBody (message : option string).

Inductive upstream : Type :=
| FetchFails                          (* fetch throws: network failure *)
| Response (status : nat) (b : body).

(** The weather object of the reply. *)
Record WeatherSnapshot : Type := Snapshot {
  sLocation : string;
  sCountry : string;
  temperature : Z;
  feelsLike : Z;
  sCondition : string;
  sDescription : string;
  sHumidity : Q;
  windSpeed : Q
}.

Inductive reply : Type :=
| ErrorJson (error : string) (status : nat)
| WeatherJson (weather : WeatherSnapshot) (outfit : Outfit.OutfitData)
              (demoMode : bool) (demoReason : option string).

Definition snapshot (w : Weather.weatherData) : WeatherSnapshot :=
  Snapshot (Weather.name w) (Weather.country w)
           (round (Weather.temp w)) (round (Weather.feels_like w))
           (Weather.main w) (Weather.description w)
           (Weather.humidity w) (Weather.speed w).

(** [response.ok] *)
Definition isOk (status : nat) : bool := ((200 <=? status) && (status <=? 299))%nat.

(** The inner try block, entered when a key is configured: [Some] is the
    reply returned from inside it, [None] is falling through to demo
    mode (the 401 branch, or the catch clause). *)
Definition liveAttempt (up : upstream) : option reply :=
  match up with
  | FetchFails => None
  | Response status b =>
      if isOk status then
        match b with
        | WeatherBody w =>
            Some (WeatherJson (snapshot w)
                    (Outfit.generateOutfitRecommendation w) false None)
        | _ => None
        end
      else if (status =? 401)%nat then None
      else
        match b with
        | Unreadable => None
        | ErrorBody message =>
            Some (ErrorJson (JS.orElse message "Failed to fetch weather data") status)
        | WeatherBody _ =>
            Some (ErrorJson "Failed to fetch weather data" status)
        end
  end.

Definition demoReply (location : string) (apiKey : option string) (j : jitter)
  : reply :=
  let mockWeatherData := generateMockWeather location j in
  let outfit := Outfit.generateOutfitRecommendation mockWeatherData in
  let demoReason :=
    if negb (JS.truthyOpt apiKey)
    then "No API key found in environment variables"%string
    else "API key exists but returned 401 (likely not activated yet - takes 1-2 hours for new OpenWeatherMap accounts)"%string in
  WeatherJson (snapshot mockWeatherData) outfit true (Some demoReason).

Definition weatherRoute (req : request) (apiKey : option string)
           (up : upstream) (j : jitter) : reply :=
  match req with
  | BodyUnreadable message =>
      ErrorJson (JS.orElse (Some message) "Internal server error") 500
  | Body location =>
      match location with
      | Some loc =>
          if JS.truthy loc then
            match (if JS.truthyOpt apiKey then liveAttempt up else None) with
            | Some r => r
            | None => demoReply loc apiKey j
            end
          else ErrorJson "Location is required" 400
      | None => ErrorJson "Location is required" 400
      end
  end.

End Server.

(* ===================================================================== *)
(** ** The temperature table of the specification                        *)
(* ===================================================================== *)

(** Written from the table of the specification, to be compared with the
    temperature chain of [Outfit.baseOutfit]. *)

Module Table.

Open Scope Q_scope.

Inductive band : Type :=
| ExtremeCold | Cold | MildCool | Comfortable | Warm | Hot.

(** The bound of each row. *)
Definition inBand (b : band) (t : Q) : Prop :=
  match b with
  | ExtremeCold => t < 0
  | Cold => 0 <= t /\ t < 10
  | MildCool => 10 <= t /\ t < 18
  | Comfortable => 18 <= t /\ t < 25
  | Warm => 25 <= t /\ t < 30
  | Hot => 30 <= t
  end.

(** The three variation names of each row. *)
Definition bandStyles (b : band) : list string :=
  match b with
  | ExtremeCold => ["Winter Essential"; "Urban Winter"; "Classic Cold Weather"]
  | Cold => ["Casual Cool"; "Modern Edge"; "Timeless Chic"]
  | MildCool => ["Smart Casual"; "Relaxed Comfort"; "Active Ready"]
  | Comfortable => ["Everyday Casual"; "Business Casual"; "Streetwear Vibe"]
  | Warm => ["Summer Breeze"; "Beach Ready"; "Resort Casual"]
  | Hot => ["Heat Wave"; "Tropical Vibes"; "Desert Cool"]
  end%string.

End Table.

(* ===================================================================== *)
(** ** Words by whitespace, as the specification has them                *)
(* ===================================================================== *)

(** Written from the words of the specification, to be compared with
    [Photo.words] and [Photo.fromCache]: the query and the cache keys are
    cut at whitespace. *)

Module Whitespace.
Import Photo.

(** The pieces of [s] between the characters that satisfy [p]. *)
Fixpoint splitBy (p : ascii -> bool) (s : string) : list string :=
  match s with
  | EmptyString => [EmptyString]
  | String c s' =>
      let r := splitBy p s' in
      if p c then EmptyString :: r
      else match r with
           | w :: ws => String c w :: ws
           | [] => [String c EmptyString]
           end
  end.

(** The non-empty pieces between whitespace characters. *)
Definition words (s : string) : list string :=
  filter JS.truthy (splitBy JS.isSpace (JS.toLowerCase s)).

Definition keyScore (query k : string) : nat :=
  matchCount (words query) (words k).

Definition scoredKeys (cache : list (string * string)) (query : string)
  : list scoredKey :=
  map (fun kv => Scored (fst kv) (keyScore query (fst kv))) cache.

(** The exact entry, else the best-scoring entry when it scores at least
    2, else the generic URL. *)
Definition fromCache (cache : list (string * string)) (query : string) : string :=
  match exactMatch cache query with
  | Some u => u
  | None =>
      match sortDesc (scoredKeys cache query) with
      | bestMatch :: _ =>
          if 2 <=? score bestMatch then
            match lookup (key bestMatch) cache with
            | Some u => u
            | None => EmptyString
            end
          else genericFallback
      | [] => genericFallback
      end
  end.

End Whitespace.

(* ===================================================================== *)
(** ** Character predicates on strings and the words a pattern matches   *)
(* ===================================================================== *)

Module Text.

(** Some character of [s] satisfies [p]. *)
Fixpoint anyChar (p : ascii -> bool) (s : string) : bool :=
  match s with
  | EmptyString => false
  | String c s' => p c || anyChar p s'
  end.

(** Every character of [s] satisfies [p]. *)
Fixpoint allChar (p : ascii -> bool) (s : string) : bool :=
  match s with
  | EmptyString => true
  | String c s' => p c && allChar p s'
  end.

(** The characters of [s] that satisfy [p], in order. *)
Fixpoint keep (p : ascii -> bool) (s : string) : string :=
  match s with
  | EmptyString => EmptyString
  | String c s' => if p c then String c (keep p s') else keep p s'
  end.

(** How often [c] occurs in [s]. *)
Fixpoint count (c : ascii) (s : string) : nat :=
  match s with
  | EmptyString => 0
  | String x s' => (if Ascii.eqb x c then 1 else 0) + count c s'
  end.

Definition notUpper (c : ascii) : bool := negb (JS.isUpper c).

(** A character of the ASCII range, on which the blanks of [JS.isSpace]
    are all the blanks JavaScript knows. *)
Definition isAscii (c : ascii) : bool := JS.code c <? 128.

Definition notQuestion (c : ascii) : bool := negb (Regex.chr "?" c).

End Text.

Module Lang.
Import Regex.

(** The words a pattern can consume, anchors and captures set aside. *)
Inductive matches : regex -> string -> Prop :=
| MEps : matches Eps EmptyString
| MCls (p : ascii -> bool) (c : ascii) :
    p c = true -> matches (Cls p) (String c EmptyString)
| MSeq (r1 r2 : regex) (w1 w2 : string) :
    matches r1 w1 -> matches r2 w2 -> matches (Seq r1 r2) (w1 ++ w2)
| MAltL (r1 r2 : regex) (w : string) : matches r1 w -> matches (Alt r1 r2) w
| MAltR (r1 r2 : regex) (w : string) : matches r2 w -> matches (Alt r1 r2) w
| MStarG (p : ascii -> bool) (w : string) :
    Text.allChar p w = true -> matches (StarG p) w
| MStarL (p : ascii -> bool) (w : string) :
    Text.allChar p w = true -> matches (StarL p) w
| MGroup (i : nat) (r : regex) (w : string) :
    matches r w -> matches (Group i r) w
| MEol : matches Eol EmptyString
| MWordB : matches WordB EmptyString.

(** Every word of [r] has a character of the class [q]: some factor of
    every alternative is a single character drawn from inside [q]. *)
Fixpoint forces (q : ascii -> bool) (r : regex) : Prop :=
  match r with
  | Cls p => forall c, p c = true -> q c = true
  | Seq r1 r2 => forces q r1 \/ forces q r2
  | Alt r1 r2 => forces q r1 /\ forces q r2
  | Group _ r' => forces q r'
  | _ => False
  end.

End Lang.

(* ===================================================================== *)
(** ** Starting a job ([handleGenerateOutfit], client)                   *)
(* ===================================================================== *)

Module Generate.
Import Poll.

(** [JSON.parse(responseText)]: it throws, or gives [null] (on which the
    first property read throws a TypeError with the given message), or
    gives a value whose [error], [details] and [taskId] can be read. *)
Inductive startBody : Type :=
| NotJson
| JsonNull (typeError : string)
| JsonObject (error details taskId : option string).

(** The start request as the client sees it. *)
Inductive startReply : Type :=
| StartRejected (message : string)       (* something before the parse throws *)
| StartResponse (ok : bool) (responseText : string) (b : startBody).

(** The part of the try block before the polling: the task id, or the
    message of the error thrown. *)
Definition startGeneration (r : startReply) : string + string :=
  match r with
  | StartRejected message => inr message
  | StartResponse ok responseText b =>
      match b with
      | NotJson =>
          inr ("Invalid response from server: " ++ JS.take 100 responseText)%string
      | JsonNull typeError => inr typeError
      | JsonObject error details taskId =>
          if negb ok then
            inr (JS.orElse error (JS.orElse details "Failed to start generation"))
          else
            match taskId with
            | Some t => if JS.truthy t then inl t
                        else inr "Server response missing taskId"%string
            | None => inr "Server response missing taskId"%string
            end
      end
  end.

(** The job field written by the catch clause. *)
Definition failed (city message : string) : generatedOutfit :=
  GeneratedOutfit city None false
    (Some (JS.orElse (Some message) "Failed to generate outfit image")) None.

(** [handleGenerateOutfit]: the message is appended in the generating
    state, the job is started, the task id is recorded and the status is
    polled; an error at any point is recorded on the job. *)
Definition handleGenerateOutfit (city : string) (r : startReply)
           (oracle : nat -> reply) : list event :=
  SetJob (GeneratedOutfit city None true None None)
  :: match startGeneration r with
     | inl taskId => SetJob (started city taskId) :: runPolling city oracle
     | inr message => [SetJob (failed city message)]
     end.

End Generate.

(* ===================================================================== *)
(** ** The status route ([/outfit-image-status], server)                  *)
(* ===================================================================== *)

Module StatusRoute.

(** What the route reads from the provider's JSON: [successFlag],
    [response.resultImageUrl] and [errorMessage], at the top level and
    under [data].  A flag is an integer. *)
Record providerData : Type := ProviderData {
  flagTop : option Z;
  flagNested : option Z;
  urlTop : option string;
  urlNested : option string;
  errTop : option string;
  errNested : option string
}.

(** The provider's answer: [data] is [None] when [JSON.parse] throws. *)
Inductive upstream : Type :=
| FetchFails (message : string)
| Response (status : nat) (data : option providerData).

Inductive reply : Type :=
| Error (error : string) (code : nat)
| Status (status : string) (successFlag : option Z)
         (imageUrl : option string) (error : option string).

Definition statusMap (successFlag : Z) : option string :=
  match successFlag with
  | 0%Z => Some "generating"
  | 1%Z => Some "success"
  | 2%Z => Some "create_failed"
  | 3%Z => Some "generation_failed"
  | _ => None
  end.

(** [a ?? b] *)
Definition coalesce (a b : option Z) : option Z :=
  match a with Some _ => a | None => b end.

(** [a || b] on strings that may be [undefined]. *)
Definition orOpt (a b : option string) : option string :=
  if JS.truthyOpt a then a else b.

Definition statusOf (successFlag : option Z) : string :=
  match successFlag with
  | Some f => match statusMap f with Some s => s | None => "unknown" end
  | None => "unknown"
  end.

Definition showNat (n : nat) : string := Outfit.showZ (Z.of_nat n).

Definition route (taskId apiKey : option string) (up : upstream) : reply :=
  if negb (JS.truthyOpt taskId) then Error "taskId is required" 400
  else if negb (JS.truthyOpt apiKey)
  then Error "Nano Banana API key not configured" 500
  else
    match up with
    | FetchFails message =>
        Error (JS.orElse (Some message) "Internal server error") 500
    | Response status data =>
        if negb (Server.isOk status) then
          Error ("Failed to check status (HTTP " ++ showNat status ++ ")")%string
                status
        else
          match data with
          | None => Error "Invalid response from API" 500
          | Some d =>
              let successFlag := coalesce (flagTop d) (flagNested d) in
              let status := statusOf successFlag in
              let url := orOpt (urlTop d) (urlNested d) in
              if String.eqb status "success" && JS.truthyOpt url then
                Status status successFlag url None
              else if String.eqb status "create_failed"
                      || String.eqb status "generation_failed" then
                Status status successFlag None
                  (Some (JS.orElse (errTop d)
                           (JS.orElse (errNested d) "Generation failed")))
              else Status status successFlag None None
          end
    end.

(** What the client's [pollStatus] reads from the route's reply. *)
Definition toClient (r : reply) : Poll.reply :=
  match r with
  | Error _ _ => Poll.NotOk
  | Status status _ imageUrl error => Poll.StatusData status imageUrl error
  end.

(** The client polling the route, which asks the provider each time. *)
Definition polled (taskId apiKey : option string) (provider : nat -> upstream)
  : nat -> Poll.reply :=
  fun n => toClient (route taskId apiKey (provider n)).

(** The provider has not finished: no failure flag and no image yet. *)
Definition pending (d : providerData) : Prop :=
  coalesce (flagTop d) (flagNested d) <> Some 2%Z /\
  coalesce (flagTop d) (flagNested d) <> Some 3%Z /\
  JS.truthyOpt (orOpt (urlTop d) (urlNested d)) = false.

End StatusRoute.

(* ===================================================================== *)
(** ** The photo route ([/unsplash], server)                             *)
(* ===================================================================== *)

Module PhotoRoute.

Open Scope Q_scope.

Inductive request : Type :=
| BodyUnreadable (message : string)
| Body (query : option string).

(** The provider's body when the response is ok: [json()] or reading
    [data.results] throws, or [results] is absent, or it is the list of
    the results' [urls.regular]. *)
Inductive body : Type :=
| Unreadable (message : string)
| Results (results : option (list string)).

Inductive upstream : Type :=
| FetchFails (message : string)
| Response (status : nat) (b : body).

Inductive reply : Type :=
| Error (error : string) (code : nat)
| Image (imageUrl : string).

(** [Math.floor(random * topResults)] *)
Definition randomIndex (random : Q) (topResults : nat) : nat :=
  Z.to_nat (Qfloor (random * inject_Z (Z.of_nat topResults))).

Definition route (req : request) (unsplashAccessKey : option string)
           (up : upstream) (random : Q) : reply :=
  match req with
  | BodyUnreadable message =>
      Error (JS.orElse (Some message) "Internal server error") 500
  | Body query =>
      if negb (JS.truthyOpt query) then Error "Query is required" 400
      else if negb (JS.truthyOpt unsplashAccessKey)
      then Error "Unsplash API key not configured" 500
      else
        match up with
        | FetchFails message =>
            Error (JS.orElse (Some message) "Internal server error") 500
        | Response status b =>
            if negb (Server.isOk status) then
              Error ("Failed to fetch from Unsplash (HTTP "
                     ++ StatusRoute.showNat status ++ ")")%string status
            else
              match b with
              | Unreadable message =>
                  Error (JS.orElse (Some message) "Internal server error") 500
              | Results None => Error "No images found" 404
              | Results (Some []) => Error "No images found" 404
              | Results (Some results) =>
                  let topResults := Nat.min 3 (length results) in
                  Image (nth (randomIndex random topResults) results EmptyString)
              end
        end
  end.


End PhotoRoute.

(* ===================================================================== *)
(** ** The variation carousel ([OutfitCard], client)                     *)
(* ===================================================================== *)

Module Carousel.

Open Scope Z_scope.

(** [prev === 0 ? variations.length - 1 : prev - 1] *)
Definition handlePrev (length prev : Z) : Z :=
  if prev =? 0 then length - 1 else prev - 1.

(** [prev === variations.length - 1 ? 0 : prev + 1] *)
Definition handleNext (length prev : Z) : Z :=
  if prev =? length - 1 then 0 else prev + 1.

Inductive click : Type := Prev | Next.

Definition step (length : Z) (currentIndex : Z) (c : click) : Z :=
  match c with
  | Prev => handlePrev length currentIndex
  | Next => handleNext length currentIndex
  end.

(** [currentIndex] after a series of clicks, from [useState(0)]. *)
Definition currentIndex (length : Z) (clicks : list click) : Z :=
  fold_left (step length) clicks 0.

End Carousel.

(* ===================================================================== *)
(** ** The items the rule table can recommend                            *)
(* ===================================================================== *)

Module Catalog.
Import Outfit.

(** The eighteen variations of the temperature chain. *)
Definition baseVariations : list (list OutfitVariation) :=
  [extremeColdVariations; coldVariations; mildCoolVariations;
   comfortableVariations; warmVariations; hotVariations].

Definition umbrella : OutfitItem := Item "Umbrella" "umbrella rain".
Definition snowGear : OutfitItem := Item "Snow Gear" "snow gear".

(** Every item a recommendation can list. *)
Definition knownItems : list OutfitItem :=
  flat_map items (concat baseVariations) ++ [umbrella; snowGear].

(** The items that have no photo in the client's cache, by name. *)
Definition uncachedNames : list string :=
  ["Hoodie"; "Aviator Sunglasses"; "Shades"; "Snow Gear"]%string.

Definition isUncached (i : OutfitItem) : bool :=
  existsb (String.eqb (name i)) uncachedNames.

End Catalog.

(* ===================================================================== *)
(** ** The start route ([/generate-outfit-image], server)                *)
(* ===================================================================== *)

Module GenerateRoute.

(** The fields of [weather] that the prompt uses. *)
Record weatherInfo : Type := WeatherInfo {
  temperature : Z;
  condition : string
}.

(** The request body: unreadable, or an object whose [weather], [style]
    and [items] (the item names) may each be absent. *)
Inductive request : Type :=
| BodyUnreadable (message : string)
| Body (weather : option weatherInfo) (style : option string)
       (items : option (list string)).

(** The provider's body: not JSON, [null] (on which reading [data.data]
    throws a TypeError with the given message), or a value with an
    optional numeric [code], [msg] and [data.taskId]. *)
Inductive providerBody : Type :=
| NotJson
| JsonNull (typeError : string)
| JsonData (code : option Z) (msg : option string) (taskId : option string).

Inductive upstream : Type :=
| FetchFails (message : string)
| Response (status : nat) (b : providerBody).

Inductive reply : Type :=
| Error (error : string) (code : nat)
| Started (taskId : string).

(** [names.join(", ")] *)
Fixpoint join (names : list string) : string :=
  match names with
  | [] => EmptyString
  | [n] => n
  | n :: rest => (n ++ ", " ++ join rest)%string
  end.

Definition prompt (w : weatherInfo) (style : string) (names : list string)
  : string :=
  ("A complete outfit flat lay for " ++ condition w ++ " weather at "
   ++ Outfit.showZ (temperature w) ++ "°C. Style: " ++ style
   ++ ". Items to emphasize: " ++ join names
   ++ ". Professional fashion photography, clean white background, high quality editorial style, well-lit studio shot.")%string.

Definition apiError (status : nat) : string :=
  ("API Error (" ++ StatusRoute.showNat status ++ ")")%string.

(** [typeof data.code === "number" && data.code !== 200] *)
Definition errorCode (code : option Z) : bool :=
  match code with
  | Some c => negb (Z.eqb c 200)
  | None => false
  end.

Definition route (req : request) (apiKey : option string) (up : upstream)
  : reply :=
  match req with
  | BodyUnreadable message =>
      Error (JS.orElse (Some message) "Internal server error") 500
  | Body (Some w) (Some style) (Some names) =>
      if negb (JS.truthy style)
      then Error "Weather data, style, and items are required" 400
      else if negb (JS.truthyOpt apiKey)
      then Error "Nano Banana API key not configured" 500
      else
        match up with
        | FetchFails message =>
            Error (JS.orElse (Some message) "Internal server error") 500
        | Response status b =>
            match b with
            | NotJson => Error "Invalid response from API" 500
            | JsonNull typeError =>
                if negb (Server.isOk status) then Error (apiError status) 502
                else Error (JS.orElse (Some typeError) "Internal server error") 500
            | JsonData code msg taskId =>
                if negb (Server.isOk status) || errorCode code
                then Error (JS.orElse msg (apiError status)) 502
                else
                  match taskId with
                  | Some t => if JS.truthy t then Started t
                              else Error "API response missing taskId" 500
                  | None => Error "API response missing taskId" 500
                  end
            end
        end
  | Body _ _ _ => Error "Weather data, style, and items are required" 400
  end.

(** What the client's [handleGenerateOutfit] reads from the route's
    reply; [details] is whatever the reply carries under that name. *)
Definition toStart (details : option string) (responseText : string) (r : reply)
  : Generate.startReply :=
  match r with
  | Error error _ =>
      Generate.StartResponse false responseText
        (Generate.JsonObject (Some error) details None)
  | Started taskId =>
      Generate.StartResponse true responseText
        (Generate.JsonObject None None (Some taskId))
  end.

End GenerateRoute.

(* ===================================================================== *)
(** ** Answering an utterance ([getWeatherResponse], [handleSend])       *)
(* ===================================================================== *)

Module Conversation.

Record OutfitItemWithImage : Type := ItemWithImage {
  name : string;
  imageUrl : string
}.

Record OutfitVariationWithImages : Type := VariationWithImages {
  style : string;
  items : list OutfitItemWithImage
}.

Record outfitData : Type := OutfitWithImages {
  summary : string;
  note : string;
  variations : list OutfitVariationWithImages
}.

(** What the client reads from one call of the weather route. *)
Inductive wire : Type :=
| Unreachable                          (* fetch or json() throws *)
| Refused (error : option string) (setupInstructions : bool)
| Served (weather : Server.WeatherSnapshot) (outfit : Outfit.OutfitData)
         (demoMode : bool).

(** The route's reply on the wire. *)
Definition toWire (r : Server.reply) : wire :=
  match r with
  | Server.ErrorJson error _ => Refused (Some error) false
  | Server.WeatherJson weather outfit demoMode _ => Served weather outfit demoMode
  end.

(** The message [getWeatherResponse] builds. *)
Inductive message : Type :=
| WeatherMessage (weatherData : Server.WeatherSnapshot) (o : outfitData)
                 (demoMode : bool)
| ComparisonMessage (weather1 : Server.WeatherSnapshot) (outfit1 : outfitData)
                    (weather2 : Server.WeatherSnapshot) (outfit2 : outfitData)
                    (demoMode : bool).

(** A reply that does not ask for a set-up. *)
Definition plain (w : wire) : Prop :=
  match w with
  | Refused _ true => False
  | _ => True
  end.

(** [{ message?, error? }] *)
Inductive result : Type :=
| Failed (error : option string)
| Answered (m : message).

(** The nested [Promise.all] over variations and items. *)
Definition withImages (fetchImage : string -> string) (o : Outfit.OutfitData)
  : outfitData :=
  OutfitWithImages (Outfit.summary o) (Outfit.note o)
    (map (fun variation =>
            VariationWithImages (Outfit.style variation)
              (map (fun item => ItemWithImage (Outfit.name item)
                                  (fetchImage (Outfit.query item)))
                   (Outfit.items variation)))
         (Outfit.variations o)).

(** [error?.error || ''] for a response that may have been ok. *)
Definition errorOf (w : wire) : string :=
  match w with
  | Refused error _ => JS.orElse error EmptyString
  | _ => EmptyString
  end.

Definition respondCompare (fetchImage : string -> string) (w1 w2 : wire)
  : result :=
  match w1, w2 with
  | Unreachable, _ | _, Unreachable =>
      Failed (Some "I'm having trouble comparing cities right now. Please try again in a moment."%string)
  | Served weather1 outfit1 demo1, Served weather2 outfit2 demo2 =>
      Answered (ComparisonMessage weather1 (withImages fetchImage outfit1)
                                  weather2 (withImages fetchImage outfit2)
                                  (demo1 || demo2))
  | _, _ =>
      Failed (Some (JS.trim ("I'm sorry, I couldn't fetch weather data. "
                             ++ errorOf w1 ++ " " ++ errorOf w2)%string))
  end.

Definition respondSingle (fetchImage : string -> string) (w : wire) : result :=
  match w with
  | Unreachable =>
      Failed (Some "I'm having trouble connecting to the weather service right now. Please try again in a moment."%string)
  | Refused error setupInstructions =>
      if setupInstructions then Failed error
      else Failed (Some ("I'm sorry, I couldn't fetch the weather data. "
                         ++ JS.orElse error "Please try again.")%string)
  | Served weather outfit demoMode =>
      Answered (WeatherMessage weather (withImages fetchImage outfit) demoMode)
  end.

(** [getWeatherResponse]: [first] answers the request for the single
    city or for the first city of a comparison, [second] the request for
    the second city. *)
Definition getWeatherResponse (userMessage : string)
           (fetchImage : string -> string) (first second : string -> wire)
  : result :=
  match Intent.extractIntent userMessage with
  | Intent.Compare city1 city2 =>
      respondCompare fetchImage (first city1) (second city2)
  | Intent.SingleCity location => respondSingle fetchImage (first location)
  end.

(** A transcript entry. *)
Inductive entry : Type :=
| UserText (text : string)
| AiText (text : string)
| AiMessage (m : message).

(** [handleSend]: the transcript after the submission was answered. *)
Definition handleSend (messages : list entry) (inputValue : string)
           (fetchImage : string -> string) (first second : string -> wire)
  : list entry :=
  if negb (JS.truthy (JS.trim inputValue)) then messages
  else
    let messages := messages ++ [UserText inputValue] in
    match getWeatherResponse inputValue fetchImage first second with
    | Failed error =>
        if JS.truthyOpt error
        then messages ++ [AiText (JS.orElse error EmptyString)]
        else messages
    | Answered m => messages ++ [AiMessage m]
    end.

End Conversation.

(* ===================================================================== *)
(** * Properties                                                          *)
(* ===================================================================== *)

(** ** Intent extractor *)

Section RegexFacts.
Import Regex.

(** A lazy group gives way as early as it can, a greedy one as late. *)
Example lazy_then_greedy :
  exec (seqs [Group 1 (plusL dot); plusG JS.isSpace; litI "vs";
              plusG JS.isSpace; Group 2 (plusG dot)]) "a vs b VS c"
  = Some [(2, "b VS c"); (1, "a")].
Proof. vm_compute. reflexivity. Qed.

(** A literal is removed wherever it occurs, inside words too. *)
Example literal_inside_words :
  removeAll (litI "the") "Athens and THE Netherlands" = "Ans and  Nerlands".
Proof. vm_compute. reflexivity. Qed.

(** With word boundaries only whole words go. *)
Example whole_words_only :
  removeAll (wholeWordI "today") "today, todays, Today" = ", todays, ".
Proof. vm_compute. reflexivity. Qed.

End RegexFacts.

Section IntentFacts.
Import Intent.

(** Before the final cleanup the location is never empty: the default
    city fills in. *)
Lemma candidateLocation_truthy (userMessage : string) :
  JS.truthy (candidateLocation userMessage) = true.
Proof.
  unfold candidateLocation.
  destruct (JS.truthy (prepositionLocation prepositionPatterns userMessage)) eqn:Hp.
  - rewrite Hp. exact Hp.
  - destruct (JS.truthy (cleanedMessage userMessage)) eqn:Hc.
    + rewrite Hc. exact Hc.
    + rewrite Hp. reflexivity.
Qed.

(** The preposition pattern finds its [at] inside [what]. *)
Example preposition_inside_what :
  prepositionLocation prepositionPatterns "what should I wear tomorrow"
  = "should I wear".
Proof. vm_compute. reflexivity. Qed.

(** The filler list alone would leave [what] behind. *)
Example cleaned_leaves_what :
  cleanedMessage "what should I wear tomorrow" = "what".
Proof. vm_compute. reflexivity. Qed.

(** An utterance with neither preposition nor city does reach the
    default. *)
Example default_city_reached :
  extractIntent "the weather today" = SingleCity "New York".
Proof. vm_compute. reflexivity. Qed.

(** C1: the first two utterances give the stated intents, Compare of
    Tokyo and New York and SingleCity of Seattle; the third, "what should
    I wear tomorrow", does not fall back to New York: the preposition
    pattern captures "should I wear" and that is the city requested. *)
Theorem C1_intent_examples :
  extractIntent "compare Tokyo and New York" = Compare "Tokyo" "New York" /\
  extractIntent "weather in Seattle" = SingleCity "Seattle" /\
  extractIntent "what should I wear tomorrow" = SingleCity "should I wear".
Proof. repeat split; vm_compute; reflexivity. Qed.

(** C2: "forecast for today" matches no comparison pattern, its
    candidate location is the time word "today", and the final cleanup,
    which runs after the default city was considered, leaves the empty
    location to be sent on. *)
Theorem C2_location_emptied_after_fallback :
  firstComparison comparisonPatterns "forecast for today" = None /\
  candidateLocation "forecast for today" = "today" /\
  extractIntent "forecast for today" = SingleCity "".
Proof. repeat split; vm_compute; reflexivity. Qed.

(** C3: in "Tokyo vs Paris compare" the second capture keeps its
    "compare", which the cleaning of the first capture would have
    removed; the other substrings are removed from both. *)
Theorem C3_second_city_keeps_compare :
  firstComparison comparisonPatterns "Tokyo vs Paris compare"
    = Some ("Tokyo", "Paris compare") /\
  extractIntent "Tokyo vs Paris compare" = Compare "Tokyo" "Paris compare" /\
  cleanCity1 "Paris compare" = "Paris" /\
  extractIntent "the weather in Oslo? vs weather for the Paris?"
    = Compare "Oslo" "Paris".
Proof. repeat split; vm_compute; reflexivity. Qed.

End IntentFacts.

(** ** Poll loop *)

Section PollFacts.
Import Poll.

Variable city : string.
Variable oracle : nat -> reply.

Lemma writes_app (a b : list event) : writes (a ++ b) = writes a + writes b.
Proof. unfold writes. rewrite filter_app, length_app. reflexivity. Qed.

Lemma polls_app (a b : list event) : polls (a ++ b) = polls a + polls b.
Proof. unfold polls. rewrite filter_app, length_app. reflexivity. Qed.

(** A run with attempts left starts with a request. *)
Lemma pollStatus_head (remaining attempts : nat) :
  exists evs,
    snd (pollStatus (S remaining) city oracle attempts)
    = Fetch (S attempts) :: evs.
Proof.
  cbn [pollStatus].
  destruct (oracle (S attempts)) as [m | | status url err].
  - eexists; reflexivity.
  - eexists; reflexivity.
  - destruct (String.eqb status "success" && JS.truthyOpt url).
    + eexists; reflexivity.
    + destruct (String.eqb status "create_failed"
                || String.eqb status "generation_failed").
      * eexists; reflexivity.
      * destruct (pollStatus remaining city oracle (S attempts)).
        eexists; reflexivity.
Qed.

(** A run that makes request [n] is, from that request on, the run that
    starts with [attempts = n - 1]; nothing is written before it. *)
Lemma pollStatus_factor (remaining attempts n : nat) :
  In (Fetch n) (snd (pollStatus remaining city oracle attempts)) ->
  attempts < n <= attempts + remaining /\
  exists pre,
    writes pre = 0 /\ polls pre = n - S attempts /\
    fst (pollStatus remaining city oracle attempts)
    = fst (pollStatus (S (attempts + remaining - n)) city oracle (n - 1)) /\
    snd (pollStatus remaining city oracle attempts)
    = pre ++ snd (pollStatus (S (attempts + remaining - n)) city oracle (n - 1)).
Proof.
  revert attempts.
  induction remaining as [| r IH]; intros attempts Hin.
  - contradiction.
  - assert (Here : n = S attempts ->
              attempts < n <= attempts + S r /\
              exists pre,
                writes pre = 0 /\ polls pre = n - S attempts /\
                fst (pollStatus (S r) city oracle attempts)
                = fst (pollStatus (S (attempts + S r - n)) city oracle (n - 1)) /\
                snd (pollStatus (S r) city oracle attempts)
                = pre ++ snd (pollStatus (S (attempts + S r - n)) city oracle (n - 1))).
    { intros ->. split; [lia |].
      exists []. replace (attempts + S r - S attempts) with r by lia.
      replace (S attempts - 1) with attempts by lia.
      replace (S attempts - S attempts) with 0 by lia.
      repeat split. }
    cbn [pollStatus] in Hin.
    destruct (oracle (S attempts)) as [m | | status url err] eqn:Ho;
      cbn [snd In] in Hin.
    + destruct Hin as [Heq | []]. injection Heq as <-. apply Here; reflexivity.
    + destruct Hin as [Heq | []]. injection Heq as <-. apply Here; reflexivity.
    + destruct (String.eqb status "success" && JS.truthyOpt url) eqn:Hs;
        cbn [snd In] in Hin.
      { destruct Hin as [Heq | [Heq | []]]; [| discriminate].
        injection Heq as <-. apply Here; reflexivity. }
      destruct (String.eqb status "create_failed"
                || String.eqb status "generation_failed") eqn:Hf;
        cbn [snd In] in Hin.
      { destruct Hin as [Heq | []]. injection Heq as <-. apply Here; reflexivity. }
      destruct (pollStatus r city oracle (S attempts)) as [c evs] eqn:Hrec.
      cbn [snd In] in Hin.
      destruct Hin as [Heq | [Heq | Hin]]; [| discriminate |].
      { injection Heq as <-. apply Here; reflexivity. }
      specialize (IH (S attempts)). rewrite Hrec in IH. cbn [fst snd] in IH.
      destruct (IH Hin) as [Hrange [pre [Hw [Hp [Hfst Hsnd]]]]].
      split; [lia |].
      exists (Fetch (S attempts) :: Sleep 5000 :: pre).
      replace (attempts + S r - n) with (S attempts + r - n) by lia.
      cbn [pollStatus]. rewrite Ho, Hs, Hf, Hrec. cbn [fst snd].
      repeat split.
      * exact Hw.
      * unfold polls in *. cbn [filter isFetch length]. rewrite Hp. lia.
      * exact Hfst.
      * rewrite Hsnd. reflexivity.
Qed.

(** The loop never makes more requests than it has attempts left. *)
Lemma pollStatus_polls_le (remaining attempts : nat) :
  polls (snd (pollStatus remaining city oracle attempts)) <= remaining.
Proof.
  revert attempts. induction remaining as [| r IH]; intros attempts.
  - cbn. lia.
  - cbn [pollStatus].
    destruct (oracle (S attempts)) as [m | | status url err]; try (cbn; lia).
    destruct (String.eqb status "success" && JS.truthyOpt url); [cbn; lia |].
    destruct (String.eqb status "create_failed"
              || String.eqb status "generation_failed"); [cbn; lia |].
    specialize (IH (S attempts)).
    destruct (pollStatus r city oracle (S attempts)) as [c evs].
    cbn [snd] in *. unfold polls in *. cbn [filter isFetch length]. lia.
Qed.

(** While every reply is [generating] the loop requests, sleeps, and
    finally times out. *)
Lemma pollStatus_all_generating (remaining attempts : nat) :
  (forall n, attempts < n <= attempts + remaining -> oracle n = generating) ->
  pollStatus remaining city oracle attempts
  = (Threw "Generation timeout - please try again",
     flat_map (fun i => [Fetch i; Sleep 5000]) (seq (S attempts) remaining)).
Proof.
  revert attempts. induction remaining as [| r IH]; intros attempts Hgen.
  - reflexivity.
  - cbn [pollStatus]. rewrite (Hgen (S attempts)) by lia.
    unfold generating. cbn [String.eqb Ascii.eqb Bool.eqb andb orb JS.truthyOpt].
    rewrite IH by (intros n Hn; apply Hgen; lia).
    reflexivity.
Qed.

End PollFacts.

Section PollClaims.
Import Poll.

Lemma runPolling_fetch (city : string) (oracle : nat -> reply) (n : nat) :
  In (Fetch n) (runPolling city oracle) ->
  In (Fetch n) (snd (pollStatus maxAttempts city oracle 0)).
Proof.
  unfold runPolling.
  destruct (pollStatus maxAttempts city oracle 0) as [[| m] evs]; cbn [snd].
  - trivial.
  - intros H. apply in_app_or in H. destruct H as [H | [H | []]].
    + exact H.
    + discriminate.
Qed.

(** No run makes more than [maxAttempts] requests. *)
Lemma runPolling_polls_le (city : string) (oracle : nat -> reply) :
  polls (runPolling city oracle) <= maxAttempts.
Proof.
  pose proof (pollStatus_polls_le city oracle maxAttempts 0) as H.
  unfold runPolling.
  destruct (pollStatus maxAttempts city oracle 0) as [[| m] evs]; cbn [snd] in H.
  - exact H.
  - rewrite polls_app. cbn. lia.
Qed.

(** C4 (as amended): a reply ends the loop when it is success with an
    image URL, create_failed or generation_failed, or when the status
    request itself fails: request [n] is then the last one, and the only
    write to the job is the one that follows it and clears
    [isGenerating].  Every other reply, [unknown] and success without an
    image URL included, is treated as still generating: while attempts
    remain, the next request follows after the 5000 ms delay. *)
Theorem C4_only_stopping_replies_end_polling
        (city : string) (oracle : nat -> reply) (n : nat) :
  In (Fetch n) (runPolling city oracle) ->
  (stops (oracle n) = true ->
   exists pre j,
     runPolling city oracle = pre ++ [Fetch n; SetJob j] /\
     writes pre = 0 /\ isGenerating j = false) /\
  (stops (oracle n) = false -> n < maxAttempts ->
   exists pre post,
     runPolling city oracle = pre ++ Fetch n :: Sleep 5000 :: Fetch (S n) :: post /\
     writes pre = 0).
Proof.
  intros Hin. apply runPolling_fetch in Hin.
  destruct (pollStatus_factor city oracle maxAttempts 0 n Hin)
    as [Hrange [pre [Hw [_ [Hfst Hsnd]]]]].
  assert (Hn : S (n - 1) = n) by lia.
  unfold runPolling.
  remember (pollStatus maxAttempts city oracle 0) as p eqn:Hp.
  destruct p as [c evs]. clear Hp.
  cbn [fst snd] in Hfst, Hsnd. rewrite Hfst, Hsnd. clear Hin Hfst Hsnd c evs.
  cbn [pollStatus]. rewrite Hn.
  split.
  - intros Hstop. unfold stops in Hstop.
    destruct (oracle n) as [m | | status url err]; cbn [fst snd].
    + eexists pre, _. rewrite <- app_assoc. cbn [app].
      repeat split. exact Hw.
    + eexists pre, _. rewrite <- app_assoc. cbn [app].
      repeat split. exact Hw.
    + destruct (String.eqb status "success" && JS.truthyOpt url); cbn [fst snd].
      * eexists pre, _. repeat split. exact Hw.
      * cbn [orb] in Hstop. rewrite Hstop. cbn [fst snd].
        eexists pre, _. rewrite <- app_assoc. cbn [app].
        repeat split. exact Hw.
  - intros Hgo Hlt. unfold stops in Hgo.
    destruct (oracle n) as [m | | status url err]; try discriminate.
    apply orb_false_iff in Hgo. destruct Hgo as [Hgo Hf2].
    apply orb_false_iff in Hgo. destruct Hgo as [Hs Hf1].
    rewrite Hs, Hf1, Hf2. cbn [orb].
    unfold maxAttempts in *.
    replace (0 + 120 - n) with (S (120 - S n)) by lia.
    destruct (pollStatus_head city oracle (120 - S n) n) as [post Hpost].
    destruct (pollStatus (S (120 - S n)) city oracle n) as [c evs].
    cbn [snd] in Hpost. subst evs. cbn [fst snd].
    destruct c as [| m].
    + exists pre, post. split; [reflexivity | exact Hw].
    + eexists pre, _. split; [| exact Hw].
      rewrite <- app_assoc. cbn [app]. reflexivity.
Qed.

(** The amended C4 at a run of three [generating] replies and a
    success: request 4 is the last, followed by the one write. *)
Lemma C4_only_stopping_replies_end_polling_witness :
  exists pre j,
    runPolling "Oslo" (threeThenSuccess "https://img.example/1")
    = pre ++ [Fetch 4; SetJob j] /\
    writes pre = 0 /\ isGenerating j = false.
Proof.
  refine (proj1 (C4_only_stopping_replies_end_polling
                   "Oslo" (threeThenSuccess "https://img.example/1") 4 _) _).
  - vm_compute. tauto.
  - reflexivity.
Defined.

(** C4 as stated fails: the first reply reports [unknown], the second
    success without an image URL; neither is [generating], yet each is
    followed by a further request, and the job is written afterwards. *)
Lemma C4_unknown_status_polls_again :
  unknownThenSuccess "https://img.example/1" 1 = StatusData "unknown" None None /\
  unknownThenSuccess "https://img.example/1" 2 = StatusData "success" None None /\
  String.eqb "unknown" "generating" = false /\
  String.eqb "success" "generating" = false /\
  runPolling "Oslo" (unknownThenSuccess "https://img.example/1")
  = [Fetch 1; Sleep 5000; Fetch 2; Sleep 5000; Fetch 3;
     SetJob (GeneratedOutfit "Oslo" (Some "https://img.example/1")
               false None None)] /\
  polls (runPolling "Oslo" (unknownThenSuccess "https://img.example/1")) = 3.
Proof. repeat split; vm_compute; reflexivity. Qed.

(** C5: three [generating] replies and then success with an image URL
    give exactly four requests, 5000 ms apart, and the job in its
    success state; [generating] at each of the 120 attempts gives
    exactly 120 requests, 5000 ms after each, and the job in the timeout
    error state. *)
Theorem C5_poll_sequences
        (city task url : string) (err : option string)
        (quick slow : nat -> reply) :
  JS.truthy url = true ->
  quick 1 = generating -> quick 2 = generating -> quick 3 = generating ->
  quick 4 = StatusData "success" (Some url) err ->
  (forall n, 1 <= n <= maxAttempts -> slow n = generating) ->
  (runPolling city quick
   = [Fetch 1; Sleep 5000; Fetch 2; Sleep 5000; Fetch 3; Sleep 5000; Fetch 4;
      SetJob (GeneratedOutfit city (Some url) false None None)] /\
   polls (runPolling city quick) = 4 /\
   jobAfter (started city task) (runPolling city quick)
   = GeneratedOutfit city (Some url) false None None) /\
  (polls (runPolling city slow) = maxAttempts /\
   sleeps (runPolling city slow) = repeat 5000 maxAttempts /\
   jobAfter (started city task) (runPolling city slow)
   = GeneratedOutfit city None false
       (Some "Generation timeout - please try again") None).
Proof.
  intros Hurl H1 H2 H3 H4 Hslow.
  assert (Hquick : runPolling city quick
    = [Fetch 1; Sleep 5000; Fetch 2; Sleep 5000; Fetch 3; Sleep 5000; Fetch 4;
       SetJob (GeneratedOutfit city (Some url) false None None)]).
  { unfold runPolling, maxAttempts. unfold generating in *.
    cbn [pollStatus]. rewrite H1. cbn [String.eqb Ascii.eqb Bool.eqb andb orb].
    cbn [pollStatus]. rewrite H2. cbn [String.eqb Ascii.eqb Bool.eqb andb orb].
    cbn [pollStatus]. rewrite H3. cbn [String.eqb Ascii.eqb Bool.eqb andb orb].
    cbn [pollStatus]. rewrite H4.
    cbn [String.eqb Ascii.eqb Bool.eqb andb orb JS.truthyOpt]. rewrite Hurl.
    reflexivity. }
  split.
  - rewrite Hquick. repeat split.
  - assert (Hrun : runPolling city slow
      = flat_map (fun i => [Fetch i; Sleep 5000]) (seq 1 maxAttempts)
        ++ [SetJob (GeneratedOutfit city None false
                      (Some "Generation timeout - please try again") None)]).
    { unfold runPolling.
      rewrite (pollStatus_all_generating city slow maxAttempts 0)
        by (intros n Hn; apply Hslow; lia).
      reflexivity. }
    rewrite Hrun. repeat split.
Qed.

(** C5 at the two sequences of the specification. *)
Lemma C5_poll_sequences_witness :
  polls (runPolling "Oslo" (threeThenSuccess "https://img.example/1")) = 4 /\
  polls (runPolling "Oslo" (fun _ => generating)) = maxAttempts.
Proof.
  pose proof (C5_poll_sequences "Oslo" "task-1" "https://img.example/1" None
                (threeThenSuccess "https://img.example/1")
                (fun _ => generating)
                eq_refl eq_refl eq_refl eq_refl eq_refl
                (fun n _ => eq_refl)) as H.
  split.
  - exact (proj1 (proj2 (proj1 H))).
  - exact (proj1 (proj2 H)).
Defined.

End PollClaims.

(** ** Outfit rule table *)

Section OutfitClaims.
Import Outfit Table.
Import Weather(Qltb, Qgtb).

Open Scope Q_scope.

Lemma Qltb_true (a b : Q) : Qltb a b = true <-> a < b.
Proof.
  unfold Qltb. rewrite negb_true_iff. split.
  - intros H. apply Qnot_le_lt. intros Hle.
    apply Qle_bool_iff in Hle. congruence.
  - intros H. destruct (Qle_bool b a) eqn:E; [| reflexivity].
    apply Qle_bool_iff in E. exfalso. exact (Qlt_not_le _ _ H E).
Qed.

Lemma Qltb_false (a b : Q) : Qltb a b = false <-> b <= a.
Proof.
  unfold Qltb. rewrite negb_false_iff. apply Qle_bool_iff.
Qed.

(** Every temperature lies in some row of the table. *)
Lemma inBand_total (t : Q) : exists b, inBand b t.
Proof.
  destruct (Qlt_le_dec t 0); [exists ExtremeCold; assumption |].
  destruct (Qlt_le_dec t 10); [exists Cold; split; assumption |].
  destruct (Qlt_le_dec t 18); [exists MildCool; split; assumption |].
  destruct (Qlt_le_dec t 25); [exists Comfortable; split; assumption |].
  destruct (Qlt_le_dec t 30); [exists Warm; split; assumption |].
  exists Hot; assumption.
Qed.

Lemma addItem_styles (extra : OutfitItem) (vs : list OutfitVariation) :
  map style (addItem extra vs) = map style vs.
Proof.
  unfold addItem. rewrite map_map. reflexivity.
Qed.

(** The variations returned are the band's, passed through the rain step
    and then the snow step. *)
Lemma variations_steps (w : Weather.weatherData) :
  let condition := JS.toLowerCase (Weather.main w) in
  variations (generateOutfitRecommendation w)
  = (if JS.includes condition "snow"
     then addItem (Item "Snow Gear" "snow gear") else fun vs => vs)
      ((if JS.includes condition "rain" || JS.includes condition "drizzle"
        then addItem (Item "Umbrella" "umbrella rain") else fun vs => vs)
         (fst (baseOutfit (Weather.temp w)))).
Proof.
  unfold generateOutfitRecommendation.
  destruct (baseOutfit (Weather.temp w)) as [vs n]. cbn [fst variations].
  destruct (JS.includes (JS.toLowerCase (Weather.main w)) "snow");
    destruct (JS.includes (JS.toLowerCase (Weather.main w)) "rain"
              || JS.includes (JS.toLowerCase (Weather.main w)) "drizzle");
    reflexivity.
Qed.

(** The temperature chain picks the row whose bound holds. *)
Lemma baseOutfit_band (t : Q) (b : band) :
  inBand b t ->
  map style (fst (baseOutfit t)) = bandStyles b /\
  Forall (fun v => (3 <= length (items v) <= 4)%nat) (fst (baseOutfit t)).
Proof.
  intros Hb. unfold baseOutfit.
  destruct (Qltb t 0) eqn:E0;
    [apply Qltb_true in E0 | apply Qltb_false in E0].
  { destruct b; cbn [inBand] in Hb; try (exfalso; lra).
    split; [reflexivity | repeat constructor]. }
  destruct (Qltb t 10) eqn:E10;
    [apply Qltb_true in E10 | apply Qltb_false in E10].
  { destruct b; cbn [inBand] in Hb; try (exfalso; lra).
    split; [reflexivity | repeat constructor]. }
  destruct (Qltb t 18) eqn:E18;
    [apply Qltb_true in E18 | apply Qltb_false in E18].
  { destruct b; cbn [inBand] in Hb; try (exfalso; lra).
    split; [reflexivity | repeat constructor]. }
  destruct (Qltb t 25) eqn:E25;
    [apply Qltb_true in E25 | apply Qltb_false in E25].
  { destruct b; cbn [inBand] in Hb; try (exfalso; lra).
    split; [reflexivity | repeat constructor]. }
  destruct (Qltb t 30) eqn:E30;
    [apply Qltb_true in E30 | apply Qltb_false in E30].
  { destruct b; cbn [inBand] in Hb; try (exfalso; lra).
    split; [reflexivity | repeat constructor]. }
  destruct b; cbn [inBand] in Hb; try (exfalso; lra).
  split; [reflexivity | repeat constructor].
Qed.

(** C6: the band is chosen by the unadjusted temperature against the
    bounds of the table; the recommendation has exactly three variations,
    named as the table names them for that band, and before the condition
    steps each variation lists three or four items. *)
Theorem C6_band_variations (w : Weather.weatherData) (b : band) :
  inBand b (Weather.temp w) ->
  map style (variations (generateOutfitRecommendation w)) = bandStyles b /\
  length (variations (generateOutfitRecommendation w)) = 3%nat /\
  map style (fst (baseOutfit (Weather.temp w))) = bandStyles b /\
  Forall (fun v => (3 <= length (items v) <= 4)%nat)
         (fst (baseOutfit (Weather.temp w))).
Proof.
  intros Hb.
  destruct (baseOutfit_band (Weather.temp w) b Hb) as [Hstyles Hitems].
  assert (Hfinal : map style (variations (generateOutfitRecommendation w))
                   = bandStyles b).
  { rewrite variations_steps. cbv zeta.
    destruct (JS.includes (JS.toLowerCase (Weather.main w)) "snow");
      destruct (JS.includes (JS.toLowerCase (Weather.main w)) "rain"
                || JS.includes (JS.toLowerCase (Weather.main w)) "drizzle");
      rewrite ?addItem_styles; exact Hstyles. }
  repeat split.
  - exact Hfinal.
  - rewrite <- (length_map style), Hfinal. destruct b; reflexivity.
  - exact Hstyles.
  - exact Hitems.
Qed.

(** C6 at 32 degrees: Heat Wave, Tropical Vibes, Desert Cool. *)
Lemma C6_band_variations_witness :
  map style
      (variations
         (generateOutfitRecommendation
            (Weather.WeatherData "Cairo" "EG" 32 34 40 "Clear" "clear sky" 4)))
  = ["Heat Wave"; "Tropical Vibes"; "Desert Cool"]%string.
Proof.
  refine (proj1 (C6_band_variations
                   (Weather.WeatherData "Cairo" "EG" 32 34 40 "Clear" "clear sky" 4)
                   Hot _)).
  cbn. discriminate.
Defined.

Lemma append_assoc (a b c : string) :
  ((a ++ b) ++ c = a ++ (b ++ c))%string.
Proof.
  induction a as [| x a IH]; cbn; [reflexivity | rewrite IH; reflexivity].
Qed.

Lemma append_empty_r (a : string) : (a ++ "" = a)%string.
Proof.
  induction a as [| x a IH]; cbn; [reflexivity | rewrite IH; reflexivity].
Qed.

(** C7: with [condition] the lowercased condition text, every variation
    gets the same additions, an Umbrella item when [condition] contains
    "rain" or "drizzle" and then a Snow Gear item when it contains
    "snow"; the note is the band's note followed, in this order, by the
    rain, snow, wind (speed above 8) and humidity (above 80 with
    temperature above 20) sentences that apply. *)
Theorem C7_condition_steps (w : Weather.weatherData) :
  let condition := JS.toLowerCase (Weather.main w) in
  let rainy := JS.includes condition "rain" || JS.includes condition "drizzle" in
  let snowy := JS.includes condition "snow" in
  variations (generateOutfitRecommendation w)
  = map (fun v =>
           Variation (style v)
             (items v
              ++ (if rainy then [Item "Umbrella" "umbrella rain"] else [])
              ++ (if snowy then [Item "Snow Gear" "snow gear"] else [])))
        (fst (baseOutfit (Weather.temp w))) /\
  note (generateOutfitRecommendation w)
  = (snd (baseOutfit (Weather.temp w))
     ++ (if rainy then "☔ Rain expected! " else "")
     ++ (if snowy then "❄️ Snowy weather! " else "")
     ++ (if Qgtb (Weather.speed w) 8 then "💨 Windy conditions! " else "")
     ++ (if Qgtb (Weather.humidity w) 80 && Qgtb (Weather.temp w) 20
         then "🌡️ High humidity - choose breathable fabrics! " else ""))%string.
Proof.
  cbv zeta. split.
  - rewrite variations_steps. cbv zeta. unfold addItem.
    set (base := fst (baseOutfit (Weather.temp w))).
    assert (Hid : forall f : OutfitVariation -> OutfitVariation,
               (forall v, v = f v) -> base = map f base).
    { intros f Hf. rewrite <- (map_id base) at 1. apply map_ext. exact Hf. }
    destruct (JS.includes (JS.toLowerCase (Weather.main w)) "snow");
      destruct (JS.includes (JS.toLowerCase (Weather.main w)) "rain"
                || JS.includes (JS.toLowerCase (Weather.main w)) "drizzle");
      cbv beta.
    + rewrite map_map. apply map_ext. intros [st its]. cbn [style items].
      rewrite <- app_assoc. reflexivity.
    + apply map_ext. intros [st its]. reflexivity.
    + apply map_ext. intros [st its]. reflexivity.
    + apply Hid. intros [st its]. cbn [style items app].
      rewrite app_nil_r. reflexivity.
  - unfold generateOutfitRecommendation.
    destruct (baseOutfit (Weather.temp w)) as [vs n]. cbn [snd note].
    destruct (JS.includes (JS.toLowerCase (Weather.main w)) "snow");
      destruct (JS.includes (JS.toLowerCase (Weather.main w)) "rain"
                || JS.includes (JS.toLowerCase (Weather.main w)) "drizzle");
      destruct (Qgtb (Weather.speed w) 8);
      destruct (Qgtb (Weather.humidity w) 80 && Qgtb (Weather.temp w) 20);
      rewrite ?append_assoc; cbn [String.append]; rewrite ?append_empty_r;
      reflexivity.
Qed.

(** The example of the specification: 5 degrees and rain. *)
Example rain_at_five_degrees :
  let o := generateOutfitRecommendation
             (Weather.WeatherData "Leeds" "GB" 5 3 50 "Rain" "light rain" 3) in
  summary o = "For 5°C (feels like 3°C) with light rain"%string /\
  note o = ("Cold weather calls for warm layers and comfortable outerwear."
            ++ "☔ Rain expected! ")%string /\
  Forall (fun v => In (Item "Umbrella" "umbrella rain") (items v)) (variations o).
Proof.
  cbv zeta. split; [vm_compute; reflexivity |].
  split; [vm_compute; reflexivity |].
  vm_compute. repeat constructor; tauto.
Qed.

End OutfitClaims.

(** ** Photo lookup *)

Section PhotoClaims.
Import Photo.

Lemma insertDesc_In (x y : scoredKey) (l : list scoredKey) :
  In y (insertDesc x l) <-> y = x \/ In y l.
Proof.
  induction l as [| z l IH]; cbn.
  - intuition congruence.
  - destruct (score z <=? score x); cbn.
    + intuition congruence.
    + rewrite IH. intuition congruence.
Qed.

Lemma sortDesc_In (y : scoredKey) (l : list scoredKey) :
  In y (sortDesc l) <-> In y l.
Proof.
  induction l as [| x l IH]; cbn.
  - tauto.
  - rewrite insertDesc_In, IH. intuition congruence.
Qed.

Lemma sortDesc_nil (l : list scoredKey) : sortDesc l = [] -> l = [].
Proof.
  destruct l as [| x l]; [reflexivity |].
  change (sortDesc (x :: l)) with (insertDesc x (sortDesc l)).
  intros E. exfalso.
  assert (H : In x (insertDesc x (sortDesc l)))
    by (apply insertDesc_In; left; reflexivity).
  rewrite E in H. exact H.
Qed.

Lemma insertDesc_headMax (x : scoredKey) (l : list scoredKey) :
  headMax l -> headMax (insertDesc x l).
Proof.
  destruct l as [| z l]; cbn.
  - intros _ y [].
  - intros Hz. destruct (score z <=? score x) eqn:E; cbn.
    + apply Nat.leb_le in E. intros y [<- | Hy]; [exact E |].
      specialize (Hz y Hy). lia.
    + apply Nat.leb_gt in E. intros y Hy.
      apply insertDesc_In in Hy. destruct Hy as [-> | Hy]; [lia |].
      exact (Hz y Hy).
Qed.

Lemma sortDesc_headMax (l : list scoredKey) : headMax (sortDesc l).
Proof.
  induction l as [| x l IH]; cbn; [exact I |].
  apply insertDesc_headMax. exact IH.
Qed.

(** After sorting, the first element scores at least as much as every
    element of the list. *)
Lemma sortDesc_best (l : list scoredKey) (b : scoredKey) (t : list scoredKey) :
  sortDesc l = b :: t ->
  In b l /\ forall y, In y l -> score y <= score b.
Proof.
  intros E. split.
  - apply sortDesc_In. rewrite E. left. reflexivity.
  - intros y Hy. apply sortDesc_In in Hy. rewrite E in Hy.
    pose proof (sortDesc_headMax l) as Hm. rewrite E in Hm. cbn in Hm.
    destruct Hy as [<- | Hy]; [lia | exact (Hm y Hy)].
Qed.

Lemma lookup_of_In (cache : list (string * string)) (k u : string) :
  In (k, u) cache -> exists u', lookup k cache = Some u'.
Proof.
  induction cache as [| [k' v] cache IH]; cbn; [intros [] |].
  intros [E | Hin].
  - injection E as -> ->. rewrite String.eqb_refl. eexists; reflexivity.
  - destruct (String.eqb k k'); [eexists; reflexivity | exact (IH Hin)].
Qed.

Lemma lookup_In (cache : list (string * string)) (k u : string) :
  lookup k cache = Some u -> In (k, u) cache.
Proof.
  induction cache as [| [k' v] cache IH]; cbn; [discriminate |].
  destruct (String.eqb k k') eqn:E.
  - apply String.eqb_eq in E. subst k'. intros [= ->]. left. reflexivity.
  - intros H. right. exact (IH H).
Qed.

(** No URL of the cache is empty, so a key that is present is truthy. *)
Lemma imageCache_truthy :
  forallb (fun kv => JS.truthy (snd kv)) imageCache = true.
Proof. vm_compute. reflexivity. Qed.

Lemma exactMatch_imageCache (query : string) :
  exactMatch imageCache query = lookup query imageCache.
Proof.
  unfold exactMatch. destruct (lookup query imageCache) as [u |] eqn:E;
    [| reflexivity].
  apply lookup_In in E.
  pose proof imageCache_truthy as Hall. rewrite forallb_forall in Hall.
  specialize (Hall (query, u) E). cbn [snd] in Hall. rewrite Hall. reflexivity.
Qed.

(** The lookup on the own properties, step by step. *)
Lemma fromCache_resolution (query : string) :
  (forall u, lookup query imageCache = Some u ->
             fromCache imageCache query = u) /\
  (lookup query imageCache = None ->
   exists k u,
     lookup k imageCache = Some u /\
     (forall k' u', In (k', u') imageCache -> keyScore query k' <= keyScore query k) /\
     fromCache imageCache query
     = if 2 <=? keyScore query k then u else genericFallback).
Proof.
  split.
  - intros u Hu. unfold fromCache.
    rewrite exactMatch_imageCache, Hu. reflexivity.
  - intros Hnone. unfold fromCache.
    rewrite exactMatch_imageCache, Hnone.
    destruct (sortDesc (scoredKeys imageCache query)) as [| b t] eqn:E.
    { apply sortDesc_nil in E. unfold scoredKeys in E.
      apply map_eq_nil in E. unfold imageCache in E. discriminate E. }
    destruct (sortDesc_best _ _ _ E) as [Hb Hmax].
    unfold scoredKeys in Hb. apply in_map_iff in Hb.
    destruct Hb as [[k u0] [Hbk Hk]]. cbn [fst] in Hbk.
    destruct (lookup_of_In _ _ _ Hk) as [u Hu].
    exists k, u. subst b. cbn [key score]. rewrite Hu.
    split; [reflexivity |]. split; [| reflexivity].
    intros k' u' Hk'.
    apply (Hmax (Scored k' (keyScore query k'))).
    unfold scoredKeys. apply in_map_iff. exists (k', u').
    split; [reflexivity | exact Hk'].
Qed.

Lemma fromCache_similar (cache : list (string * string)) (query : string) :
  fromCache cache query
  = match exactMatch cache query with
    | Some u => u
    | None => PhotoJS.similar cache query
    end.
Proof. reflexivity. Qed.

(** What the cache object holds under a name is truthy. *)
Lemma getProperty_truthy (query : string) (v : PhotoJS.value) :
  PhotoJS.getProperty imageCache query = Some v -> PhotoJS.truthyValue v = true.
Proof.
  unfold PhotoJS.getProperty.
  destruct (lookup query imageCache) as [u |] eqn:E.
  - intros [= <-]. cbn [PhotoJS.truthyValue].
    apply lookup_In in E.
    pose proof imageCache_truthy as Hall. rewrite forallb_forall in Hall.
    exact (Hall (query, u) E).
  - destruct (PhotoJS.inherited query); [| discriminate].
    intros [= <-]. reflexivity.
Qed.

(** For a query that names no inherited member, the lookup on the object
    is the lookup on its own properties. *)
Lemma fetchUnsplashImage_own (l : live) (query : string) :
  PhotoJS.inherited query = false ->
  PhotoJS.fetchUnsplashImage l query = PhotoJS.Url (fetchUnsplashImage l query).
Proof.
  intros Hq. unfold PhotoJS.fetchUnsplashImage, fetchUnsplashImage.
  destruct (liveUrl l) as [u |]; [reflexivity |].
  rewrite fromCache_similar, exactMatch_imageCache.
  destruct (PhotoJS.getProperty imageCache query) as [v |] eqn:E.
  - rewrite (getProperty_truthy _ _ E).
    unfold PhotoJS.getProperty in E.
    destruct (lookup query imageCache) as [u |].
    + injection E as <-. reflexivity.
    + rewrite Hq in E. discriminate E.
  - unfold PhotoJS.getProperty in E.
    destruct (lookup query imageCache) as [u |]; [discriminate E | reflexivity].
Qed.

(** C8, the claim as stated fails on two inputs.  Cut at whitespace, the
    query made of "blue", a TAB and "denim" has the two words "blue" and
    "denim", both found in the key "blue denim jacket classic", whose
    entry the claim then promises; the code cuts at the space character
    only, sees one word, and returns the generic URL.  And the query
    "constructor", for which the cache has no entry, gets neither a
    cache entry nor the generic URL but the member of that name every
    object inherits. *)
Lemma C8_tab_separated_and_inherited_queries :
  Whitespace.words ("blue" ++ String "009"%char "denim")%string = ["blue"; "denim"] /\
  Some (Whitespace.fromCache imageCache ("blue" ++ String "009"%char "denim")%string)
  = lookup "blue denim jacket classic" imageCache /\
  String.eqb (Whitespace.fromCache imageCache ("blue" ++ String "009"%char "denim")%string)
             genericFallback = false /\
  words ("blue" ++ String "009"%char "denim")%string = [("blue" ++ String "009"%char "denim")%string] /\
  PhotoJS.fetchUnsplashImage LiveError ("blue" ++ String "009"%char "denim")%string
  = PhotoJS.Url genericFallback /\
  lookup "constructor" imageCache = None /\
  PhotoJS.fetchUnsplashImage LiveError "constructor"
  = PhotoJS.Inherited "constructor".
Proof. repeat split; vm_compute; reflexivity. Qed.

(** C8, as amended: for a query that names no member inherited from
    [Object.prototype], when the live path gives no image URL, the result
    is the cache entry under the query itself if there is one; otherwise
    it is decided by the cache key with the highest count of query words
    that contain, or are contained in, a word of the key, the words being
    the pieces of the lowercased text between single space characters,
    empty pieces included: that entry's URL when the count is at least 2, the generic fallback
    URL otherwise.  The query "blue denim jacket" gets the entry of
    "blue denim jacket classic". *)
Theorem C8_cache_resolution_by_spaces (l : live) (query : string) :
  liveUrl l = None ->
  PhotoJS.inherited query = false ->
  let count := fun k =>
    matchCount (JS.split " " (JS.toLowerCase query))
               (JS.split " " (JS.toLowerCase k)) in
  (forall u, lookup query imageCache = Some u ->
             PhotoJS.fetchUnsplashImage l query = PhotoJS.Url u) /\
  (lookup query imageCache = None ->
   exists k u,
     lookup k imageCache = Some u /\
     (forall k' u', In (k', u') imageCache -> count k' <= count k) /\
     PhotoJS.fetchUnsplashImage l query
     = PhotoJS.Url (if 2 <=? count k then u else genericFallback)) /\
  lookup "blue denim jacket" imageCache = None /\
  Some (PhotoJS.fetchUnsplashImage l "blue denim jacket")
  = option_map PhotoJS.Url (lookup "blue denim jacket classic" imageCache).
Proof.
  intros Hlive Hq count.
  rewrite (fetchUnsplashImage_own l query Hq).
  rewrite (fetchUnsplashImage_own l "blue denim jacket" eq_refl).
  unfold fetchUnsplashImage. rewrite Hlive.
  destruct (fromCache_resolution query) as [Hexact Hsimilar].
  split; [| split; [| split]].
  - intros u Hu. rewrite (Hexact u Hu). reflexivity.
  - intros Hnone. destruct (Hsimilar Hnone) as [k [u [Hk [Hmax E]]]].
    exists k, u. split; [exact Hk |]. split; [exact Hmax |].
    rewrite E. reflexivity.
  - vm_compute. reflexivity.
  - vm_compute. reflexivity.
Qed.

(** C8 when the photo route answers with an error. *)
Lemma C8_cache_resolution_by_spaces_witness :
  Some (PhotoJS.fetchUnsplashImage LiveError "blue denim jacket")
  = option_map PhotoJS.Url (lookup "blue denim jacket classic" imageCache).
Proof.
  exact (proj2 (proj2 (proj2
           (C8_cache_resolution_by_spaces LiveError "blue denim jacket"
              eq_refl eq_refl)))).
Defined.

(** A query sharing one word with the cache at most gets the generic
    image. *)
Example one_word_is_not_enough :
  fetchUnsplashImage LiveThrows "purple poncho" = genericFallback.
Proof. vm_compute. reflexivity. Qed.

End PhotoClaims.

(** ** Weather proxy *)

Section ServerClaims.
Import Server.

Open Scope Q_scope.

(** Demo mode always answers with a snapshot, flagged and explained. *)
Lemma demoReply_shape (location : string) (apiKey : option string) (j : jitter) :
  exists weather outfit reason,
    demoReply location apiKey j = WeatherJson weather outfit true (Some reason).
Proof.
  unfold demoReply. eexists _, _, _. reflexivity.
Qed.

(** C9, the claim as stated fails: a request whose body cannot be read
    is answered with status 500 and the reader's message, although no
    key is configured and the upstream is never reached. *)
Lemma C9_unreadable_body_fails :
  weatherRoute (BodyUnreadable "Unexpected end of JSON input"%string) None
               FetchFails (Jitter 0.5 0.5 0.5 0.5)
  = ErrorJson "Unexpected end of JSON input" 500.
Proof. reflexivity. Qed.

(** C9, as amended: the route answers with an error only when the
    request body cannot be read (status 500), when the location is absent
    or empty (status 400, "Location is required"), or when, with a key
    configured, the upstream answers with an error status other than 401
    (that status is passed on).  With a location given, a missing key, a
    401 from upstream or a network failure never fail: the answer is the
    weather [generateMockWeather] makes for the location, temperatures
    rounded, with the outfit computed from it, [demoMode] true and the
    reason, which is not empty.  An unreadable body, an absent or empty
    location and a readable upstream error other than 401 do fail. *)
Theorem C9_weather_route_failure_causes
        (req : request) (apiKey : option string) (up : upstream) (j : jitter) :
  (forall message code,
      weatherRoute req apiKey up j = ErrorJson message code ->
      (exists m, req = BodyUnreadable m /\ code = 500%nat) \/
      ((req = Body None \/ req = Body (Some EmptyString)) /\
       code = 400%nat /\ message = "Location is required"%string) \/
      (exists loc b,
          req = Body (Some loc) /\ JS.truthy loc = true /\
          JS.truthyOpt apiKey = true /\
          up = Response code b /\ isOk code = false /\ code <> 401%nat)) /\
  (forall loc,
      req = Body (Some loc) -> JS.truthy loc = true ->
      JS.truthyOpt apiKey = false \/ up = FetchFails
      \/ (exists b, up = Response 401 b) ->
      let mock := generateMockWeather loc j in
      let reason :=
        if JS.truthyOpt apiKey
        then "API key exists but returned 401 (likely not activated yet - takes 1-2 hours for new OpenWeatherMap accounts)"%string
        else "No API key found in environment variables"%string in
      JS.truthy reason = true /\
      weatherRoute req apiKey up j
      = WeatherJson
          (Snapshot (Weather.name mock) (Weather.country mock)
                    (Weather.round (Weather.temp mock))
                    (Weather.round (Weather.feels_like mock))
                    (Weather.main mock) (Weather.description mock)
                    (Weather.humidity mock) (Weather.speed mock))
          (Outfit.generateOutfitRecommendation mock) true (Some reason)) /\
  (forall m,
      req = BodyUnreadable m ->
      weatherRoute req apiKey up j
      = ErrorJson (if JS.truthy m then m else "Internal server error"%string) 500) /\
  (req = Body None \/ req = Body (Some EmptyString) ->
   weatherRoute req apiKey up j = ErrorJson "Location is required" 400) /\
  (forall loc code message,
      req = Body (Some loc) -> JS.truthy loc = true ->
      JS.truthyOpt apiKey = true ->
      up = Response code (ErrorBody message) ->
      isOk code = false -> code <> 401%nat ->
      weatherRoute req apiKey up j
      = ErrorJson (JS.orElse message "Failed to fetch weather data") code).
Proof.
  split; [| split; [| split; [| split]]].
  - intros message code H.
    destruct req as [m | [loc |]].
    + left. exists m. split; [reflexivity |].
      cbn [weatherRoute] in H. injection H as _ <-. reflexivity.
    + cbn [weatherRoute] in H.
      destruct (JS.truthy loc) eqn:Hloc.
      * right. right.
        destruct (JS.truthyOpt apiKey) eqn:Hkey;
          [| unfold demoReply in H; discriminate H].
        destruct up as [| status b]; cbn [liveAttempt] in H;
          [unfold demoReply in H; discriminate H |].
        destruct (isOk status) eqn:Hok.
        { destruct b; unfold demoReply in H; discriminate H. }
        destruct (Nat.eqb status 401) eqn:H401;
          [unfold demoReply in H; discriminate H |].
        apply Nat.eqb_neq in H401.
        destruct b as [| w | m]; [unfold demoReply in H; discriminate H | |];
          injection H as _ <-; exists loc; eexists; repeat split; assumption.
      * right. left. injection H as <- <-.
        destruct loc; [| discriminate Hloc].
        split; [right; reflexivity | split; reflexivity].
    + right. left. cbn [weatherRoute] in H. injection H as <- <-.
      split; [left; reflexivity | split; reflexivity].
  - intros loc -> Hloc Hcause mock reason.
    split; [unfold reason; destruct (JS.truthyOpt apiKey); reflexivity |].
    cbn [weatherRoute]. rewrite Hloc. unfold reason.
    destruct (JS.truthyOpt apiKey) eqn:Hkey.
    + destruct Hcause as [Hk | [-> | [b ->]]].
      * discriminate Hk.
      * cbn [liveAttempt]. unfold demoReply. rewrite Hkey. reflexivity.
      * cbn [liveAttempt isOk Nat.leb Nat.eqb andb]. unfold demoReply.
        rewrite Hkey. reflexivity.
    + unfold demoReply. rewrite Hkey. reflexivity.
  - intros m ->. reflexivity.
  - intros [-> | ->]; reflexivity.
  - intros loc code message -> Hloc Hkey -> Hok H401.
    cbn [weatherRoute]. rewrite Hloc, Hkey. cbn [liveAttempt].
    rewrite Hok. apply Nat.eqb_neq in H401. rewrite H401. reflexivity.
Qed.

(** C9 for a city asked without a key configured. *)
Lemma C9_weather_route_failure_causes_witness :
  weatherRoute (Body (Some "Lisbon"%string)) None FetchFails
               (Jitter 0.5 0.5 0.5 0.5)
  = WeatherJson
      (snapshot (generateMockWeather "Lisbon" (Jitter 0.5 0.5 0.5 0.5)))
      (Outfit.generateOutfitRecommendation
         (generateMockWeather "Lisbon" (Jitter 0.5 0.5 0.5 0.5)))
      true (Some "No API key found in environment variables"%string).
Proof.
  exact (proj2 (proj1 (proj2 (C9_weather_route_failure_causes
                         (Body (Some "Lisbon"%string)) None FetchFails
                         (Jitter 0.5 0.5 0.5 0.5)))
                  "Lisbon"%string eq_refl eq_refl (or_introl eq_refl))).
Defined.

(** An upstream 404 is passed on as a failure. *)
Example unknown_city_fails :
  weatherRoute (Body (Some "Qwghlm"%string)) (Some "k"%string)
               (Response 404 (ErrorBody (Some "city not found"%string)))
               (Jitter 0 0 0 0)
  = ErrorJson "city not found" 404.
Proof. reflexivity. Qed.

(** C10: whatever the location and whatever the four random draws, the
    synthesized humidity lies between 30 and 100 and the synthesized
    wind speed is at least 0.5; this covers the cities of the table and
    the seeded ones alike. *)
Theorem C10_mock_weather_bounds (location : string) (j : jitter) :
  30 <= Weather.humidity (generateMockWeather location j) <= 100 /\
  0.5 <= Weather.speed (generateMockWeather location j).
Proof.
  unfold generateMockWeather. cbn [Weather.humidity Weather.speed].
  repeat split.
  - apply Q.le_max_l.
  - apply Q.max_lub; [discriminate | apply Q.le_min_l].
  - apply Q.le_max_l.
Qed.

(** The clamp is active: Riyadh's 25 per cent less the largest downward
    jitter would be 10. *)
Example riyadh_humidity_clamped :
  Weather.humidity (generateMockWeather "Riyadh" (Jitter 0 0 0 0)) == 30.
Proof. vm_compute. reflexivity. Qed.

(** A seeded city: the profile comes from the sum of the character
    codes. *)
Example atlantis_is_seeded :
  findProfile (JS.toLowerCase "Atlantis") cityProfiles = None /\
  seedFrom 0 "Atlantis" = 832%Z /\
  Weather.country (generateMockWeather "Atlantis" (Jitter 0 0 0 0)) = "XX"%string.
Proof. repeat split; vm_compute; reflexivity. Qed.

End ServerClaims.

(* ===================================================================== *)
(** * Further properties of the code                                     *)
(* ===================================================================== *)

(** ** More on the intent extractor *)

Section TextFacts.
Import Text.

Lemma anyChar_app (p : ascii -> bool) (a b : string) :
  anyChar p (a ++ b) = anyChar p a || anyChar p b.
Proof.
  induction a as [| c a IH]; cbn; [reflexivity |].
  rewrite IH, orb_assoc. reflexivity.
Qed.

Lemma allChar_app (p : ascii -> bool) (a b : string) :
  allChar p (a ++ b) = allChar p a && allChar p b.
Proof.
  induction a as [| c a IH]; cbn; [reflexivity |].
  rewrite IH, andb_assoc. reflexivity.
Qed.

Lemma anyChar_allChar (p : ascii -> bool) (s : string) :
  anyChar p s = negb (allChar (fun c => negb (p c)) s).
Proof.
  induction s as [| c s IH]; cbn; [reflexivity |].
  rewrite IH, negb_andb, negb_involutive. reflexivity.
Qed.

(** Trimming keeps what holds of every character. *)
Lemma allChar_trimStart (p : ascii -> bool) (s : string) :
  allChar p s = true -> allChar p (JS.trimStart s) = true.
Proof.
  induction s as [| c s IH]; cbn; [trivial |].
  intros H. apply andb_true_iff in H. destruct H as [Hc Hs].
  destruct (JS.isSpace c); [exact (IH Hs) |].
  cbn. rewrite Hc, Hs. reflexivity.
Qed.

Lemma allChar_trimEnd (p : ascii -> bool) (s : string) :
  allChar p s = true -> allChar p (JS.trimEnd s) = true.
Proof.
  induction s as [| c s IH]; cbn; [trivial |].
  intros H. apply andb_true_iff in H. destruct H as [Hc Hs].
  specialize (IH Hs).
  destruct (JS.trimEnd s) as [| d t].
  - destruct (JS.isSpace c); cbn; [reflexivity | rewrite Hc; reflexivity].
  - cbn in *. rewrite Hc, IH. reflexivity.
Qed.

Lemma allChar_trim (p : ascii -> bool) (s : string) :
  allChar p s = true -> allChar p (JS.trim s) = true.
Proof.
  intros H. unfold JS.trim. apply allChar_trimEnd, allChar_trimStart, H.
Qed.

(** [removeAll] only drops characters. *)
Lemma allChar_removeLoop (p : ascii -> bool) (r : Regex.regex)
      (s : string) (skip n : nat) (pv : option ascii) :
  allChar p s = true -> allChar p (Regex.removeLoop r skip n pv s) = true.
Proof.
  revert skip n pv. induction s as [| c s IH]; intros skip n pv H;
    cbn [Regex.removeLoop]; [reflexivity |].
  cbn in H. apply andb_true_iff in H. destruct H as [Hc Hs].
  destruct skip as [| k]; [| apply IH; exact Hs].
  destruct (Regex.matchHere r n pv (String c s)) as [st |].
  - destruct (Regex.pos st - n) as [| k]; [| apply IH; exact Hs].
    cbn. rewrite Hc. apply IH. exact Hs.
  - cbn. rewrite Hc. apply IH. exact Hs.
Qed.

Lemma allChar_removeEach (p : ascii -> bool) (rs : list Regex.regex) (s : string) :
  allChar p s = true -> allChar p (Intent.removeEach rs s) = true.
Proof.
  unfold Intent.removeEach. revert s.
  induction rs as [| r rs IH]; intros s H; cbn; [exact H |].
  apply IH. unfold Regex.removeAll. apply allChar_removeLoop. exact H.
Qed.

(** Removing a single-character class leaves no such character. *)
Lemma removeLoop_cls (p : ascii -> bool) (s : string) (n : nat) (pv : option ascii) :
  Regex.removeLoop (Regex.Cls p) 0 n pv s = keep (fun c => negb (p c)) s.
Proof.
  revert n pv. induction s as [| c s IH]; intros n pv; cbn [Regex.removeLoop keep];
    [reflexivity |].
  unfold Regex.matchHere. cbn [Regex.run Regex.rest Regex.pos Regex.caps].
  destruct (p c) eqn:Hc; cbn [negb Regex.pos].
  - replace (S n - n) with 1 by lia. apply IH.
  - rewrite IH. reflexivity.
Qed.

Lemma allChar_keep (p : ascii -> bool) (s : string) :
  allChar p (keep p s) = true.
Proof.
  induction s as [| c s IH]; cbn; [reflexivity |].
  destruct (p c) eqn:Hc; [cbn; rewrite Hc |]; exact IH.
Qed.

(** A chain of removals that ends with a single-character class leaves
    no character of that class. *)
Lemma removeEach_last_cls (p : ascii -> bool) (rs : list Regex.regex) (s : string) :
  allChar (fun c => negb (p c)) (Intent.removeEach (rs ++ [Regex.Cls p]) s) = true.
Proof.
  unfold Intent.removeEach. rewrite fold_left_app. cbn [fold_left].
  unfold Regex.removeAll at 1. rewrite removeLoop_cls. apply allChar_keep.
Qed.

(** [trim] does nothing to its own result. *)
Lemma trimEnd_idem (s : string) : JS.trimEnd (JS.trimEnd s) = JS.trimEnd s.
Proof.
  induction s as [| c s IH]; cbn; [reflexivity |].
  destruct (JS.trimEnd s) as [| d t] eqn:E.
  - destruct (JS.isSpace c) eqn:Hc; cbn; [reflexivity |].
    rewrite Hc. reflexivity.
  - cbn [JS.trimEnd] in *. rewrite IH. reflexivity.
Qed.

Lemma trimStart_head (s : string) :
  match JS.trimStart s with
  | EmptyString => True
  | String c _ => JS.isSpace c = false
  end.
Proof.
  induction s as [| c s IH]; cbn; [exact I |].
  destruct (JS.isSpace c) eqn:Hc; [exact IH | exact Hc].
Qed.

Lemma trimStart_trimEnd (s : string) :
  match s with
  | EmptyString => True
  | String c _ => JS.isSpace c = false
  end ->
  JS.trimStart (JS.trimEnd s) = JS.trimEnd s.
Proof.
  destruct s as [| c s]; [reflexivity |].
  intros Hc. cbn [JS.trimEnd].
  destruct (JS.trimEnd s); [rewrite Hc |]; cbn; rewrite Hc; reflexivity.
Qed.

Lemma trim_idem (s : string) : JS.trim (JS.trim s) = JS.trim s.
Proof.
  unfold JS.trim.
  rewrite (trimStart_trimEnd (JS.trimStart s) (trimStart_head s)).
  apply trimEnd_idem.
Qed.

End TextFacts.

Section MatcherFacts.
Import Regex Lang Text.

Lemma starG_sound (p : ascii -> bool) (k : kont) (s : string) :
  forall n pv cs res,
    starG p k n pv s cs = Some res ->
    exists w st', allChar p w = true /\ s = (w ++ rest st')%string /\
                  k st' = Some res.
Proof.
  induction s as [| c s IH]; intros n pv cs res H; cbn [starG] in H.
  - exists EmptyString, (MState n pv EmptyString cs). repeat split. exact H.
  - destruct (p c) eqn:Hc.
    + destruct (starG p k (S n) (Some c) s cs) as [r |] eqn:E.
      * injection H as ->.
        destruct (IH _ _ _ _ E) as [w [st' [Hw [Hs Hk]]]].
        exists (String c w), st'. cbn. rewrite Hc, Hw, Hs.
        repeat split. exact Hk.
      * exists EmptyString, (MState n pv (String c s) cs). repeat split. exact H.
    + exists EmptyString, (MState n pv (String c s) cs). repeat split. exact H.
Qed.

Lemma starL_sound (p : ascii -> bool) (k : kont) (s : string) :
  forall n pv cs res,
    starL p k n pv s cs = Some res ->
    exists w st', allChar p w = true /\ s = (w ++ rest st')%string /\
                  k st' = Some res.
Proof.
  induction s as [| c s IH]; intros n pv cs res H; cbn [starL] in H.
  - destruct (k (MState n pv EmptyString cs)) as [r |] eqn:E; [| discriminate].
    injection H as ->.
    exists EmptyString, (MState n pv EmptyString cs). repeat split. exact E.
  - destruct (k (MState n pv (String c s) cs)) as [r |] eqn:E.
    + injection H as ->.
      exists EmptyString, (MState n pv (String c s) cs). repeat split. exact E.
    + destruct (p c) eqn:Hc; [| discriminate].
      destruct (IH _ _ _ _ H) as [w [st' [Hw [Hs Hk]]]].
      exists (String c w), st'. cbn. rewrite Hc, Hw, Hs.
      repeat split. exact Hk.
Qed.

(** Whatever the continuation accepts, the pattern consumed one of its
    words from the front of the input. *)
Lemma run_sound (r : regex) :
  forall st k res,
    run r st k = Some res ->
    exists w st', matches r w /\ rest st = (w ++ rest st')%string /\
                  k st' = Some res.
Proof.
  induction r as [| p | r1 IH1 r2 IH2 | r1 IH1 r2 IH2 | p | p | i r IH | |];
    intros st k res H; cbn [run] in H.
  - exists EmptyString, st. repeat split; [constructor | exact H].
  - destruct (rest st) as [| c s'] eqn:E; [discriminate |].
    destruct (p c) eqn:Hc; [| discriminate].
    exists (String c EmptyString), (MState (S (pos st)) (Some c) s' (caps st)).
    repeat split; [constructor; exact Hc | exact H].
  - destruct (IH1 _ _ _ H) as [w1 [st1 [M1 [E1 H1]]]].
    destruct (IH2 _ _ _ H1) as [w2 [st2 [M2 [E2 H2]]]].
    exists (w1 ++ w2)%string, st2. repeat split.
    + constructor; assumption.
    + rewrite E1, E2, append_assoc. reflexivity.
    + exact H2.
  - destruct (run r1 st k) as [x |] eqn:E.
    + injection H as ->.
      destruct (IH1 _ _ _ E) as [w [st' [M [Es Hk]]]].
      exists w, st'. repeat split; [apply MAltL; exact M | exact Es | exact Hk].
    + destruct (IH2 _ _ _ H) as [w [st' [M [Es Hk]]]].
      exists w, st'. repeat split; [apply MAltR; exact M | exact Es | exact Hk].
  - destruct (starG_sound _ _ _ _ _ _ _ H) as [w [st' [Hw [Es Hk]]]].
    exists w, st'. repeat split; [constructor; exact Hw | exact Es | exact Hk].
  - destruct (starL_sound _ _ _ _ _ _ _ H) as [w [st' [Hw [Es Hk]]]].
    exists w, st'. repeat split; [constructor; exact Hw | exact Es | exact Hk].
  - destruct (IH _ _ _ H) as [w [st' [M [Es Hk]]]].
    exists w, (MState (pos st') (prev st') (rest st')
                 ((i, JS.take (pos st' - pos st) (rest st)) :: caps st')).
    repeat split; [constructor; exact M | exact Es | exact Hk].
  - destruct (rest st) eqn:E; [| discriminate].
    exists EmptyString, st.
    repeat split; [constructor | rewrite E; reflexivity | exact H].
  - destruct (xorb (wordAt (prev st)) (wordAt (next (rest st)))); [| discriminate].
    exists EmptyString, st. repeat split; [constructor | exact H].
Qed.

Lemma forces_matches (q : ascii -> bool) (r : regex) (w : string) :
  forces q r -> matches r w -> anyChar q w = true.
Proof.
  intros F M. induction M; cbn [forces] in F; try contradiction.
  - cbn. rewrite (F c H). reflexivity.
  - rewrite anyChar_app. destruct F as [F | F].
    + rewrite (IHM1 F). reflexivity.
    + rewrite (IHM2 F). apply orb_true_r.
  - apply IHM, F.
  - apply IHM, F.
  - apply IHM, F.
Qed.

(** A pattern that forces a character class finds nothing in a string
    without such a character. *)
Lemma search_none (q : ascii -> bool) (r : regex) (s : string) :
  forces q r -> anyChar q s = false ->
  forall n pv, search r n pv s = None.
Proof.
  intros F. induction s as [| c s IH]; intros Hs n pv; cbn [search].
  - destruct (matchHere r n pv EmptyString) as [st |] eqn:E; [| reflexivity].
    unfold matchHere in E. apply run_sound in E.
    destruct E as [w [st' [M [Es _]]]]. cbn [rest] in Es.
    pose proof (forces_matches q r w F M) as Hw.
    assert (Hany : anyChar q (w ++ rest st') = false) by (rewrite <- Es; exact Hs).
    rewrite anyChar_app, Hw in Hany. discriminate.
  - destruct (matchHere r n pv (String c s)) as [st |] eqn:E.
    + unfold matchHere in E. apply run_sound in E.
      destruct E as [w [st' [M [Es _]]]]. cbn [rest] in Es.
      pose proof (forces_matches q r w F M) as Hw.
      assert (Hany : anyChar q (w ++ rest st') = false) by (rewrite <- Es; exact Hs).
      rewrite anyChar_app, Hw in Hany. discriminate.
    + apply IH. cbn in Hs. apply orb_false_iff in Hs. apply Hs.
Qed.

Lemma exec_none (q : ascii -> bool) (r : regex) (s : string) :
  forces q r -> anyChar q s = false -> exec r s = None.
Proof.
  intros F Hs. unfold exec. rewrite (search_none q r s F Hs). reflexivity.
Qed.

Lemma comparisonPatterns_force_space :
  Forall (forces JS.isSpace) Intent.comparisonPatterns.
Proof.
  unfold Intent.comparisonPatterns.
  repeat constructor; cbn; tauto.
Qed.

Lemma prepositionPatterns_force_space :
  Forall (forces JS.isSpace) Intent.prepositionPatterns.
Proof.
  unfold Intent.prepositionPatterns.
  repeat constructor; cbn; tauto.
Qed.

End MatcherFacts.

Section IntentExtras.
Import Intent Text.

Lemma firstComparison_none (rs : list Regex.regex) (u : string) :
  Forall (Lang.forces JS.isSpace) rs -> anyChar JS.isSpace u = false ->
  firstComparison rs u = None.
Proof.
  intros F Hu. induction F as [| r rs Fr Frs IH]; cbn [firstComparison];
    [reflexivity |].
  unfold matchPair. rewrite (exec_none JS.isSpace r u Fr Hu). exact IH.
Qed.

Lemma prepositionLocation_none (rs : list Regex.regex) (u : string) :
  Forall (Lang.forces JS.isSpace) rs -> anyChar JS.isSpace u = false ->
  prepositionLocation rs u = EmptyString.
Proof.
  intros F Hu. induction F as [| r rs Fr Frs IH]; cbn [prepositionLocation];
    [reflexivity |].
  rewrite (exec_none JS.isSpace r u Fr Hu). exact IH.
Qed.

Lemma isUpper_lowerChar (c : ascii) : JS.isUpper (JS.lowerChar c) = false.
Proof.
  destruct c as [[] [] [] [] [] [] [] []]; reflexivity.
Qed.

Lemma notUpper_toLowerCase (s : string) :
  allChar notUpper (JS.toLowerCase s) = true.
Proof.
  induction s as [| c s IH]; cbn; [reflexivity |].
  unfold notUpper at 1. rewrite isUpper_lowerChar. exact IH.
Qed.

Lemma notUpper_cleanedMessage (u : string) :
  allChar notUpper (cleanedMessage u) = true.
Proof.
  unfold cleanedMessage.
  apply allChar_trim, allChar_removeEach, notUpper_toLowerCase.
Qed.

Lemma finalCleanup_default : finalCleanup defaultLocation = defaultLocation.
Proof. vm_compute. reflexivity. Qed.

(** X1: every city the extractor hands on is trimmed: the two cities
    of a comparison and the single location have no blank at either
    end. *)
Theorem intent_cities_are_trimmed (userMessage : string) :
  match extractIntent userMessage with
  | Compare city1 city2 => JS.trim city1 = city1 /\ JS.trim city2 = city2
  | SingleCity location => JS.trim location = location
  end.
Proof.
  unfold extractIntent.
  destruct (firstComparison comparisonPatterns userMessage) as [[m1 m2] |].
  - unfold cleanCity1, cleanCity2. split; apply trim_idem.
  - unfold finalCleanup. apply trim_idem.
Qed.

(** X2: the cities of a comparison never contain a question mark: the
    last replacement of both cleaning chains removes them all. *)
Theorem compared_cities_have_no_question_mark
        (userMessage city1 city2 : string) :
  extractIntent userMessage = Compare city1 city2 ->
  anyChar (Regex.chr "?") city1 = false /\
  anyChar (Regex.chr "?") city2 = false.
Proof.
  unfold extractIntent.
  destruct (firstComparison comparisonPatterns userMessage) as [[m1 m2] |];
    [| discriminate].
  intros [= <- <-]. rewrite !anyChar_allChar.
  unfold cleanCity1, cleanCity2. split; apply negb_false_iff, allChar_trim.
  - exact (removeEach_last_cls (Regex.chr "?")
             [Regex.litI "compare"; Regex.litI "weather in";
              Regex.litI "weather for"; Regex.litI "weather"; Regex.litI "the"]
             (JS.trim m1)).
  - exact (removeEach_last_cls (Regex.chr "?")
             [Regex.litI "weather in"; Regex.litI "weather for";
              Regex.litI "weather"; Regex.litI "the"]
             (JS.trim m2)).
Qed.

Lemma compared_cities_have_no_question_mark_witness :
  anyChar (Regex.chr "?") "Oslo" = false /\
  anyChar (Regex.chr "?") "Paris" = false.
Proof.
  apply (compared_cities_have_no_question_mark
           "the weather in Oslo? vs weather for the Paris?").
  vm_compute. reflexivity.
Defined.

(** X3: when neither a comparison nor the preposition pattern applies,
    the location comes from the lowercased utterance, so it is either
    the default city or free of the letters A to Z. *)
Theorem filler_path_location_is_lowercase (userMessage location : string) :
  firstComparison comparisonPatterns userMessage = None ->
  prepositionLocation prepositionPatterns userMessage = EmptyString ->
  extractIntent userMessage = SingleCity location ->
  location = defaultLocation \/ anyChar JS.isUpper location = false.
Proof.
  intros Hc Hp. unfold extractIntent. rewrite Hc. intros [= <-].
  unfold candidateLocation. rewrite Hp. cbn [JS.truthy].
  destruct (JS.truthy (cleanedMessage userMessage)) eqn:Ht.
  - right. rewrite Ht. rewrite anyChar_allChar. apply negb_false_iff.
    unfold finalCleanup.
    apply allChar_trim, allChar_removeEach, notUpper_cleanedMessage.
  - left. cbn [JS.truthy]. apply finalCleanup_default.
Qed.

Lemma filler_path_location_is_lowercase_witness :
  "london" = defaultLocation \/ anyChar JS.isUpper "london" = false.
Proof.
  apply (filler_path_location_is_lowercase "London Weather").
  - vm_compute. reflexivity.
  - vm_compute. reflexivity.
  - vm_compute. reflexivity.
Defined.

(** X4: an ASCII utterance without any blank is never read as a
    comparison and never through the preposition pattern (every pattern
    needs a blank): its location is the lowercased utterance with the
    fillers stripped and the final cleanup applied, or the default city
    when nothing is left. *)
Theorem one_word_utterance_is_single_city (userMessage : string) :
  allChar isAscii userMessage = true ->
  anyChar JS.isSpace userMessage = false ->
  extractIntent userMessage
  = SingleCity (finalCleanup
                  (if JS.truthy (cleanedMessage userMessage)
                   then cleanedMessage userMessage else defaultLocation)).
Proof.
  intros _ Hu. unfold extractIntent.
  rewrite (firstComparison_none _ _ comparisonPatterns_force_space Hu).
  unfold candidateLocation.
  rewrite (prepositionLocation_none _ _ prepositionPatterns_force_space Hu).
  cbn [JS.truthy].
  destruct (JS.truthy (cleanedMessage userMessage)) eqn:Ht.
  - rewrite Ht. reflexivity.
  - reflexivity.
Qed.

Lemma one_word_utterance_is_single_city_witness :
  extractIntent "Reykjavik?" = SingleCity "reykjavik".
Proof.
  rewrite (one_word_utterance_is_single_city "Reykjavik?" eq_refl eq_refl).
  vm_compute. reflexivity.
Defined.

End IntentExtras.

(** ** More on the poll loop and the job *)

Section PollExtras.
Import Poll.

Lemma orElse_truthy (x : option string) (dflt : string) :
  JS.truthy dflt = true -> JS.truthy (JS.orElse x dflt) = true.
Proof.
  intros H. unfold JS.orElse. destruct x as [s |]; [| exact H].
  destruct (JS.truthy s) eqn:E; [exact E | exact H].
Qed.

Lemma orElse_some (s dflt : string) :
  JS.truthy s = true -> JS.orElse (Some s) dflt = s.
Proof.
  intros H. unfold JS.orElse. rewrite H. reflexivity.
Qed.

Lemma sleeps_app (a b : list event) : sleeps (a ++ b) = sleeps a ++ sleeps b.
Proof.
  induction a as [| [n | ms | g] a IH]; cbn; [reflexivity | exact IH | | exact IH].
  rewrite IH. reflexivity.
Qed.

Lemma jobAfter_no_writes (pre l : list event) (g : generatedOutfit) :
  writes pre = 0 -> jobAfter g (pre ++ l) = jobAfter g l.
Proof.
  induction pre as [| [n | ms | j] pre IH]; cbn; intros H.
  - reflexivity.
  - apply IH. exact H.
  - apply IH. exact H.
  - unfold writes in H. cbn in H. discriminate.
Qed.

Variable city : string.
Variable oracle : nat -> reply.

(** How a call of [pollStatus] ends: resolved after writing the image,
    or thrown without having written anything. *)
Lemma pollStatus_end (remaining attempts : nat) :
  match pollStatus remaining city oracle attempts with
  | (Resolved, evs) =>
      exists pre url,
        evs = pre ++ [SetJob (GeneratedOutfit city (Some url) false None None)] /\
        writes pre = 0 /\ JS.truthy url = true
  | (Threw _, evs) => writes evs = 0
  end.
Proof.
  revert attempts. induction remaining as [| r IH]; intros attempts;
    cbn [pollStatus]; [reflexivity |].
  destruct (oracle (S attempts)) as [m | | status url err]; try reflexivity.
  destruct (String.eqb status "success" && JS.truthyOpt url) eqn:Hs.
  - apply andb_true_iff in Hs. destruct Hs as [_ Hu].
    destruct url as [u |]; [| discriminate].
    exists [Fetch (S attempts)], u. repeat split. exact Hu.
  - destruct (String.eqb status "create_failed"
              || String.eqb status "generation_failed"); [reflexivity |].
    specialize (IH (S attempts)).
    destruct (pollStatus r city oracle (S attempts)) as [[| m] evs].
    + destruct IH as [pre [u [E [Hw Hu]]]].
      exists (Fetch (S attempts) :: Sleep 5000 :: pre), u.
      rewrite E. repeat split; assumption.
    + exact IH.
Qed.

(** Every delay is 5000 ms and follows a request. *)
Lemma pollStatus_sleeps (remaining attempts : nat) :
  Forall (eq 5000) (sleeps (snd (pollStatus remaining city oracle attempts))) /\
  length (sleeps (snd (pollStatus remaining city oracle attempts)))
  <= polls (snd (pollStatus remaining city oracle attempts)).
Proof.
  revert attempts. induction remaining as [| r IH]; intros attempts;
    cbn [pollStatus]; [split; [constructor | cbn; lia] |].
  destruct (oracle (S attempts)) as [m | | status url err];
    try (split; [constructor | cbn; lia]).
  destruct (String.eqb status "success" && JS.truthyOpt url);
    [split; [constructor | cbn; lia] |].
  destruct (String.eqb status "create_failed"
            || String.eqb status "generation_failed");
    [split; [constructor | cbn; lia] |].
  specialize (IH (S attempts)).
  destruct (pollStatus r city oracle (S attempts)) as [c evs].
  cbn [snd sleeps] in *. destruct IH as [Hall Hlen]. split.
  - constructor; [reflexivity | exact Hall].
  - unfold polls in *. cbn [filter isFetch length]. lia.
Qed.

(** While no reply stops the loop it requests, sleeps, and finally times
    out. *)
Lemma pollStatus_never_stops (remaining attempts : nat) :
  (forall n, attempts < n <= attempts + remaining -> stops (oracle n) = false) ->
  pollStatus remaining city oracle attempts
  = (Threw "Generation timeout - please try again",
     flat_map (fun i => [Fetch i; Sleep 5000]) (seq (S attempts) remaining)).
Proof.
  revert attempts. induction remaining as [| r IH]; intros attempts Hgo.
  - reflexivity.
  - cbn [pollStatus]. pose proof (Hgo (S attempts)) as H1.
    unfold stops in H1.
    destruct (oracle (S attempts)) as [m | | status url err];
      try (specialize (H1 ltac:(lia)); discriminate).
    specialize (H1 ltac:(lia)).
    apply orb_false_iff in H1. destruct H1 as [H1 Hf2].
    apply orb_false_iff in H1. destruct H1 as [Hs Hf1].
    rewrite Hs, Hf1, Hf2. cbn [orb].
    rewrite IH by (intros n Hn; apply Hgo; lia).
    reflexivity.
Qed.

(** The run as seen from request [n]. *)
Lemma runPolling_at (n : nat) :
  In (Fetch n) (runPolling city oracle) ->
  1 <= n <= maxAttempts /\
  exists pre,
    writes pre = 0 /\ polls pre = n - 1 /\
    runPolling city oracle
    = pre ++ match pollStatus (S (maxAttempts - n)) city oracle (n - 1) with
             | (Resolved, evs) => evs
             | (Threw message, evs) =>
                 evs ++ [SetJob (Generate.failed city message)]
             end.
Proof.
  intros Hin. apply runPolling_fetch in Hin.
  destruct (pollStatus_factor city oracle maxAttempts 0 n Hin)
    as [Hrange [pre [Hw [Hp [Hfst Hsnd]]]]].
  split; [lia |].
  exists pre. split; [exact Hw |]. split; [lia |].
  unfold runPolling.
  remember (pollStatus maxAttempts city oracle 0) as p eqn:Hpq.
  destruct p as [c evs]. clear Hpq.
  cbn [fst snd] in Hfst, Hsnd. rewrite Hfst, Hsnd.
  replace (0 + maxAttempts - n) with (maxAttempts - n) by lia.
  destruct (pollStatus (S (maxAttempts - n)) city oracle (n - 1)) as [[| m] evs'];
    cbn [fst snd].
  - reflexivity.
  - rewrite <- app_assoc. reflexivity.
Qed.

End PollExtras.

Section JobExtras.
Import Poll.

Lemma runPolling_end (city : string) (oracle : nat -> reply) :
  exists pre j,
    runPolling city oracle = pre ++ [SetJob j] /\
    writes pre = 0 /\
    isGenerating j = false /\ cityName j = city /\
    ((exists url, imageUrl j = Some url /\ JS.truthy url = true /\ error j = None)
     \/ (imageUrl j = None /\
         exists message, error j = Some message /\ JS.truthy message = true)).
Proof.
  pose proof (pollStatus_end city oracle maxAttempts 0) as H.
  unfold runPolling.
  destruct (pollStatus maxAttempts city oracle 0) as [[| m] evs].
  - destruct H as [pre [u [E [Hw Hu]]]].
    exists pre, (GeneratedOutfit city (Some u) false None None).
    repeat split; try assumption.
    left. exists u. repeat split. exact Hu.
  - exists evs, (Generate.failed city m). repeat split; try assumption.
    right. split; [reflexivity |].
    eexists. split; [reflexivity |]. apply orElse_truthy. reflexivity.
Qed.

(** X5: whatever the status endpoint answers, the poll loop writes the
    job exactly once, as its last action, and leaves it for the same city,
    no longer generating, with either a non-empty image URL and no error
    or a non-empty error message and no image. *)
Theorem polling_ends_with_one_write (city : string) (oracle : nat -> reply) :
  exists pre j,
    runPolling city oracle = pre ++ [SetJob j] /\
    writes pre = 0 /\
    isGenerating j = false /\ cityName j = city /\
    ((exists url, imageUrl j = Some url /\ JS.truthy url = true /\ error j = None)
     \/ (imageUrl j = None /\
         exists message, error j = Some message /\ JS.truthy message = true)).
Proof. exact (runPolling_end city oracle). Qed.

(** X6: whatever the status endpoint answers, the loop makes at most
    120 requests, every delay is 5000 ms and there are no more delays
    than requests (at most ten minutes of waiting). *)
Theorem polling_is_bounded (city : string) (oracle : nat -> reply) :
  polls (runPolling city oracle) <= maxAttempts /\
  Forall (eq 5000) (sleeps (runPolling city oracle)) /\
  length (sleeps (runPolling city oracle)) <= polls (runPolling city oracle).
Proof.
  split; [apply runPolling_polls_le |].
  pose proof (pollStatus_sleeps city oracle maxAttempts 0) as [Hall Hlen].
  unfold runPolling.
  destruct (pollStatus maxAttempts city oracle 0) as [[| m] evs];
    cbn [snd] in *.
  - split; assumption.
  - rewrite sleeps_app, polls_app. cbn [sleeps]. rewrite app_nil_r.
    split; [exact Hall | lia].
Qed.

(** X7: when the reply to request [n] reports create_failed or
    generation_failed, that request is the last one and the job shows the
    reply's error message, or "Generation failed" when it has none. *)
Theorem provider_failure_is_reported
        (city task : string) (oracle : nat -> reply) (n : nat)
        (status : string) (url err : option string) :
  In (Fetch n) (runPolling city oracle) ->
  oracle n = StatusData status url err ->
  status = "create_failed" \/ status = "generation_failed" ->
  polls (runPolling city oracle) = n /\
  jobAfter (started city task) (runPolling city oracle)
  = GeneratedOutfit city None false
      (Some (JS.orElse err "Generation failed")) None.
Proof.
  intros Hin Ho Hst.
  destruct (runPolling_at city oracle n Hin) as [Hrange [pre [Hw [Hp Hrun]]]].
  assert (Hn : S (n - 1) = n) by lia.
  cbn [pollStatus] in Hrun. rewrite Hn, Ho in Hrun.
  assert (Hs : String.eqb status "success" = false)
    by (destruct Hst; subst status; reflexivity).
  assert (Hf : String.eqb status "create_failed"
               || String.eqb status "generation_failed" = true)
    by (destruct Hst; subst status; reflexivity).
  rewrite Hs, Hf in Hrun. cbn [andb app] in Hrun.
  rewrite Hrun. split.
  - rewrite polls_app, Hp. cbn. lia.
  - rewrite (jobAfter_no_writes _ _ _ Hw). cbn [jobAfter].
    unfold Generate.failed.
    rewrite (orElse_some (JS.orElse err "Generation failed")
               "Failed to generate outfit image"
               (orElse_truthy err "Generation failed" eq_refl)).
    reflexivity.
Qed.

Lemma provider_failure_is_reported_witness :
  polls (runPolling "Oslo"
           (fun n => if n <=? 1 then generating
                     else StatusData "generation_failed" None
                            (Some "content policy"))) = 2.
Proof.
  refine (proj1 (provider_failure_is_reported
                   "Oslo" "task-1" _ 2 "generation_failed" None
                   (Some "content policy") _ eq_refl _)).
  - vm_compute. tauto.
  - right. reflexivity.
Defined.

Import Generate.

(** X8: [handleGenerateOutfit] first shows the job as generating and
    always ends by writing a job that is no longer generating, with
    either an image or a non-empty error, every write in between being a
    generating one; the status endpoint is asked only after the start
    request gave a non-empty task id, and at most 120 times. *)
Theorem generation_always_settles
        (city : string) (r : startReply) (oracle : nat -> reply) :
  (exists mid j,
      handleGenerateOutfit city r oracle
      = SetJob (GeneratedOutfit city None true None None) :: mid ++ [SetJob j] /\
      Forall (fun e => match e with SetJob g => isGenerating g = true | _ => True end)
             mid /\
      isGenerating j = false /\
      ((exists url, imageUrl j = Some url /\ JS.truthy url = true /\ error j = None)
       \/ (imageUrl j = None /\
           exists message, error j = Some message /\ JS.truthy message = true))) /\
  (0 < polls (handleGenerateOutfit city r oracle) ->
   exists taskId, startGeneration r = inl taskId /\ JS.truthy taskId = true) /\
  polls (handleGenerateOutfit city r oracle) <= maxAttempts.
Proof.
  unfold handleGenerateOutfit.
  destruct (startGeneration r) as [t | m] eqn:Hstart.
  - destruct (runPolling_end city oracle)
      as [pre [j [Hrun [Hw [Hg [_ Hj]]]]]].
    split; [| split].
    + exists (SetJob (started city t) :: pre), j. rewrite Hrun.
      repeat split; try assumption.
      constructor; [reflexivity |].
      clear Hrun. induction pre as [| [n | ms | g] pre IH].
      * constructor.
      * constructor; [exact I | apply IH; exact Hw].
      * constructor; [exact I | apply IH; exact Hw].
      * unfold writes in Hw. cbn in Hw. discriminate.
    + intros _. exists t. split; [reflexivity |].
      unfold startGeneration in Hstart.
      destruct r as [m | ok text [| te | e d [tid |]]]; try discriminate.
      * destruct (negb ok); [discriminate |].
        destruct (JS.truthy tid) eqn:Ht; [| discriminate].
        injection Hstart as <-. exact Ht.
      * destruct (negb ok); discriminate.
    + change (polls (SetJob (GeneratedOutfit city None true None None)
                     :: SetJob (started city t) :: runPolling city oracle))
        with (polls (runPolling city oracle)).
      apply runPolling_polls_le.
  - split; [| split].
    + exists [], (failed city m). repeat split; [constructor |].
      right. split; [reflexivity |].
      eexists. split; [reflexivity |]. apply orElse_truthy. reflexivity.
    + cbn. lia.
    + cbn. lia.
Qed.

Lemma generation_always_settles_witness :
  exists taskId,
    startGeneration (StartResponse true "{}" (JsonObject None None (Some "t-42")))
    = inl taskId /\ JS.truthy taskId = true.
Proof.
  refine (proj1 (proj2 (generation_always_settles
                          "Oslo"
                          (StartResponse true "{}" (JsonObject None None (Some "t-42")))
                          (threeThenSuccess "https://img.example/1"))) _).
  vm_compute. lia.
Defined.

End JobExtras.

(** ** The status route *)

Section StatusRouteFacts.
Import StatusRoute.

Lemma statusOf_cases (f : option Z) :
  (f = Some 0%Z /\ statusOf f = "generating") \/
  (f = Some 1%Z /\ statusOf f = "success") \/
  (f = Some 2%Z /\ statusOf f = "create_failed") \/
  (f = Some 3%Z /\ statusOf f = "generation_failed") \/
  (f <> Some 0%Z /\ f <> Some 1%Z /\ f <> Some 2%Z /\ f <> Some 3%Z /\
   statusOf f = "unknown").
Proof.
  destruct f as [[| [[p | p |] | [p | p |] |] | p] |]; cbn;
    try (right; right; right; right; repeat split; congruence);
    tauto.
Qed.

(** X9: a status reply of the route is consistent: the status is the
    one the flag maps to, one of the five names; an image URL is present
    only with flag 1 and is then non-empty and comes without an error; an
    error is present exactly for the flags 2 and 3 and is never empty. *)
Theorem status_reply_is_consistent
        (taskId apiKey : option string) (up : upstream)
        (status : string) (flag : option Z) (url err : option string) :
  route taskId apiKey up = Status status flag url err ->
  status = statusOf flag /\
  In status ["generating"; "success"; "create_failed"; "generation_failed";
             "unknown"]%string /\
  (url = None \/ (JS.truthyOpt url = true /\ flag = Some 1%Z /\ err = None)) /\
  (err = None <-> flag <> Some 2%Z /\ flag <> Some 3%Z) /\
  (err = None \/ JS.truthyOpt err = true).
Proof.
  unfold route.
  destruct (negb (JS.truthyOpt taskId)); [discriminate |].
  destruct (negb (JS.truthyOpt apiKey)); [discriminate |].
  destruct up as [m | st [d |]]; [discriminate | | ].
  2: { destruct (negb (Server.isOk st)); discriminate. }
  destruct (negb (Server.isOk st)); [discriminate |].
  cbv zeta.
  set (f := coalesce (flagTop d) (flagNested d)).
  set (u := orOpt (urlTop d) (urlNested d)).
  destruct (statusOf_cases f) as [[Hf Hs] | [[Hf Hs] | [[Hf Hs] | [[Hf Hs] | Hf]]]].
  - rewrite Hs. cbn [String.eqb Ascii.eqb Bool.eqb andb orb].
    intros [= <- <- <- <-].
    split; [symmetry; exact Hs |]. split; [cbn; tauto |].
    split; [left; reflexivity |].
    split; [| left; reflexivity].
    rewrite Hf. split; [intros _; split; discriminate | reflexivity].
  - rewrite Hs. cbn [String.eqb Ascii.eqb Bool.eqb andb orb].
    destruct (JS.truthyOpt u) eqn:Hu; intros [= <- <- <- <-];
      (split; [symmetry; exact Hs |]); (split; [cbn; tauto |]).
    + split; [right; repeat split; assumption |].
      split; [| left; reflexivity].
      rewrite Hf. split; [intros _; split; discriminate | reflexivity].
    + split; [left; reflexivity |].
      split; [| left; reflexivity].
      rewrite Hf. split; [intros _; split; discriminate | reflexivity].
  - rewrite Hs. cbn [String.eqb Ascii.eqb Bool.eqb andb orb].
    intros [= <- <- <- <-].
    split; [symmetry; exact Hs |]. split; [cbn; tauto |].
    split; [left; reflexivity |].
    split.
    + rewrite Hf. split; [discriminate | intros [H _]; congruence].
    + right. apply orElse_truthy, orElse_truthy. reflexivity.
  - rewrite Hs. cbn [String.eqb Ascii.eqb Bool.eqb andb orb].
    intros [= <- <- <- <-].
    split; [symmetry; exact Hs |]. split; [cbn; tauto |].
    split; [left; reflexivity |].
    split.
    + rewrite Hf. split; [discriminate | intros [_ H]; congruence].
    + right. apply orElse_truthy, orElse_truthy. reflexivity.
  - destruct Hf as [H0 [H1 [H2 [H3 Hs]]]]. rewrite Hs.
    cbn [String.eqb Ascii.eqb Bool.eqb andb orb].
    intros [= <- <- <- <-].
    split; [symmetry; exact Hs |]. split; [cbn; tauto |].
    split; [left; reflexivity |].
    split; [| left; reflexivity].
    split; [intros _; split; assumption | reflexivity].
Qed.

Lemma status_reply_is_consistent_witness :
  In "success"%string
     ["generating"; "success"; "create_failed"; "generation_failed";
      "unknown"]%string.
Proof.
  refine (proj1 (proj2 (status_reply_is_consistent
            (Some "t-42"%string) (Some "key"%string)
            (Response 200 (Some (ProviderData None (Some 1%Z) None
                                   (Some "https://img.example/1"%string)
                                   None None)))
            "success" (Some 1%Z) (Some "https://img.example/1"%string) None _))).
  reflexivity.
Defined.

Lemma pending_does_not_stop (taskId apiKey : option string) (st : nat)
      (d : providerData) :
  JS.truthyOpt taskId = true -> JS.truthyOpt apiKey = true ->
  Server.isOk st = true -> pending d ->
  Poll.stops (toClient (route taskId apiKey (Response st (Some d)))) = false.
Proof.
  intros Ht Hk Hok [H2 [H3 Hu]]. unfold route.
  rewrite Ht, Hk, Hok. cbn [negb]. cbv zeta. rewrite Hu, andb_false_r.
  destruct (statusOf_cases (coalesce (flagTop d) (flagNested d)))
    as [[Hf Hs] | [[Hf Hs] | [[Hf Hs] | [[Hf Hs] | Hf]]]];
    try contradiction.
  - rewrite Hs. reflexivity.
  - rewrite Hs. reflexivity.
  - destruct Hf as [_ [_ [_ [_ Hs]]]]. rewrite Hs. reflexivity.
Qed.

(** X10: the client polling the route: while the provider keeps
    answering with an ok response that carries neither a failure flag
    (2 or 3) nor a result image URL -- a flag of 0, the flag 1 without a
    URL, an unknown or missing flag -- the client makes all 120 requests
    and the job ends with the timeout error. *)
Theorem unfinished_provider_times_out
        (city task : string) (taskId apiKey : option string)
        (provider : nat -> upstream) :
  JS.truthyOpt taskId = true -> JS.truthyOpt apiKey = true ->
  (forall n, 1 <= n <= Poll.maxAttempts ->
             exists st d, provider n = Response st (Some d) /\
                          Server.isOk st = true /\ pending d) ->
  Poll.polls (Poll.runPolling city (polled taskId apiKey provider))
  = Poll.maxAttempts /\
  Poll.jobAfter (Poll.started city task)
                (Poll.runPolling city (polled taskId apiKey provider))
  = Poll.GeneratedOutfit city None false
      (Some "Generation timeout - please try again"%string) None.
Proof.
  intros Ht Hk Hprov.
  assert (Hrun : Poll.runPolling city (polled taskId apiKey provider)
    = flat_map (fun i => [Poll.Fetch i; Poll.Sleep 5000]) (seq 1 Poll.maxAttempts)
      ++ [Poll.SetJob (Poll.GeneratedOutfit city None false
                         (Some "Generation timeout - please try again"%string)
                         None)]).
  { unfold Poll.runPolling.
    rewrite (pollStatus_never_stops city (polled taskId apiKey provider)
               Poll.maxAttempts 0).
    - reflexivity.
    - intros n Hn. destruct (Hprov n ltac:(lia)) as [st [d [Hp [Hok Hpend]]]].
      unfold polled. rewrite Hp.
      apply pending_does_not_stop; assumption. }
  rewrite Hrun. split; reflexivity.
Qed.

Lemma unfinished_provider_times_out_witness :
  Poll.polls
    (Poll.runPolling "Oslo"
       (polled (Some "t-42"%string) (Some "key"%string)
          (fun _ => Response 200
                      (Some (ProviderData (Some 1%Z) None None None None None)))))
  = Poll.maxAttempts.
Proof.
  refine (proj1 (unfinished_provider_times_out
                   "Oslo" "task-1" (Some "t-42"%string) (Some "key"%string)
                   (fun _ => Response 200
                      (Some (ProviderData (Some 1%Z) None None None None None)))
                   eq_refl eq_refl _)).
  intros n _. eexists _, _. split; [reflexivity |]. split; [reflexivity |].
  repeat split; discriminate.
Defined.

(** X11: when the route answers the first poll with an error (a missing
    key or task id, a failed or refused provider call, unreadable JSON),
    the client stops after that single request and the job shows "Failed
    to check status"; the route's own error text is not shown. *)
Theorem route_error_ends_polling_at_once
        (city : string) (taskId apiKey : option string)
        (provider : nat -> upstream) (error : string) (code : nat) :
  route taskId apiKey (provider 1) = Error error code ->
  Poll.runPolling city (polled taskId apiKey provider)
  = [Poll.Fetch 1;
     Poll.SetJob (Poll.GeneratedOutfit city None false
                    (Some "Failed to check status"%string) None)].
Proof.
  intros H. unfold Poll.runPolling, Poll.maxAttempts, polled.
  cbn [Poll.pollStatus]. rewrite H. reflexivity.
Qed.

Lemma route_error_ends_polling_at_once_witness :
  Poll.runPolling "Oslo"
    (polled (Some "t-42"%string) None
       (fun _ => Response 200
                   (Some (ProviderData (Some 1%Z) None
                            (Some "https://img.example/1"%string) None None None))))
  = [Poll.Fetch 1;
     Poll.SetJob (Poll.GeneratedOutfit "Oslo" None false
                    (Some "Failed to check status"%string) None)].
Proof.
  apply (route_error_ends_polling_at_once "Oslo" (Some "t-42"%string) None _
           "Nano Banana API key not configured" 500).
  reflexivity.
Defined.

End StatusRouteFacts.

(** ** The photo route and the client's lookup *)

Section PhotoExtras.
Import Photo.

Open Scope Q_scope.

Lemma randomIndex_lt (random : Q) (topResults : nat) :
  0 <= random -> random < 1 -> (0 < topResults)%nat ->
  (PhotoRoute.randomIndex random topResults < topResults)%nat.
Proof.
  intros H0 H1 Hm. unfold PhotoRoute.randomIndex.
  set (m := inject_Z (Z.of_nat topResults)).
  assert (Hmpos : 0 < m).
  { unfold m. change 0 with (inject_Z 0). rewrite <- Zlt_Qlt. lia. }
  assert (Hlo : 0 <= random * m).
  { apply Qmult_le_0_compat; [exact H0 | apply Qlt_le_weak; exact Hmpos]. }
  assert (Hhi : random * m < m).
  { setoid_replace m with (1 * m) at 2 by (symmetry; apply Qmult_1_l).
    apply Qmult_lt_compat_r; assumption. }
  assert (Hf0 : (0 <= Qfloor (random * m))%Z).
  { change 0%Z with (Qfloor 0). apply Qfloor_resp_le. exact Hlo. }
  assert (Hf1 : (Qfloor (random * m) < Z.of_nat topResults)%Z).
  { rewrite Zlt_Qlt. apply Qle_lt_trans with (random * m);
      [apply Qfloor_le | exact Hhi]. }
  lia.
Qed.

Lemma nth_in_firstn (k i : nat) (l : list string) (d : string) :
  (i < Nat.min k (length l))%nat -> In (nth i l d) (firstn k l).
Proof.
  intros Hi.
  assert (E : nth i (firstn k l) d = nth i l d).
  { rewrite nth_firstn. destruct (Nat.ltb_spec i k); [reflexivity | lia]. }
  rewrite <- E. apply nth_In. rewrite length_firstn. exact Hi.
Qed.

(** X12: with [Math.random()] in [0, 1), the photo route answers with an
    image exactly when a non-empty query and a key are given and the
    provider answers ok with at least one result, and the image is then
    one of the first three results. *)
Theorem photo_route_picks_a_top_result
        (req : PhotoRoute.request) (key : option string)
        (up : PhotoRoute.upstream) (random : Q) :
  0 <= random -> random < 1 ->
  (forall imageUrl,
      PhotoRoute.route req key up random = PhotoRoute.Image imageUrl ->
      exists query status results,
        req = PhotoRoute.Body (Some query) /\ JS.truthy query = true /\
        JS.truthyOpt key = true /\
        up = PhotoRoute.Response status (PhotoRoute.Results (Some results)) /\
        Server.isOk status = true /\
        In imageUrl (firstn 3 results)) /\
  (forall query status results,
      req = PhotoRoute.Body (Some query) -> JS.truthy query = true ->
      JS.truthyOpt key = true ->
      up = PhotoRoute.Response status (PhotoRoute.Results (Some results)) ->
      Server.isOk status = true -> results <> [] ->
      exists imageUrl,
        In imageUrl (firstn 3 results) /\
        PhotoRoute.route req key up random = PhotoRoute.Image imageUrl).
Proof.
  intros H0 H1.
  assert (Hpick : forall (x : string) (xs : list string),
             In (nth (PhotoRoute.randomIndex random
                        (Nat.min 3 (length (x :: xs)))) (x :: xs) EmptyString)
                (firstn 3 (x :: xs))).
  { intros x xs. apply nth_in_firstn. apply randomIndex_lt; try assumption.
    cbn [length]. lia. }
  split.
  - intros imageUrl H. unfold PhotoRoute.route in H.
    destruct req as [m | [query |]]; try discriminate.
    cbn [JS.truthyOpt] in H.
    destruct (JS.truthy query) eqn:Hq; [| discriminate]. cbn [negb] in H.
    destruct (JS.truthyOpt key) eqn:Hk; [| discriminate]. cbn [negb] in H.
    destruct up as [m | status [m | [[| x xs] |]]]; try discriminate;
      destruct (Server.isOk status) eqn:Hok; try discriminate.
    cbn [negb] in H. injection H as <-.
    exists query, status, (x :: xs). repeat split; try assumption. apply Hpick.
  - intros query status results -> Hq Hk -> Hok Hne.
    destruct results as [| x xs]; [contradiction |].
    eexists. split; [apply (Hpick x xs) |].
    unfold PhotoRoute.route. cbn [JS.truthyOpt]. rewrite Hq, Hk, Hok.
    reflexivity.
Qed.

Lemma photo_route_picks_a_top_result_witness :
  exists imageUrl,
    In imageUrl (firstn 3 ["u1"; "u2"; "u3"; "u4"]%string) /\
    PhotoRoute.route (PhotoRoute.Body (Some "wool scarf"%string))
                     (Some "key"%string)
                     (PhotoRoute.Response 200
                        (PhotoRoute.Results (Some ["u1"; "u2"; "u3"; "u4"]%string)))
                     0.9
    = PhotoRoute.Image imageUrl.
Proof.
  refine (proj2 (photo_route_picks_a_top_result
                   (PhotoRoute.Body (Some "wool scarf"%string))
                   (Some "key"%string)
                   (PhotoRoute.Response 200
                      (PhotoRoute.Results (Some ["u1"; "u2"; "u3"; "u4"]%string)))
                   0.9 _ _)
                "wool scarf"%string 200%nat ["u1"; "u2"; "u3"; "u4"]%string
                eq_refl eq_refl eq_refl eq_refl eq_refl _).
  - discriminate.
  - reflexivity.
  - discriminate.
Defined.

Close Scope Q_scope.

Lemma lookup_truthy (k u : string) :
  lookup k imageCache = Some u -> JS.truthy u = true.
Proof.
  intros H. apply lookup_In in H.
  pose proof imageCache_truthy as Hall. rewrite forallb_forall in Hall.
  exact (Hall (k, u) H).
Qed.

Lemma fetchUnsplashImage_truthy (l : live) (query : string) :
  JS.truthy (fetchUnsplashImage l query) = true.
Proof.
  unfold fetchUnsplashImage.
  destruct (liveUrl l) as [u |] eqn:Hl.
  - unfold liveUrl in Hl. destruct l as [[v |] | |]; try discriminate.
    destruct (JS.truthy v) eqn:Hv; [| discriminate].
    injection Hl as <-. exact Hv.
  - unfold fromCache. rewrite exactMatch_imageCache.
    destruct (lookup query imageCache) as [u |] eqn:Hq;
      [exact (lookup_truthy _ _ Hq) |].
    destruct (sortDesc (scoredKeys imageCache query)) as [| b t] eqn:E;
      [reflexivity |].
    destruct (2 <=? score b); [| reflexivity].
    destruct (sortDesc_best _ _ _ E) as [Hb _].
    unfold scoredKeys in Hb. apply in_map_iff in Hb.
    destruct Hb as [[k u0] [Hbk Hk]]. subst b. cbn [key fst].
    destruct (lookup_of_In _ _ _ Hk) as [u Hu]. rewrite Hu.
    exact (lookup_truthy _ _ Hu).
Qed.


Lemma split_length (sep : ascii) (s : string) :
  length (JS.split sep s) = S (Text.count sep s).
Proof.
  induction s as [| c s IH]; cbn [JS.split Text.count]; [reflexivity |].
  destruct (Ascii.eqb c sep); cbn [length].
  - rewrite IH. reflexivity.
  - destruct (JS.split sep s) as [| w ws]; [discriminate IH |].
    cbn [length] in *. exact IH.
Qed.

Lemma space_lowerChar (c : ascii) :
  Ascii.eqb (JS.lowerChar c) " " = Ascii.eqb c " ".
Proof.
  destruct c as [[] [] [] [] [] [] [] []]; reflexivity.
Qed.

Lemma count_space_toLowerCase (s : string) :
  Text.count " " (JS.toLowerCase s) = Text.count " " s.
Proof.
  induction s as [| c s IH]; cbn; [reflexivity |].
  rewrite space_lowerChar, IH. reflexivity.
Qed.

Lemma count_none (c : ascii) (s : string) :
  Text.anyChar (fun x => Ascii.eqb x c) s = false -> Text.count c s = 0.
Proof.
  induction s as [| x s IH]; cbn; [reflexivity |].
  intros H. apply orb_false_iff in H. destruct H as [Hx Hs].
  rewrite Hx, (IH Hs). reflexivity.
Qed.

Lemma keyScore_le_words (query k : string) :
  keyScore query k <= length (words query).
Proof.
  unfold keyScore, matchCount. apply filter_length_le.
Qed.

Lemma similar_one_word (query : string) :
  Text.anyChar (fun x => Ascii.eqb x " ") query = false ->
  PhotoJS.similar imageCache query = genericFallback.
Proof.
  intros Hq. unfold PhotoJS.similar.
  destruct (sortDesc (scoredKeys imageCache query)) as [| b t] eqn:E;
    [reflexivity |].
  destruct (sortDesc_best _ _ _ E) as [Hb _].
  unfold scoredKeys in Hb. apply in_map_iff in Hb.
  destruct Hb as [[k u0] [Hbk Hk]]. subst b. cbn [score key fst].
  pose proof (keyScore_le_words query k) as Hle.
  unfold words in Hle at 1.
  rewrite split_length, count_space_toLowerCase, (count_none _ _ Hq) in Hle.
  destruct (Nat.leb_spec 2 (keyScore query k)); [lia | reflexivity].
Qed.

(** X14: when the live path gives nothing, a query without a space can
    only be served by what the cache object holds under the query itself,
    an entry of the literal or a member inherited from
    [Object.prototype]: one word scores at most 1, so without such a
    property the result is the generic image. *)
Theorem one_word_query_needs_an_exact_entry (l : live) (query : string) :
  liveUrl l = None ->
  Text.anyChar (fun x => Ascii.eqb x " ") query = false ->
  PhotoJS.fetchUnsplashImage l query
  = match PhotoJS.getProperty imageCache query with
    | Some v => v
    | None => PhotoJS.Url genericFallback
    end.
Proof.
  intros Hl Hq. unfold PhotoJS.fetchUnsplashImage. rewrite Hl.
  destruct (PhotoJS.getProperty imageCache query) as [v |] eqn:E.
  - rewrite (getProperty_truthy _ _ E). reflexivity.
  - rewrite (similar_one_word _ Hq). reflexivity.
Qed.

Lemma one_word_query_needs_an_exact_entry_witness :
  PhotoJS.fetchUnsplashImage LiveError "jacket" = PhotoJS.Url genericFallback.
Proof.
  rewrite (one_word_query_needs_an_exact_entry LiveError "jacket" eq_refl eq_refl).
  reflexivity.
Defined.

(** The one-word query "toString" gets the inherited function. *)
Example inherited_name_is_served_by_the_prototype :
  PhotoJS.fetchUnsplashImage LiveThrows "toString" = PhotoJS.Inherited "toString".
Proof. vm_compute. reflexivity. Qed.

Lemma cache_entries_answer_own_key :
  forallb (fun kv => String.eqb (fromCache imageCache (fst kv)) (snd kv))
          imageCache = true.
Proof. vm_compute. reflexivity. Qed.

(** X15: when the live path gives nothing, a query that is a key of the
    static cache gets the URL listed with that key: no entry is shadowed
    by another one. *)
Theorem cached_key_returns_its_entry (l : live) (k u : string) :
  liveUrl l = None -> In (k, u) imageCache ->
  fetchUnsplashImage l k = u.
Proof.
  intros Hl Hin. unfold fetchUnsplashImage. rewrite Hl.
  pose proof cache_entries_answer_own_key as H.
  rewrite forallb_forall in H. specialize (H (k, u) Hin).
  apply String.eqb_eq in H. exact H.
Qed.

Lemma cached_key_returns_its_entry_witness :
  Some (fetchUnsplashImage LiveThrows "umbrella rain")
  = lookup "umbrella rain" imageCache.
Proof.
  rewrite (cached_key_returns_its_entry LiveThrows "umbrella rain"
             "https://images.unsplash.com/photo-1757548710136-66a371811d1c?crop=entropy&cs=tinysrgb&fit=max&fm=jpg&ixid=M3w3Nzg4Nzd8MHwxfHNlYXJjaHwxfHxibGFjayUyMHVtYnJlbGxhJTIwcmFpbnxlbnwxfHx8fDE3NjI4ODg5OTd8MA&ixlib=rb-4.1.0&q=80&w=1080"
             eq_refl).
  - reflexivity.
  - apply lookup_In. reflexivity.
Defined.

End PhotoExtras.

(** ** Recommendations, their photos and the weather reply *)

Section OutfitExtras.
Import Outfit Catalog.

Close Scope Q_scope.

Lemma baseOutfit_in_catalog (t : Q) : In (fst (baseOutfit t)) baseVariations.
Proof.
  unfold baseOutfit, baseVariations.
  destruct (Weather.Qltb t 0); [cbn; tauto |].
  destruct (Weather.Qltb t 10); [cbn; tauto |].
  destruct (Weather.Qltb t 18); [cbn; tauto |].
  destruct (Weather.Qltb t 25); [cbn; tauto |].
  destruct (Weather.Qltb t 30); cbn; tauto.
Qed.

(** What a recommendation lists is what the band lists, followed by the
    accessories of the condition. *)
Lemma recommended_items (w : Weather.weatherData) (v : OutfitVariation) :
  In v (variations (generateOutfitRecommendation w)) ->
  exists base extras,
    In base (fst (baseOutfit (Weather.temp w))) /\
    style v = style base /\
    items v = items base ++ extras /\
    (extras = [] \/ extras = [umbrella] \/ extras = [snowGear]
     \/ extras = [umbrella; snowGear]).
Proof.
  rewrite variations_steps. cbv zeta. unfold addItem.
  destruct (JS.includes (JS.toLowerCase (Weather.main w)) "snow");
    destruct (JS.includes (JS.toLowerCase (Weather.main w)) "rain"
              || JS.includes (JS.toLowerCase (Weather.main w)) "drizzle");
    cbv beta; rewrite ?map_map; try rewrite in_map_iff.
  - intros [b [<- Hb]]. exists b, [umbrella; snowGear]. cbn [style items].
    rewrite <- app_assoc. repeat split; [exact Hb | tauto].
  - intros [b [<- Hb]]. exists b, [snowGear]. cbn [style items].
    repeat split; [exact Hb | tauto].
  - intros [b [<- Hb]]. exists b, [umbrella]. cbn [style items].
    repeat split; [exact Hb | tauto].
  - intros Hv. exists v, []. rewrite app_nil_r.
    repeat split; [exact Hv | tauto].
Qed.

Lemma recommended_items_known
      (w : Weather.weatherData) (v : OutfitVariation) (i : OutfitItem) :
  In v (variations (generateOutfitRecommendation w)) -> In i (items v) ->
  In i knownItems.
Proof.
  intros Hv Hi.
  destruct (recommended_items w v Hv) as [base [extras [Hb [_ [Hit Hex]]]]].
  rewrite Hit in Hi. apply in_app_or in Hi. unfold knownItems.
  apply in_or_app. destruct Hi as [Hi | Hi].
  - left. apply in_flat_map. exists base. split; [| exact Hi].
    apply in_concat. exists (fst (baseOutfit (Weather.temp w))).
    split; [apply baseOutfit_in_catalog | exact Hb].
  - right. destruct Hex as [-> | [-> | [-> | ->]]]; cbn in *; tauto.
Qed.

Lemma knownItems_offline :
  forallb (fun i =>
             Bool.eqb (String.eqb (Photo.fromCache Photo.imageCache (query i))
                                  Photo.genericFallback)
                      (isUncached i))
          knownItems = true.
Proof. vm_compute. reflexivity. Qed.

(** X16: for every weather input, when the live path gives nothing, an
    item of the recommendation is shown with the generic image exactly
    when it is one of Hoodie, Aviator Sunglasses, Shades and Snow Gear;
    every other item has a photo in the static cache. *)
Theorem offline_photos_of_a_recommendation
        (w : Weather.weatherData) (l : Photo.live)
        (v : OutfitVariation) (i : OutfitItem) :
  Photo.liveUrl l = None ->
  In v (variations (generateOutfitRecommendation w)) -> In i (items v) ->
  (Photo.fetchUnsplashImage l (query i) = Photo.genericFallback
   <-> In (name i) uncachedNames).
Proof.
  intros Hl Hv Hi. unfold Photo.fetchUnsplashImage. rewrite Hl.
  pose proof knownItems_offline as H. rewrite forallb_forall in H.
  specialize (H i (recommended_items_known w v i Hv Hi)).
  apply Bool.eqb_prop in H.
  rewrite <- String.eqb_eq, H. unfold isUncached.
  rewrite existsb_exists. split.
  - intros [x [Hx E]]. apply String.eqb_eq in E. subst x. exact Hx.
  - intros Hin. exists (name i). split; [exact Hin | apply String.eqb_refl].
Qed.

Lemma offline_photos_of_a_recommendation_witness :
  Photo.fetchUnsplashImage Photo.LiveError "snow gear" = Photo.genericFallback.
Proof.
  refine (proj2 (offline_photos_of_a_recommendation
                   (Weather.WeatherData "Oslo" "NO" (-4) (-9) 80 "Snow"
                                        "light snow" 3)
                   Photo.LiveError
                   (Variation "Winter Essential"
                      (items (nth 0 extremeColdVariations (Variation "" []))
                       ++ [snowGear]))
                   snowGear eq_refl _ _) _).
  - vm_compute. tauto.
  - vm_compute. tauto.
  - vm_compute. tauto.
Defined.

Lemma recommendation_shape (w : Weather.weatherData) :
  length (variations (generateOutfitRecommendation w)) = 3 /\
  Forall (fun v => 3 <= length (items v) <= 6)
         (variations (generateOutfitRecommendation w)) /\
  variations (generateOutfitRecommendation w) <> [].
Proof.
  assert (Hlen : length (variations (generateOutfitRecommendation w)) = 3).
  { rewrite variations_steps. cbv zeta. unfold addItem.
    pose proof (baseOutfit_in_catalog (Weather.temp w)) as Hb.
    assert (H3 : length (fst (baseOutfit (Weather.temp w))) = 3).
    { unfold baseVariations in Hb. cbn [In] in Hb.
      destruct Hb as [<- | [<- | [<- | [<- | [<- | [<- | []]]]]]]; reflexivity. }
    destruct (JS.includes (JS.toLowerCase (Weather.main w)) "snow");
      destruct (JS.includes (JS.toLowerCase (Weather.main w)) "rain"
                || JS.includes (JS.toLowerCase (Weather.main w)) "drizzle");
      cbv beta; rewrite ?length_map; exact H3. }
  split; [exact Hlen |]. split.
  - apply Forall_forall. intros v Hv.
    destruct (recommended_items w v Hv) as [base [extras [Hb [_ [Hit Hex]]]]].
    rewrite Hit, length_app.
    assert (Hbase : 3 <= length (items base) <= 4).
    { pose proof (baseOutfit_in_catalog (Weather.temp w)) as Hc.
      unfold baseVariations in Hc. cbn [In] in Hc.
      destruct Hc as [E | [E | [E | [E | [E | [E | []]]]]]];
        rewrite <- E in Hb; cbn in Hb;
        destruct Hb as [<- | [<- | [<- | []]]]; cbn; lia. }
    destruct Hex as [-> | [-> | [-> | ->]]]; cbn [length]; lia.
  - intros E. rewrite E in Hlen. discriminate.
Qed.

(** X17: every successful reply of the weather route, live or demo,
    carries exactly three variations, each with three to six items, so
    the first variation, which the image generation uses, exists. *)
Theorem weather_reply_has_three_variations
        (req : Server.request) (apiKey : option string) (up : Server.upstream)
        (j : Server.jitter) (weather : Server.WeatherSnapshot)
        (outfit : OutfitData) (demoMode : bool) (demoReason : option string) :
  Server.weatherRoute req apiKey up j
  = Server.WeatherJson weather outfit demoMode demoReason ->
  length (variations outfit) = 3 /\
  Forall (fun v => 3 <= length (items v) <= 6) (variations outfit) /\
  variations outfit <> [].
Proof.
  intros H.
  assert (E : exists w, outfit = generateOutfitRecommendation w).
  { unfold Server.weatherRoute in H.
    destruct req as [m | [loc |]]; try discriminate.
    destruct (JS.truthy loc); [| discriminate].
    destruct (if JS.truthyOpt apiKey then Server.liveAttempt up else None)
      as [r |] eqn:Hr.
    - subst r. destruct (JS.truthyOpt apiKey); [| discriminate].
      unfold Server.liveAttempt in Hr. destruct up as [| status b]; [discriminate |].
      destruct (Server.isOk status).
      + destruct b as [| w | m]; try discriminate.
        injection Hr as _ <- _ _. exists w. reflexivity.
      + destruct (Nat.eqb status 401); [discriminate |].
        destruct b; discriminate.
    - unfold Server.demoReply in H. injection H as _ <- _ _.
      eexists. reflexivity. }
  destruct E as [w ->]. apply recommendation_shape.
Qed.

Lemma weather_reply_has_three_variations_witness :
  length (variations
            (generateOutfitRecommendation
               (Server.generateMockWeather "Lisbon"
                  (Server.Jitter 0.5 0.5 0.5 0.5)))) = 3.
Proof.
  refine (proj1 (weather_reply_has_three_variations
                   (Server.Body (Some "Lisbon"%string)) None Server.FetchFails
                   (Server.Jitter 0.5 0.5 0.5 0.5) _ _ true _ eq_refl)).
Defined.

End OutfitExtras.

Section MockExtras.
Import Server.

Open Scope Q_scope.

Lemma findProfile_In (locationLower : string) (table : list (string * profile))
      (data : profile) :
  findProfile locationLower table = Some data ->
  exists city, In (city, data) table /\ JS.includes locationLower city = true.
Proof.
  induction table as [| [city d] table IH]; cbn; [discriminate |].
  destruct (JS.includes locationLower city) eqn:E.
  - intros [= ->]. exists city. split; [left; reflexivity | exact E].
  - intros H. destruct (IH H) as [c [Hin Hc]].
    exists c. split; [right; exact Hin | exact Hc].
Qed.

Lemma cityProfiles_countries :
  forallb (fun kv => negb (String.eqb (country (snd kv)) "XX")) cityProfiles
  = true.
Proof. vm_compute. reflexivity. Qed.

(** X19: the synthesized weather carries the country "XX" exactly when
    the lowercased location contains no city of the table. *)
Theorem unknown_places_are_marked_XX (location : string) (j : jitter) :
  Weather.country (generateMockWeather location j) = "XX"%string
  <-> findProfile (JS.toLowerCase location) cityProfiles = None.
Proof.
  unfold generateMockWeather. cbn [Weather.country].
  destruct (findProfile (JS.toLowerCase location) cityProfiles) as [data |] eqn:E.
  - split; [| discriminate]. intros Hxx. exfalso.
    destruct (findProfile_In _ _ _ E) as [city [Hin _]].
    pose proof cityProfiles_countries as H. rewrite forallb_forall in H.
    specialize (H (city, data) Hin). cbn [snd] in H.
    rewrite Hxx in H. discriminate.
  - split; reflexivity.
Qed.

Lemma mod3_cases (z : Z) : (z mod 3 = 0 \/ z mod 3 = 1 \/ z mod 3 = 2)%Z.
Proof.
  pose proof (Z.mod_pos_bound z 3 eq_refl). lia.
Qed.

(** X18: for a location that matches no city of the table, with
    [Math.random()] in [0, 1), the synthesized temperature lies in
    [7, 42), the condition is Clear, Clouds or Rain with its matching
    description, and no variation of the recommendation lists Snow
    Gear. *)
Theorem seeded_weather_is_mild (location : string) (j : jitter) :
  findProfile (JS.toLowerCase location) cityProfiles = None ->
  0 <= rTemp j -> rTemp j < 1 ->
  let w := generateMockWeather location j in
  7 <= Weather.temp w /\ Weather.temp w < 42 /\
  In (Weather.main w, Weather.description w)
     [("Clear", "clear sky"); ("Clouds", "scattered clouds");
      ("Rain", "light rain")]%string /\
  Forall (fun v => ~ In Catalog.snowGear (Outfit.items v))
         (Outfit.variations (Outfit.generateOutfitRecommendation w)).
Proof.
  intros Hnone H0 H1. cbv zeta.
  assert (Hmain : In (Weather.main (generateMockWeather location j),
                      Weather.description (generateMockWeather location j))
                     [("Clear", "clear sky"); ("Clouds", "scattered clouds");
                      ("Rain", "light rain")]%string).
  { unfold generateMockWeather. rewrite Hnone.
    cbn [Weather.main Weather.description]. unfold seededProfile.
    cbn [condition desc].
    destruct (mod3_cases (seedFrom 0 location)) as [E | [E | E]];
      rewrite E; cbn; tauto. }
  split; [| split; [| split; [exact Hmain |]]].
  - unfold generateMockWeather. rewrite Hnone. cbn [Weather.temp].
    unfold seededProfile. cbn [temp].
    pose proof (Z.mod_pos_bound (seedFrom 0 location) 20 eq_refl) as B20.
    pose proof (Z.mod_pos_bound (seedFrom 0 location) 10 eq_refl) as B10.
    set (z := (15 + seedFrom 0 location mod 20
               + (seedFrom 0 location mod 10 - 5))%Z).
    assert (Hz : inject_Z 10 <= inject_Z z) by (rewrite <- Zle_Qle; lia).
    change (inject_Z 10) with 10 in Hz. lra.
  - unfold generateMockWeather. rewrite Hnone. cbn [Weather.temp].
    unfold seededProfile. cbn [temp].
    pose proof (Z.mod_pos_bound (seedFrom 0 location) 20 eq_refl) as B20.
    pose proof (Z.mod_pos_bound (seedFrom 0 location) 10 eq_refl) as B10.
    set (z := (15 + seedFrom 0 location mod 20
               + (seedFrom 0 location mod 10 - 5))%Z).
    assert (Hz : inject_Z z <= inject_Z 39) by (rewrite <- Zle_Qle; lia).
    change (inject_Z 39) with 39 in Hz. lra.
  - apply Forall_forall. intros v Hv Hsnow.
    set (w := generateMockWeather location j) in *.
    assert (Hno : JS.includes (JS.toLowerCase (Weather.main w)) "snow" = false).
    { cbn [In] in Hmain.
      destruct Hmain as [E | [E | [E | []]]];
        apply (f_equal fst) in E; cbn [fst] in E; rewrite <- E; reflexivity. }
    rewrite variations_steps in Hv. cbv zeta in Hv. rewrite Hno in Hv.
    unfold Outfit.addItem in Hv.
    assert (Hbase : forall b, In b (fst (Outfit.baseOutfit (Weather.temp w))) ->
                              ~ In Catalog.snowGear (Outfit.items b)).
    { intros b Hb.
      pose proof (baseOutfit_in_catalog (Weather.temp w)) as Hc.
      unfold Catalog.baseVariations in Hc. cbn [In] in Hc.
      destruct Hc as [E | [E | [E | [E | [E | [E | []]]]]]];
        rewrite <- E in Hb; cbn in Hb;
        destruct Hb as [<- | [<- | [<- | []]]]; cbn;
        intuition discriminate. }
    destruct (JS.includes (JS.toLowerCase (Weather.main w)) "rain"
              || JS.includes (JS.toLowerCase (Weather.main w)) "drizzle").
    + apply in_map_iff in Hv. destruct Hv as [b [<- Hb]].
      cbn [Outfit.items] in Hsnow. apply in_app_or in Hsnow.
      destruct Hsnow as [Hs | [Hs | []]]; [exact (Hbase b Hb Hs) | discriminate].
    + exact (Hbase v Hv Hsnow).
Qed.

Lemma seeded_weather_is_mild_witness :
  7 <= Weather.temp (generateMockWeather "Atlantis" (Jitter 0 0.5 0.5 0.5)).
Proof.
  refine (proj1 (seeded_weather_is_mild "Atlantis" (Jitter 0 0.5 0.5 0.5) _ _ _)).
  - vm_compute. reflexivity.
  - discriminate.
  - reflexivity.
Defined.

(** X20: in a successful reply of the weather route the flag tells the
    truth: [demoMode] false comes without a reason and only with a key
    and an ok upstream answer, whose data the reply carries; [demoMode]
    true comes with a reason and carries the synthesized weather of the
    requested location. *)
Theorem demo_flag_tells_synthesized_data
        (req : request) (apiKey : option string) (up : upstream) (j : jitter)
        (weather : WeatherSnapshot) (outfit : Outfit.OutfitData)
        (demoMode : bool) (demoReason : option string) :
  weatherRoute req apiKey up j = WeatherJson weather outfit demoMode demoReason ->
  (demoMode = false ->
   demoReason = None /\
   exists status w,
     JS.truthyOpt apiKey = true /\ up = Response status (WeatherBody w) /\
     isOk status = true /\
     weather = snapshot w /\ outfit = Outfit.generateOutfitRecommendation w) /\
  (demoMode = true ->
   demoReason <> None /\
   exists location,
     req = Body (Some location) /\
     weather = snapshot (generateMockWeather location j) /\
     outfit = Outfit.generateOutfitRecommendation
                (generateMockWeather location j)).
Proof.
  intros H. unfold weatherRoute in H.
  destruct req as [m | [loc |]]; try discriminate.
  destruct (JS.truthy loc); [| discriminate].
  assert (Hdemo : demoReply loc apiKey j
                  = WeatherJson weather outfit demoMode demoReason ->
                  demoMode = true /\ demoReason <> None /\
                  weather = snapshot (generateMockWeather loc j) /\
                  outfit = Outfit.generateOutfitRecommendation
                             (generateMockWeather loc j)).
  { unfold demoReply. intros [= <- <- <- <-]. repeat split. discriminate. }
  destruct (JS.truthyOpt apiKey) eqn:Hk.
  - destruct up as [| status b]; cbn [liveAttempt] in H.
    + destruct (Hdemo H) as [-> [Hr [Hw Ho]]].
      split; [discriminate |]. intros _. split; [exact Hr |].
      exists loc. repeat split; assumption.
    + destruct (isOk status) eqn:Hok.
      * destruct b as [| w | m].
        -- destruct (Hdemo H) as [-> [Hr [Hw Ho]]].
           split; [discriminate |]. intros _. split; [exact Hr |].
           exists loc. repeat split; assumption.
        -- injection H as <- <- <- <-.
           split; [| discriminate]. intros _. split; [reflexivity |].
           exists status, w. repeat split. exact Hok.
        -- destruct (Hdemo H) as [-> [Hr [Hw Ho]]].
           split; [discriminate |]. intros _. split; [exact Hr |].
           exists loc. repeat split; assumption.
      * destruct (Nat.eqb status 401).
        -- destruct (Hdemo H) as [-> [Hr [Hw Ho]]].
           split; [discriminate |]. intros _. split; [exact Hr |].
           exists loc. repeat split; assumption.
        -- destruct b as [| w | m]; try discriminate.
           destruct (Hdemo H) as [-> [Hr [Hw Ho]]].
           split; [discriminate |]. intros _. split; [exact Hr |].
           exists loc. repeat split; assumption.
  - destruct (Hdemo H) as [-> [Hr [Hw Ho]]].
    split; [discriminate |]. intros _. split; [exact Hr |].
    exists loc. repeat split; assumption.
Qed.

Lemma demo_flag_tells_synthesized_data_witness :
  exists location,
    Body (Some "Lisbon"%string) = Body (Some location) /\
    snapshot (generateMockWeather "Lisbon" (Jitter 0.5 0.5 0.5 0.5))
    = snapshot (generateMockWeather location (Jitter 0.5 0.5 0.5 0.5)) /\
    Outfit.generateOutfitRecommendation
      (generateMockWeather "Lisbon" (Jitter 0.5 0.5 0.5 0.5))
    = Outfit.generateOutfitRecommendation
        (generateMockWeather location (Jitter 0.5 0.5 0.5 0.5)).
Proof.
  refine (proj2 (proj2 (demo_flag_tells_synthesized_data
            (Body (Some "Lisbon"%string)) None FetchFails
            (Jitter 0.5 0.5 0.5 0.5) _ _ true _ eq_refl) eq_refl)).
Defined.

End MockExtras.

(** ** The carousel *)

Section CarouselFacts.
Import Carousel.

Open Scope Z_scope.

Lemma step_in_range (length i : Z) (c : click) :
  0 <= i < length -> 0 <= step length i c < length.
Proof.
  intros H. destruct c; cbn [step]; unfold handlePrev, handleNext.
  - destruct (Z.eqb_spec i 0); lia.
  - destruct (Z.eqb_spec i (length - 1)); lia.
Qed.

(** X21: with at least one variation, the carousel index stays on an
    existing variation after any series of clicks, and previous and next
    undo each other. *)
Theorem carousel_stays_on_a_variation (length : Z) (clicks : list click) :
  1 <= length ->
  0 <= currentIndex length clicks < length /\
  (forall i, 0 <= i < length ->
             handlePrev length (handleNext length i) = i /\
             handleNext length (handlePrev length i) = i).
Proof.
  intros Hlen. split.
  - unfold currentIndex.
    assert (H : forall i, 0 <= i < length ->
                          0 <= fold_left (step length) clicks i < length).
    { induction clicks as [| c cs IH]; intros i Hi; cbn [fold_left];
        [exact Hi |].
      apply IH, step_in_range, Hi. }
    apply H. lia.
  - intros i Hi. unfold handlePrev, handleNext. split.
    + destruct (Z.eqb_spec i (length - 1)).
      * rewrite Z.eqb_refl. lia.
      * destruct (Z.eqb_spec (i + 1) 0); lia.
    + destruct (Z.eqb_spec i 0).
      * rewrite Z.eqb_refl. lia.
      * destruct (Z.eqb_spec (i - 1) (length - 1)); lia.
Qed.

Lemma carousel_stays_on_a_variation_witness :
  0 <= currentIndex 3 [Prev; Prev; Next; Prev] < 3.
Proof.
  refine (proj1 (carousel_stays_on_a_variation 3 [Prev; Prev; Next; Prev] _)).
  lia.
Defined.

End CarouselFacts.

(** ** The start route and the client *)

Section GenerateRouteFacts.
Import GenerateRoute.

(** Closes goals saying that an error text, possibly chosen by [||], is
    not empty. *)
Ltac nonempty :=
  repeat match goal with
    | |- JS.truthy (match ?x with Some _ => _ | None => _ end) = true =>
        destruct x
    | |- JS.truthy (if JS.truthy ?m then ?m else _) = true =>
        let E := fresh "E" in destruct (JS.truthy m) eqn:E; [exact E |]
    end;
  first [reflexivity | apply orElse_truthy; reflexivity].

Lemma start_route_error_truthy
      (req : request) (apiKey : option string) (up : upstream)
      (error : string) (code : nat) :
  route req apiKey up = Error error code -> JS.truthy error = true.
Proof.
  unfold route.
  destruct req as [m | [w |] [s |] [names |]];
    try (intros [= <- _]; nonempty).
  destruct (negb (JS.truthy s)); [intros [= <- _]; nonempty |].
  destruct (negb (JS.truthyOpt apiKey)); [intros [= <- _]; nonempty |].
  destruct up as [m | status [| te | c msg [t |]]].
  - intros [= <- _]. nonempty.
  - intros [= <- _]. nonempty.
  - destruct (negb (Server.isOk status)); intros [= <- _]; nonempty.
  - destruct (negb (Server.isOk status) || errorCode c).
    + intros [= <- _]. nonempty.
    + destruct (JS.truthy t); [discriminate | intros [= <- _]; nonempty].
  - destruct (negb (Server.isOk status) || errorCode c); intros [= <- _]; nonempty.
Qed.

(** X22: the start route answers with a task id only when the request
    has weather, a non-empty style and items, a key is configured and the
    provider answers ok, without an error code, with that non-empty task
    id; when it answers with an error, the client shows exactly the
    route's error text on the job and asks for no status. *)
Theorem start_route_and_client
        (req : request) (apiKey : option string) (up : upstream) :
  (forall taskId,
      route req apiKey up = Started taskId ->
      JS.truthy taskId = true /\ JS.truthyOpt apiKey = true /\
      exists w style names status code msg,
        req = Body (Some w) (Some style) (Some names) /\
        JS.truthy style = true /\
        up = Response status (JsonData code msg (Some taskId)) /\
        Server.isOk status = true /\ errorCode code = false) /\
  (forall error code details responseText city oracle,
      route req apiKey up = Error error code ->
      Generate.handleGenerateOutfit city
        (toStart details responseText (route req apiKey up)) oracle
      = [Poll.SetJob (Poll.GeneratedOutfit city None true None None);
         Poll.SetJob (Poll.GeneratedOutfit city None false (Some error) None)]).
Proof.
  split.
  - intros taskId H. unfold route in H.
    destruct req as [m | [w |] [s |] [names |]]; try discriminate.
    destruct (JS.truthy s) eqn:Hs; [| discriminate]. cbn [negb] in H.
    destruct (JS.truthyOpt apiKey) eqn:Hk; [| discriminate]. cbn [negb] in H.
    destruct up as [m | status [| te | c msg [t |]]]; try discriminate.
    + destruct (negb (Server.isOk status)); discriminate.
    + destruct (Server.isOk status) eqn:Hok; [| discriminate]. cbn [negb orb] in H.
      destruct (errorCode c) eqn:Hc; [discriminate |].
      destruct (JS.truthy t) eqn:Ht; [| discriminate].
      injection H as <-.
      repeat split; try assumption.
      exists w, s, names, status, c, msg. repeat split; assumption.
    + destruct (negb (Server.isOk status) || errorCode c); discriminate.
  - intros error code details responseText city oracle H.
    pose proof (start_route_error_truthy _ _ _ _ _ H) as Ht.
    rewrite H. unfold Generate.handleGenerateOutfit. cbn [toStart].
    unfold Generate.startGeneration. cbn [negb].
    unfold Generate.failed.
    rewrite (orElse_some error _ Ht), (orElse_some error _ Ht). reflexivity.
Qed.

Lemma start_route_and_client_witness :
  JS.truthy "t-42" = true.
Proof.
  refine (proj1 (proj1 (start_route_and_client
                   (Body (Some (WeatherInfo 14 "Rain")) (Some "Smart Casual"%string)
                         (Some ["Light Jacket"; "Sneakers"]%string))
                   (Some "key"%string)
                   (Response 200 (JsonData (Some 200%Z) None (Some "t-42"%string))))
                 "t-42"%string _)).
  reflexivity.
Defined.

Lemma includes_prefix (n b : string) : JS.includes (n ++ b) n = true.
Proof.
  assert (H : String.prefix n (n ++ b) = true).
  { induction n as [| c n IH]; [destruct b; reflexivity |].
    cbn. rewrite IH. destruct (ascii_dec c c); [reflexivity | contradiction]. }
  destruct n as [| c n].
  - destruct b; reflexivity.
  - cbn [String.append JS.includes] in *. rewrite H. reflexivity.
Qed.

Lemma includes_skip (a h n : string) :
  JS.includes h n = true -> JS.includes (a ++ h) n = true.
Proof.
  intros H. induction a as [| c a IH]; [exact H |].
  cbn [String.append JS.includes]. rewrite IH.
  destruct (String.prefix n (String c (a ++ h))); reflexivity.
Qed.

Lemma includes_middle (a n b : string) : JS.includes (a ++ n ++ b) n = true.
Proof.
  apply includes_skip, includes_prefix.
Qed.

Lemma join_mentions (names : list string) (n : string) :
  In n names -> exists a b, join names = (a ++ n ++ b)%string.
Proof.
  induction names as [| x rest IH]; [intros [] |].
  intros [-> | Hin].
  - destruct rest as [| y rest'].
    + exists EmptyString, EmptyString. cbn. rewrite append_empty_r. reflexivity.
    + exists EmptyString, (", " ++ join (y :: rest'))%string. reflexivity.
  - destruct (IH Hin) as [a [b E]].
    destruct rest as [| y rest']; [destruct Hin |].
    exists (x ++ ", " ++ a)%string, b.
    change (join (x :: y :: rest')) with (x ++ ", " ++ join (y :: rest'))%string.
    rewrite E, !append_assoc. reflexivity.
Qed.

(** X23: the prompt sent to the provider contains the weather
    condition, the style and the name of every item. *)
Theorem prompt_mentions_the_outfit
        (w : weatherInfo) (style : string) (names : list string) :
  JS.includes (prompt w style names) (condition w) = true /\
  JS.includes (prompt w style names) style = true /\
  Forall (fun n => JS.includes (prompt w style names) n = true) names.
Proof.
  unfold prompt. split; [| split].
  - apply includes_middle.
  - do 5 apply includes_skip. apply includes_prefix.
  - apply Forall_forall. intros n Hn.
    destruct (join_mentions names n Hn) as [a [b E]]. rewrite E.
    do 7 apply includes_skip.
    rewrite !append_assoc. apply includes_middle.
Qed.

End GenerateRouteFacts.

(** ** Answering an utterance *)

Section ConversationFacts.
Import Conversation.


(** X25: a comparison is answered only when both cities were served,
    and then with both snapshots and demo mode if either is a demo; when
    either city was not served the whole comparison fails with a
    non-empty error text. *)
Theorem comparison_is_all_or_nothing
        (fetchImage : string -> string) (w1 w2 : wire) :
  (forall m,
      respondCompare fetchImage w1 w2 = Answered m ->
      exists weather1 outfit1 demo1 weather2 outfit2 demo2,
        w1 = Served weather1 outfit1 demo1 /\
        w2 = Served weather2 outfit2 demo2 /\
        m = ComparisonMessage weather1 (withImages fetchImage outfit1)
                              weather2 (withImages fetchImage outfit2)
                              (demo1 || demo2)) /\
  ((forall weather outfit demo, w1 <> Served weather outfit demo) \/
   (forall weather outfit demo, w2 <> Served weather outfit demo) ->
   exists text, respondCompare fetchImage w1 w2 = Failed (Some text) /\
                JS.truthy text = true).
Proof.
  split.
  - intros m H.
    destruct w1 as [| e1 s1 | we1 o1 d1]; destruct w2 as [| e2 s2 | we2 o2 d2];
      try discriminate.
    injection H as <-. eexists _, _, _, _, _, _. repeat split.
  - assert (Htrim : forall rest,
               JS.truthy (JS.trim ("I'm sorry, I couldn't fetch weather data. "
                                   ++ rest)) = true).
    { intros rest. cbn [String.append]. unfold JS.trim.
      cbn [JS.trimStart JS.isSpace JS.code nat_of_ascii].
      change (JS.isSpace "I") with false. cbv iota.
      cbn [JS.trimEnd]. destruct (JS.trimEnd _); reflexivity. }
    intros Hnot.
    destruct w1 as [| e1 s1 | we1 o1 d1]; destruct w2 as [| e2 s2 | we2 o2 d2];
      cbn [respondCompare];
      try (eexists; split; [reflexivity | first [reflexivity | apply Htrim]]).
    exfalso. destruct Hnot as [H | H]; eapply H; reflexivity.
Qed.

Lemma comparison_is_all_or_nothing_witness :
  exists text,
    respondCompare (fun _ => Photo.genericFallback)
                   (Refused (Some "city not found"%string) false) Unreachable
    = Failed (Some text) /\ JS.truthy text = true.
Proof.
  refine (proj2 (comparison_is_all_or_nothing
                   (fun _ => Photo.genericFallback)
                   (Refused (Some "city not found"%string) false) Unreachable) _).
  right. intros weather outfit demo. discriminate.
Defined.

Lemma sorry_text_truthy (rest : string) :
  JS.truthy ("I'm sorry, I couldn't fetch the weather data. " ++ rest) = true.
Proof. reflexivity. Qed.

Lemma respondSingle_speaks (fetchImage : string -> string) (w : wire)
      (error : option string) :
  plain w -> respondSingle fetchImage w = Failed error ->
  JS.truthyOpt error = true.
Proof.
  destruct w as [| e [|] | we o d]; cbn [plain respondSingle];
    try contradiction; intros _ H; try discriminate;
    injection H as <-; reflexivity.
Qed.

Lemma respondCompare_speaks (fetchImage : string -> string) (w1 w2 : wire)
      (error : option string) :
  respondCompare fetchImage w1 w2 = Failed error -> JS.truthyOpt error = true.
Proof.
  assert (Htrim : forall rest,
             JS.truthy (JS.trim ("I'm sorry, I couldn't fetch weather data. "
                                 ++ rest)) = true).
  { intros rest. cbn [String.append]. unfold JS.trim.
    cbn [JS.trimStart]. change (JS.isSpace "I") with false. cbv iota.
    cbn [JS.trimEnd]. destruct (JS.trimEnd _); reflexivity. }
  destruct w1 as [| e1 s1 | we1 o1 d1]; destruct w2 as [| e2 s2 | we2 o2 d2];
    cbn [respondCompare]; intros H; try discriminate;
    injection H as <-; first [reflexivity | apply Htrim].
Qed.

(** X26: [handleSend] only appends to the transcript: nothing for a
    blank input; otherwise the user's text followed by at most one
    answer, and exactly one when no reply asks for a set-up (the weather
    route of this repository never does). *)
Theorem transcript_is_append_only
        (messages : list entry) (inputValue : string)
        (fetchImage : string -> string) (first second : string -> wire) :
  exists tail,
    handleSend messages inputValue fetchImage first second = messages ++ tail /\
    (JS.truthy (JS.trim inputValue) = false -> tail = []) /\
    (JS.truthy (JS.trim inputValue) = true ->
     exists answer,
       tail = UserText inputValue :: answer /\ length answer <= 1 /\
       ((forall city, plain (first city)) -> length answer = 1)).
Proof.
  unfold handleSend.
  destruct (JS.truthy (JS.trim inputValue)) eqn:Hin; cbn [negb].
  - cbv zeta.
    destruct (getWeatherResponse inputValue fetchImage first second)
      as [error | m] eqn:Hres.
    + destruct (JS.truthyOpt error) eqn:He.
      * eexists. split; [rewrite <- app_assoc; reflexivity |].
        split; [discriminate |]. intros _.
        eexists. split; [reflexivity |]. split; [cbn; lia | reflexivity].
      * exists [UserText inputValue]. split; [reflexivity |].
        split; [discriminate |]. intros _.
        exists []. split; [reflexivity |]. split; [cbn; lia |].
        intros Hplain. exfalso.
        unfold getWeatherResponse in Hres.
        destruct (Intent.extractIntent inputValue) as [c1 c2 | loc].
        -- apply respondCompare_speaks in Hres. congruence.
        -- apply respondSingle_speaks in Hres; [congruence | apply Hplain].
    + eexists. split; [rewrite <- app_assoc; reflexivity |].
      split; [discriminate |]. intros _.
      eexists. split; [reflexivity |]. split; [cbn; lia | reflexivity].
  - exists []. split; [rewrite app_nil_r; reflexivity |].
    split; [reflexivity | discriminate].
Qed.

(** X27: whenever the extractor arrives at an empty location, the
    weather route refuses the request and the user is told "I'm sorry, I
    couldn't fetch the weather data. Location is required". *)
Theorem empty_location_is_refused
        (userMessage : string) (fetchImage : string -> string)
        (apiKey : option string) (up : string -> Server.upstream)
        (j : Server.jitter) (second : string -> wire) :
  Intent.extractIntent userMessage = Intent.SingleCity EmptyString ->
  getWeatherResponse userMessage fetchImage
    (fun location =>
       toWire (Server.weatherRoute (Server.Body (Some location)) apiKey
                                   (up location) j))
    second
  = Failed (Some "I'm sorry, I couldn't fetch the weather data. Location is required"%string).
Proof.
  intros H. unfold getWeatherResponse. rewrite H. reflexivity.
Qed.

Lemma empty_location_is_refused_witness :
  getWeatherResponse "forecast for today" (fun _ => Photo.genericFallback)
    (fun location =>
       toWire (Server.weatherRoute (Server.Body (Some location)) None
                                   Server.FetchFails
                                   (Server.Jitter 0.5 0.5 0.5 0.5)))
    (fun _ => Unreachable)
  = Failed (Some "I'm sorry, I couldn't fetch the weather data. Location is required"%string).
Proof.
  apply (empty_location_is_refused "forecast for today").
  vm_compute. reflexivity.
Defined.

(** X28: without a weather key, every utterance that yields a single
    non-empty location is answered with a demo card for that location
    (first letter capitalised), with three variations and a non-empty
    image URL for every item, whatever the photo route does. *)
Theorem demo_mode_always_answers
        (userMessage location : string) (live : string -> Photo.live)
        (up : string -> Server.upstream) (j : Server.jitter)
        (second : string -> wire) :
  Intent.extractIntent userMessage = Intent.SingleCity location ->
  JS.truthy location = true ->
  exists weather shown,
    getWeatherResponse userMessage
      (fun q => Photo.fetchUnsplashImage (live q) q)
      (fun city =>
         toWire (Server.weatherRoute (Server.Body (Some city)) None (up city) j))
      second
    = Answered (WeatherMessage weather shown true) /\
    Server.sLocation weather = JS.capitalize location /\
    length (variations shown) = 3 /\
    Forall (fun v => Forall (fun i => JS.truthy (imageUrl i) = true) (items v))
           (variations shown).
Proof.
  intros H Hloc. unfold getWeatherResponse. rewrite H.
  unfold Server.weatherRoute. rewrite Hloc. cbn [JS.truthyOpt].
  unfold Server.demoReply. cbn [toWire respondSingle].
  eexists _, _. split; [reflexivity |]. split; [reflexivity |].
  split.
  - unfold withImages. cbn [variations]. rewrite length_map.
    apply recommendation_shape.
  - unfold withImages. cbn [variations].
    apply Forall_forall. intros v Hv. apply in_map_iff in Hv.
    destruct Hv as [v0 [<- _]]. cbn [items].
    apply Forall_forall. intros i Hi. apply in_map_iff in Hi.
    destruct Hi as [i0 [<- _]]. cbn [imageUrl].
    apply fetchUnsplashImage_truthy.
Qed.

Lemma demo_mode_always_answers_witness :
  exists weather shown,
    getWeatherResponse "weather in Seattle"
      (fun q => Photo.fetchUnsplashImage Photo.LiveError q)
      (fun city =>
         toWire (Server.weatherRoute (Server.Body (Some city)) None
                                     Server.FetchFails
                                     (Server.Jitter 0.5 0.5 0.5 0.5)))
      (fun _ => Unreachable)
    = Answered (WeatherMessage weather shown true) /\
    Server.sLocation weather = JS.capitalize "Seattle" /\
    length (variations shown) = 3 /\
    Forall (fun v => Forall (fun i => JS.truthy (imageUrl i) = true) (items v))
           (variations shown).
Proof.
  apply (demo_mode_always_answers "weather in Seattle" "Seattle").
  - vm_compute. reflexivity.
  - reflexivity.
Defined.

End ConversationFacts.
